(** * Link-resolution pipeline of the Moviesda / isaidub scraper

    A shallow embedding of [MoviesdaScraper] (src/main.py): the image
    extractor, the page resolver, the redirect chain walker and the
    aggregator, followed by the properties of the specification that concern
    them; then the listing and search front end, the playlist writer and
    the run that ties them together, with the properties their code shows.

    Conventions of the embedding.
    - Python [str] values are [string]s of 8-bit characters; case folding,
      whitespace and digit classes are the ASCII ones.
    - A parsed page (a [BeautifulSoup] object) is a tree of [node]s; the
      selectors used by the scraper are functions over that tree.
    - [requests] is the outside world: the answer to the n-th request of a
      run is [web n url] ([None] when the request raises
      [requests.RequestException]), so a page may change or vanish between
      two requests; every function that fetches threads the log of the URLs
      requested so far. The delay before a request and the printed
      progress lines are left out.
    - [urllib.parse.urljoin] and [urllib.parse.urlparse] are library
      functions and are taken as parameters; module [Lib] has stand-ins for
      the examples.
    - The only exception the scraper catches is
      [requests.RequestException], in [_get_soup]. Any other exception (a
      [ValueError] of [urljoin] on a malformed href, a
      [LocationParseError] of urllib3 on a malformed URL) ends the Python
      run where it is raised. Such runs have no counterpart here: every
      statement below is about the runs in which [urljoin], [urlparse] and
      the request return.
    - [MAX_PAGES] and [MAX_MOVIES] reach [main] and [scrape_category] as
      integers that nothing validates, and are [Z]s there; the slice
      [xs[:n]] is [py_prefix n xs], also for a negative [n]. The page and
      result counts of the listing and search functions are [nat]s. *)

From Stdlib Require Import String Ascii List Arith ZArith Lia Bool DecimalString.
Import ListNotations.
Local Open Scope string_scope.
Local Open Scope list_scope.

Set Implicit Arguments.

(* ================================================================== *)
(** ** Python string operations *)
(* ================================================================== *)

Module Str.

Definition code (c : ascii) : nat := nat_of_ascii c.

Definition between (lo hi : nat) (c : ascii) : bool :=
  Nat.leb lo (code c) && Nat.leb (code c) hi.

Definition is_upper : ascii -> bool := between 65 90.
Definition is_lower : ascii -> bool := between 97 122.
Definition is_alpha (c : ascii) : bool := is_upper c || is_lower c.
Definition is_digit : ascii -> bool := between 48 57.

(** [str.isspace] on one ASCII character: TAB..CR, FS..US and SPACE. *)
Definition is_space (c : ascii) : bool :=
  between 9 13 c || between 28 32 c.

Definition lower_char (c : ascii) : ascii :=
  if is_upper c then ascii_of_nat (code c + 32) else c.

Definition upper_char (c : ascii) : ascii :=
  if is_lower c then ascii_of_nat (code c - 32) else c.

(** [s.lower()] *)
Fixpoint lower (s : string) : string :=
  match s with
  | EmptyString => EmptyString
  | String c r => String (lower_char c) (lower r)
  end.

(** [s.startswith(p)] *)
Definition startswith (s p : string) : bool := String.prefix p s.

(** [needle in hay] *)
Fixpoint contains (needle hay : string) : bool :=
  String.prefix needle hay ||
  match hay with
  | EmptyString => false
  | String _ r => contains needle r
  end.

(** truth value of a [str] *)
Definition nonempty (s : string) : bool :=
  match s with EmptyString => false | _ => true end.

Fixpoint lstrip (s : string) : string :=
  match s with
  | String c r => if is_space c then lstrip r else s
  | EmptyString => EmptyString
  end.

Fixpoint rstrip (s : string) : string :=
  match s with
  | EmptyString => EmptyString
  | String c r =>
      match rstrip r with
      | EmptyString => if is_space c then EmptyString else String c EmptyString
      | r' => String c r'
      end
  end.

(** [s.strip()] *)
Definition strip (s : string) : string := rstrip (lstrip s).

Fixpoint take_word (s : string) : string :=
  match s with
  | EmptyString => EmptyString
  | String c r => if is_space c then EmptyString else String c (take_word r)
  end.

(** [s.split()[0]], for an [s] that has a character that is no space
    (the empty string stands for the [IndexError] otherwise; the scraper
    only calls it on such strings). *)
Definition first_word (s : string) : string := take_word (lstrip s).

(** [s.split(sep)[0]]: the part of [s] before the first [sep]. *)
Fixpoint before (sep s : string) : string :=
  if String.prefix sep s then EmptyString
  else match s with
       | EmptyString => EmptyString
       | String c r => String c (before sep r)
       end.

(** [s.replace(a, b)] for one-character [a] and [b]. *)
Fixpoint replace_char (a b : ascii) (s : string) : string :=
  match s with
  | EmptyString => EmptyString
  | String c r => String (if Ascii.eqb c a then b else c) (replace_char a b r)
  end.

Fixpoint title_from (prev_cased : bool) (s : string) : string :=
  match s with
  | EmptyString => EmptyString
  | String c r =>
      String (if prev_cased then lower_char c else upper_char c)
             (title_from (is_alpha c) r)
  end.

(** [s.title()] *)
Definition title (s : string) : string := title_from false s.

(** [str(n)] for a natural number *)
Definition of_nat (n : nat) : string :=
  NilZero.string_of_uint (Nat.to_uint n).

(** [s.zfill(2)] for a string of digits *)
Definition zfill2 (s : string) : string :=
  match s with
  | EmptyString => "00"
  | String c EmptyString => String "0"%char s
  | _ => s
  end.

Fixpoint take (n : nat) (s : string) : string :=
  match n, s with
  | S m, String c r => String c (take m r)
  | _, _ => EmptyString
  end.

(** [s.replace(a, "")] for a one-character [a] *)
Fixpoint remove_char (a : ascii) (s : string) : string :=
  match s with
  | EmptyString => EmptyString
  | String c r =>
      if Ascii.eqb c a then remove_char a r else String c (remove_char a r)
  end.

(** [c.isalnum()] *)
Definition is_alnum (c : ascii) : bool := is_alpha c || is_digit c.

(** ["".join(c for c in s if p(c))] *)
Fixpoint keep (p : ascii -> bool) (s : string) : string :=
  match s with
  | EmptyString => EmptyString
  | String c r => if p c then String c (keep p r) else keep p r
  end.

(** [s.split(sep)[-1]] for a one-character [sep]: the part of [s] after
    its last [sep]. *)
Fixpoint after_last (sep : ascii) (s : string) : string :=
  match s with
  | EmptyString => EmptyString
  | String c r =>
      if contains (String sep EmptyString) r then after_last sep r
      else if Ascii.eqb c sep then r
      else s
  end.

(** every character of [s] satisfies [p] *)
Fixpoint all_chars (p : ascii -> bool) (s : string) : bool :=
  match s with
  | EmptyString => true
  | String c r => p c && all_chars p r
  end.

(** [s.split(sep)] for a one-character [sep] *)
Fixpoint split_char (sep : ascii) (s : string) : list string :=
  match s with
  | EmptyString => [EmptyString]
  | String c r =>
      if Ascii.eqb c sep then EmptyString :: split_char sep r
      else match split_char sep r with
           | x :: xs => String c x :: xs
           | [] => [String c EmptyString]
           end
  end.

(** [[x.strip() for x in s.split(",") if x.strip()]] *)
Definition comma_list (s : string) : list string :=
  filter nonempty (map strip (split_char "," s)).

End Str.

(* ================================================================== *)
(** ** Regular expressions, as [re] matches them *)
(* ================================================================== *)

Module Re.

(** The fragment of Python's pattern language that the scraper uses. A
    backtracking matcher: alternatives left to right, greedy or lazy
    repetition, numbered groups. *)
Inductive regex : Type :=
| Eps
| Chr (p : ascii -> bool)
| Seq (r1 r2 : regex)
| Alt (r1 r2 : regex)
| Star (greedy : bool) (r : regex)
| Grp (n : nat) (r : regex)
| Eos.

(** remaining input and the groups closed so far (latest first) *)
Definition st : Type := string * list (nat * string).

Fixpoint run (r : regex) (s : st) (k : st -> option (list (nat * string)))
  {struct r} : option (list (nat * string)) :=
  match r with
  | Eps => k s
  | Chr p =>
      match fst s with
      | String c rest => if p c then k (rest, snd s) else None
      | EmptyString => None
      end
  | Seq r1 r2 => run r1 s (fun s1 => run r2 s1 k)
  | Alt r1 r2 =>
      match run r1 s k with
      | Some g => Some g
      | None => run r2 s k
      end
  | Star greedy r1 =>
      (fix loop (fuel : nat) (s0 : st) {struct fuel} :=
         match fuel with
         | O => k s0
         | S fuel' =>
             let again (_ : unit) :=
               run r1 s0 (fun s1 =>
                 if Nat.ltb (String.length (fst s1)) (String.length (fst s0))
                 then loop fuel' s1 else None) in
             if greedy
             then match again tt with Some g => Some g | None => k s0 end
             else match k s0 with Some g => Some g | None => again tt end
         end) (S (String.length (fst s))) s
  | Grp n r1 =>
      run r1 s (fun s1 =>
        let len := String.length (fst s) - String.length (fst s1) in
        k (fst s1, (n, Str.take len (fst s)) :: snd s1))
  | Eos =>
      (* [$] without MULTILINE: at the end, or before a final newline *)
      match fst s with
      | EmptyString => k s
      | String c EmptyString => if Ascii.eqb c "010"%char then k s else None
      | _ => None
      end
  end.

(** [re.match(r, s)]: the groups of the match at position 0, if any *)
Definition rmatch (r : regex) (s : string) : option (list (nat * string)) :=
  run r (s, []) (fun s1 => Some (snd s1)).

(** [re.search(r, s)]: the groups of the leftmost match, if any *)
Fixpoint search (r : regex) (s : string) : option (list (nat * string)) :=
  match rmatch r s with
  | Some g => Some g
  | None =>
      match s with
      | EmptyString => None
      | String _ rest => search r rest
      end
  end.

(** [m.group(n)] for a group that took part in the match *)
Fixpoint group (n : nat) (g : list (nat * string)) : string :=
  match g with
  | [] => EmptyString
  | (m, v) :: g' => if Nat.eqb m n then v else group n g'
  end.

Definition is_some {A} (o : option A) : bool :=
  match o with Some _ => true | None => false end.

(** pattern combinators *)
Definition chr (c : ascii) : regex := Chr (Ascii.eqb c).
(** one literal character under [re.IGNORECASE] *)
Definition chri (c : ascii) : regex :=
  Chr (fun x => Ascii.eqb (Str.lower_char x) (Str.lower_char c)).
Fixpoint lit (s : string) : regex :=
  match s with
  | EmptyString => Eps
  | String c r => Seq (chr c) (lit r)
  end.
Fixpoint liti (s : string) : regex :=
  match s with
  | EmptyString => Eps
  | String c r => Seq (chri c) (liti r)
  end.
Fixpoint seq (l : list regex) : regex :=
  match l with
  | [] => Eps
  | r :: l' => Seq r (seq l')
  end.
Definition plus (r : regex) : regex := Seq r (Star true r).
Definition plus_lazy (r : regex) : regex := Seq r (Star false r).
Definition opt (r : regex) : regex := Alt r Eps.
Definition dot : regex := Chr (fun c => negb (Ascii.eqb c "010"%char)).
Definition digit : regex := Chr Str.is_digit.
Definition space : regex := Chr Str.is_space.
Definition not_slash : regex := Chr (fun c => negb (Ascii.eqb c "/"%char)).

(** the input left after the match of [r] at position 0, if any *)
Definition match_rest (r : regex) (s : string) : option string :=
  match run r (s, []) (fun s1 => Some [(0, fst s1)]) with
  | Some g => Some (group 0 g)
  | None => None
  end.

Fixpoint sub_from (fuel : nat) (r : regex) (s : string) : string :=
  match fuel with
  | O => s
  | S fuel' =>
      let copy :=
        match s with
        | EmptyString => EmptyString
        | String c s' => String c (sub_from fuel' r s')
        end in
      match match_rest r s with
      | Some rest =>
          if Nat.ltb (String.length rest) (String.length s)
          then sub_from fuel' r rest
          else copy
      | None => copy
      end
  end.

(** [re.sub(r, "", s)]: every match of [r], leftmost first and without
    overlap, is cut out. *)
Definition sub_empty (r : regex) (s : string) : string :=
  sub_from (S (String.length s)) r s.

End Re.

(* ================================================================== *)
(** ** Parsed pages *)
(* ================================================================== *)

Module Dom.

(** An element carries its tag name, the values of its [class] attribute
    (a list, as the parser stores it) and its other attributes. *)
#[local] Unset Elimination Schemes.
Inductive node : Type :=
| Text (s : string)
| Elem (tag : string) (classes : list string)
       (attrs : list (string * string)) (children : list node).

#[local] Set Elimination Schemes.

Definition is_tag (t : string) (n : node) : bool :=
  match n with Elem t' _ _ _ => String.eqb t' t | Text _ => false end.

Definition has_class (c : string) (n : node) : bool :=
  match n with
  | Elem _ cs _ _ => existsb (String.eqb c) cs
  | Text _ => false
  end.

Fixpoint lookup (key : string) (l : list (string * string)) : option string :=
  match l with
  | [] => None
  | (k, v) :: l' => if String.eqb k key then Some v else lookup key l'
  end.

(** [tag.get(key, "")] *)
Definition get (n : node) (key : string) : string :=
  match n with
  | Elem _ _ attrs _ =>
      match lookup key attrs with Some v => v | None => EmptyString end
  | Text _ => EmptyString
  end.

Definition has_attr (key : string) (n : node) : bool :=
  match n with
  | Elem _ _ attrs _ =>
      match lookup key attrs with Some _ => true | None => false end
  | Text _ => false
  end.

(** The elements below [n] in document order, [n] itself excluded. *)
Fixpoint descendants (n : node) : list node :=
  match n with
  | Text _ => []
  | Elem _ _ _ cs =>
      (fix each (l : list node) : list node :=
         match l with
         | [] => []
         | c :: l' =>
             match c with
             | Text _ => each l'
             | Elem _ _ _ _ => c :: descendants c ++ each l'
             end
         end) cs
  end.

(** [n.find_all(t)] *)
Definition find_all (t : string) (n : node) : list node :=
  filter (is_tag t) (descendants n).

(** [n.find_all("a", href=True)] *)
Definition find_all_a_href (n : node) : list node :=
  filter (fun e => is_tag "a" e && has_attr "href" e) (descendants n).

(** [n.find(t)] *)
Definition find (t : string) (n : node) : option node :=
  hd_error (find_all t n).

(** [n.find("a", href=True)] *)
Definition find_a_href (n : node) : option node :=
  hd_error (find_all_a_href n).

(** [soup.select("t.c")] *)
Definition select (t c : string) (n : node) : list node :=
  filter (fun e => is_tag t e && has_class c e) (descendants n).

(** The elements below [n] that satisfy [tgt] and lie below an element
    that satisfies [anc]: the descendant combinator of a CSS selector.
    [inside] tells whether [n] or an element above it satisfies [anc]. *)
Fixpoint select_below (anc tgt : node -> bool) (inside : bool) (n : node)
  : list node :=
  match n with
  | Text _ => []
  | Elem _ _ _ cs =>
      (fix each (l : list node) : list node :=
         match l with
         | [] => []
         | c :: l' =>
             match c with
             | Text _ => each l'
             | Elem _ _ _ _ =>
                 (if inside && tgt c then [c] else [])
                 ++ select_below anc tgt (inside || anc c) c ++ each l'
             end
         end) cs
  end.

(** [soup.select("div.dlink a")] *)
Definition select_dlink_a (n : node) : list node :=
  select_below (fun e => is_tag "div" e && has_class "dlink" e)
               (is_tag "a") false n.

(** [soup.select("li a.coral")] *)
Definition select_li_a_coral (n : node) : list node :=
  select_below (is_tag "li")
               (fun e => is_tag "a" e && has_class "coral" e) false n.

(** The text strings below (or at) [n], in document order. *)
Fixpoint strings (n : node) : list string :=
  match n with
  | Text s => [s]
  | Elem _ _ _ cs =>
      (fix each (l : list node) : list string :=
         match l with
         | [] => []
         | c :: l' => strings c ++ each l'
         end) cs
  end.

(** [n.get_text(strip=True)]: every string stripped, the empty ones
    dropped, the rest joined. *)
Definition get_text (n : node) : string :=
  String.concat EmptyString
    (filter Str.nonempty (map Str.strip (strings n))).

End Dom.

(* ================================================================== *)
(** ** Fetching: the request log *)
(* ================================================================== *)

(** The URLs requested so far, oldest first. *)
Definition log : Type := list string.

(** A computation that may fetch pages. *)
Definition M (A : Type) : Type := log -> A * log.

Definition ret {A} (a : A) : M A := fun l => (a, l).

Definition bind {A B} (c : M A) (f : A -> M B) : M B :=
  fun l => let (a, l') := c l in f a l'.

Notation "x <- c ;; k" := (bind c (fun x => k))
  (at level 61, c at next level, right associativity).

(** truth value of a list *)
Definition some_item {A} (l : list A) : bool :=
  match l with [] => false | _ :: _ => true end.

(** truth value of an [Optional[str]] *)
Definition truthy (o : option string) : bool :=
  match o with Some s => Str.nonempty s | None => false end.

(** the slice [xs[:n]] of a list: the first [n] items, and for a negative
    [n] all but the last [-n] *)
Definition py_prefix {A} (n : Z) (xs : list A) : list A :=
  if (0 <=? n)%Z then firstn (Z.to_nat n) xs
  else firstn (length xs - Z.to_nat (- n)) xs.

(* ================================================================== *)
(** ** The data the pipeline builds *)
(* ================================================================== *)

(** [{"poster_url": ..., "screenshots": [...]}] *)
Record images : Type := Images {
  img_poster_url : option string;
  img_screenshots : list string
}.

(** [{"quality": ..., "url": ..., "is_direct_download": True, "file_size": ...}];
    a missing ["is_direct_download"] key is [false], a missing ["file_size"]
    key is [None]. *)
Record quality_option : Type := QualityOption {
  q_quality : string;
  q_url : string;
  q_is_direct_download : bool;
  q_file_size : option string
}.

(** [{"server_name": ..., "level1_url": ..., "mp4_url": ...}] *)
Record server_link : Type := ServerLink {
  server_name : string;
  level1_url : string;
  mp4_url : option string
}.

(** [{"filename": ..., "intermediate_url": ..., "direct_links": [...],
      "file_size": ...}] *)
Record download : Type := Download {
  filename : string;
  intermediate_url : string;
  direct_links : list server_link;
  file_size : option string
}.

(** [{"quality": ..., "downloads": [...]}] *)
Record quality_info : Type := QualityInfo {
  qi_quality : string;
  downloads : list download
}.

(** the dictionary [scrape_movie] returns *)
Record movie_result : Type := MovieResult {
  movie_url : string;
  title : option string;
  poster_url : option string;
  screenshots : list string;
  qualities : list quality_info
}.

(* ================================================================== *)
(** ** The patterns of the scraper *)
(* ================================================================== *)

Module Pat.
Import Re.

(** [r".*/movie/\d+/?$"] *)
Definition numeric_movie : regex :=
  seq [Star true dot; lit "/movie/"; plus digit; opt (chr "/"); Eos].

(** [r"\d+x\d+"] *)
Definition dimensions : regex :=
  seq [plus digit; chr "x"; plus digit].

(** [r"(1080p|720p|480p|360p)"] with [re.IGNORECASE] *)
Definition resolution : regex :=
  Grp 1 (Alt (liti "1080p") (Alt (liti "720p") (Alt (liti "480p") (liti "360p")))).

(** [r"File Size[:\s]*(\d+\.?\d*\s*[GMKT]B)"] with [re.IGNORECASE] *)
Definition file_size : regex :=
  seq [liti "File Size";
       Star true (Chr (fun c => Ascii.eqb c ":" || Str.is_space c));
       Grp 1 (seq [plus digit; opt (chr "."); Star true digit;
                   Star true space;
                   Chr (fun c => Str.contains (String (Str.lower_char c) "") "gmkt");
                   chri "B"])].

(** [r"/([^/]+?)-season-(\d+)(?:-\d{4})?(?:-[^/]+)?-tamil-movie/?$"] *)
Definition series_primary : regex :=
  seq [chr "/"; Grp 1 (plus_lazy not_slash); lit "-season-";
       Grp 2 (plus digit);
       opt (seq [chr "-"; digit; digit; digit; digit]);
       opt (seq [chr "-"; plus not_slash]);
       lit "-tamil-movie"; opt (chr "/"); Eos].

(** [r"/([^/]+)-season-(\d+)"] *)
Definition series_simple : regex :=
  seq [chr "/"; Grp 1 (plus not_slash); lit "-season-"; Grp 2 (plus digit)].

(** [r"/([^/]+)-\d{4}-tamil"] *)
Definition title_in_url : regex :=
  seq [chr "/"; Grp 1 (plus not_slash); chr "-";
       digit; digit; digit; digit; lit "-tamil"].

(** [r"\s*\(\d{4}\)\s*$"] *)
Definition year_suffix : regex :=
  seq [Star true space; chr "("; digit; digit; digit; digit; chr ")";
       Star true space; Eos].

(** [r"\((\d{4})\)"] *)
Definition year_in_query : regex :=
  seq [chr "("; Grp 1 (seq [digit; digit; digit; digit]); chr ")"].

(** [r"\s*(Tamil Dubbed Movie Download|Download|isaiDub|Moviesda).*"] with
    [re.IGNORECASE] *)
Definition site_suffix : regex :=
  seq [Star true space;
       Grp 1 (Alt (liti "Tamil Dubbed Movie Download")
                  (Alt (liti "Download") (Alt (liti "isaiDub") (liti "Moviesda"))));
       Star true dot].

End Pat.

(** [r"File Size..."]: the size found in the text of a list item *)
Definition size_match (li_text : string) : option string :=
  match Re.search Pat.file_size li_text with
  | Some g => Some (Re.group 1 g)
  | None => None
  end.

(** [re.match(r".*/movie/\d+/?$", href)] *)
Definition is_numeric_movie (href : string) : bool :=
  Re.is_some (Re.rmatch Pat.numeric_movie href).

(** [any(q in href for q in ["-1080p-", "-720p-", "-480p-", "-360p-"])] *)
Definition has_quality_token (href : string) : bool :=
  existsb (fun q => Str.contains q href) ["-1080p-"; "-720p-"; "-480p-"; "-360p-"].

(* ================================================================== *)
(** ** class MoviesdaScraper *)
(* ================================================================== *)

Section Scraper.

(** The site: the page the n-th request returns for a URL, [None] when
    the request fails. *)
Variable web : nat -> string -> option Dom.node.

(** [urllib.parse.urljoin] *)
Variable urljoin : string -> string -> string.

(** [urllib.parse.urlparse]: the scheme and the netloc of a URL *)
Variable urlparse : string -> string * string.

(** [self.base_url] *)
Variable self_base_url : string.

(** [_get_soup]: one request. *)
Definition _get_soup (url : string) : M (option Dom.node) :=
  fun l => (web (length l) url, l ++ [url]).

(** [f"{parsed.scheme}://{parsed.netloc}"] for [parsed = urlparse(url)] *)
Definition origin (url : string) : string :=
  let (scheme, netloc) := urlparse url in scheme ++ "://" ++ netloc.

(** The idiom the scraper repeats at every href:
    [href if href.startswith("http") else urljoin(base_url, href)]. *)
Definition full_url (base_url href : string) : string :=
  if Str.startswith href "http" then href else urljoin base_url href.

(* ---------------------------------------------------------------- *)
(** *** get_movie_images *)

(** one turn of the loop over [soup.find_all("img")] *)
Definition image_step (base_url : string) (acc : images) (img : Dom.node)
  : images :=
  let src := Dom.get img "src" in
  let alt := Dom.get img "alt" in
  if Str.nonempty src then
    let abs_src := full_url base_url src in
    if Str.contains "/uploads/posters/" abs_src
       || Str.contains "poster" (Str.lower alt)
    then Images (Some abs_src) (img_screenshots acc)
    else if Str.contains "/uploads/screen_shots/" abs_src
            || Str.contains "screenshot" (Str.lower alt)
    then Images (img_poster_url acc) (img_screenshots acc ++ [abs_src])
    else acc
  else acc.

(** the [if source:] part of the loop over [soup.find_all("picture")] *)
Definition picture_source (base_url : string) (acc : images)
  (picture : Dom.node) : images :=
  match Dom.find "source" picture with
  | Some source =>
      let srcset := Dom.get source "srcset" in
      if Str.nonempty srcset && Str.contains "/uploads/posters/" srcset
      then Images (Some (full_url base_url (Str.first_word srcset)))
                  (img_screenshots acc)
      else acc
  | None => acc
  end.

(** the [if img and not images["poster_url"]:] part *)
Definition picture_img (base_url : string) (acc : images)
  (picture : Dom.node) : images :=
  match Dom.find "img" picture with
  | Some img =>
      if negb (truthy (img_poster_url acc)) then
        let src := Dom.get img "src" in
        if Str.nonempty src && Str.contains "/uploads/posters/" src
        then Images (Some (full_url base_url src)) (img_screenshots acc)
        else acc
      else acc
  | None => acc
  end.

Definition picture_step (base_url : string) (acc : images)
  (picture : Dom.node) : images :=
  picture_img base_url (picture_source base_url acc picture) picture.

Definition get_movie_images (soup : Dom.node) (movie_url : string) : images :=
  let base_url :=
    if Str.nonempty movie_url then origin movie_url else self_base_url in
  let after_imgs :=
    fold_left (image_step base_url) (Dom.find_all "img" soup)
              (Images None []) in
  fold_left (picture_step base_url) (Dom.find_all "picture" soup) after_imgs.

(* ---------------------------------------------------------------- *)
(** *** _follow_final_redirect, _get_final_mp4_url *)

Definition cdn_domains_level2 : list string :=
  ["biggshare"; "hotshare"; "dubshare"; "dubmv"; "uptodub"; "uptomkv"].

Definition cdn_domains_level3 : list string :=
  ["biggshare"; "hotshare"; "dubshare"; "uptodub"; "uptomkv"].

(** [is_mp4 or is_cdn] *)
Definition is_final (cdn_domains : list string) (href : string) : bool :=
  Str.contains ".mp4" (Str.lower href)
  || existsb (fun cdn => Str.contains cdn (Str.lower href)) cdn_domains.

(** the loop over [soup.find_all("a", href=True)] shared by both levels:
    the first href that is final *)
Fixpoint first_final (cdn_domains : list string) (links : list Dom.node)
  : option string :=
  match links with
  | [] => None
  | link :: rest =>
      let href := Dom.get link "href" in
      if is_final cdn_domains href then Some href
      else first_final cdn_domains rest
  end.

Definition _follow_final_redirect (url : string) : M (option string) :=
  soup <- _get_soup url ;;
  match soup with
  | None => ret None
  | Some soup => ret (first_final cdn_domains_level3 (Dom.find_all_a_href soup))
  end.

(** the loop over [soup.select("div.dlink")] of [_get_final_mp4_url];
    [None] when the loop ends without a [return] *)
Fixpoint final_mp4_dlinks (divs : list Dom.node) : M (option string) :=
  match divs with
  | [] => ret None
  | div :: rest =>
      match Dom.find_a_href div with
      | None => final_mp4_dlinks rest
      | Some link =>
          let href := Dom.get link "href" in
          if is_final cdn_domains_level2 href then ret (Some href)
          else if Str.startswith href "http"
                  && Str.contains "download" (Str.lower href)
          then
            final_url <- _follow_final_redirect href ;;
            if truthy final_url then ret final_url
            else final_mp4_dlinks rest
          else final_mp4_dlinks rest
      end
  end.

Definition _get_final_mp4_url (level1 : string) : M (option string) :=
  soup <- _get_soup level1 ;;
  match soup with
  | None => ret None
  | Some soup =>
      found <- final_mp4_dlinks (Dom.select "div" "dlink" soup) ;;
      match found with
      | Some href => ret (Some href)
      | None =>
          ret (first_final cdn_domains_level2 (Dom.find_all_a_href soup))
      end
  end.

(* ---------------------------------------------------------------- *)
(** *** _get_server_links *)

(** the loop over [soup.select("div.dlink")]; [servers] is the list built
    so far, the result the list when the loop ends or breaks *)
Fixpoint server_dlinks (divs : list Dom.node) (servers : list server_link)
  : M (list server_link) :=
  match divs with
  | [] => ret servers
  | div :: rest =>
      match Dom.find_a_href div with
      | None => server_dlinks rest servers
      | Some link =>
          let href := Dom.get link "href" in
          let text := Dom.get_text link in
          if Str.startswith href "http" then
            final_mp4_url <- _get_final_mp4_url href ;;
            let servers' := servers ++ [ServerLink text href final_mp4_url] in
            if truthy final_mp4_url then ret servers'
            else server_dlinks rest servers'
          else server_dlinks rest servers
      end
  end.

(** the fallback loop over [soup.find_all("a", href=True)] *)
Fixpoint server_fallback (links : list Dom.node) (servers : list server_link)
  : M (list server_link) :=
  match links with
  | [] => ret servers
  | link :: rest =>
      let href := Dom.get link "href" in
      let text := Dom.get_text link in
      if (Str.contains "download" (Str.lower text)
          || Str.contains "server" (Str.lower text))
         && (Str.startswith href "http"
             && negb (Str.contains "moviesda15.com" href)
             && negb (Str.contains "isaidub.love" href))
      then
        final_mp4_url <- _get_final_mp4_url href ;;
        let servers' := servers ++ [ServerLink text href final_mp4_url] in
        if truthy final_mp4_url then ret servers'
        else server_fallback rest servers'
      else server_fallback rest servers
  end.

Definition _get_server_links (intermediate : string) : M (list server_link) :=
  soup <- _get_soup intermediate ;;
  match soup with
  | None => ret []
  | Some soup =>
      servers <- server_dlinks (Dom.select "div" "dlink" soup) [] ;;
      if negb (some_item servers)
      then server_fallback (Dom.find_all_a_href soup) servers
      else ret servers
  end.

(* ---------------------------------------------------------------- *)
(** *** _get_quality_from_original_page *)

(** one turn of the loop over [soup.select("div.f")] *)
Definition original_step (base_url : string) (qs : list quality_option)
  (div : Dom.node) : list quality_option :=
  match Dom.find_a_href div with
  | None => qs
  | Some link =>
      let href := Dom.get link "href" in
      let text := Dom.get_text link in
      if has_quality_token href
      then qs ++ [QualityOption text (full_url base_url href) false None]
      else if is_numeric_movie href
              && Re.is_some (Re.search Pat.resolution text)
      then qs ++ [QualityOption text (full_url base_url href) false None]
      else qs
  end.

(** [base_url] is [None] for the default argument. *)
Definition _get_quality_from_original_page (original_url : string)
  (base_url : option string) : M (list quality_option) :=
  soup <- _get_soup original_url ;;
  match soup with
  | None => ret []
  | Some soup =>
      let base_url :=
        if truthy base_url
        then match base_url with Some b => b | None => EmptyString end
        else origin original_url in
      ret (fold_left (original_step base_url) (Dom.select "div" "f" soup) [])
  end.

(* ---------------------------------------------------------------- *)
(** *** _get_episodes_from_season_page *)

(** [l[-1] = f(l[-1])]: the scraper keeps a reference to the dictionary
    it appended last ([current_episode], [current_download]) and writes
    to it; that dictionary is the last element of the list. *)
Fixpoint update_last {A} (f : A -> A) (l : list A) : list A :=
  match l with
  | [] => []
  | [x] => [f x]
  | x :: r => x :: update_last f r
  end.

Definition with_q_file_size (sz : string) (q : quality_option)
  : quality_option :=
  QualityOption (q_quality q) (q_url q) (q_is_direct_download q) (Some sz).

Definition with_file_size (sz : string) (d : download) : download :=
  Download (filename d) (intermediate_url d) (direct_links d) (Some sz).

(** the episode a list item yields, if any *)
Definition episode_of_li (base_url : string) (li : Dom.node)
  : option quality_option :=
  match Dom.find_a_href li with
  | None => None
  | Some link =>
      let href := Dom.get link "href" in
      let text := Dom.get_text link in
      if Str.contains "/download/" href
      then Some (QualityOption (if Str.nonempty text then text else "Episode")
                               (full_url base_url href) true None)
      else None
  end.

(** one turn of the loop over [soup.find_all("li")] *)
Definition episode_step (base_url : string) (episodes : list quality_option)
  (li : Dom.node) : list quality_option :=
  let episodes' :=
    match episode_of_li base_url li with
    | Some e => episodes ++ [e]
    | None => episodes
    end in
  match size_match (Dom.get_text li) with
  | Some sz => update_last (with_q_file_size sz) episodes'
  | None => episodes'
  end.

Definition _get_episodes_from_season_page (season_url : string)
  (base_url : option string) : M (list quality_option) :=
  soup <- _get_soup season_url ;;
  match soup with
  | None => ret []
  | Some soup =>
      let base_url :=
        if truthy base_url
        then match base_url with Some b => b | None => EmptyString end
        else origin season_url in
      ret (rev (fold_left (episode_step base_url) (Dom.find_all "li" soup) []))
  end.

(* ---------------------------------------------------------------- *)
(** *** _scan_moviesda_episodes *)

(** [series_slug] and [season_num], from the primary pattern or else
    from the simpler one *)
Definition parse_series_url (url : string) : option (string * string) :=
  match Re.search Pat.series_primary url with
  | Some g => Some (Re.group 1 g, Re.group 2 g)
  | None =>
      match Re.search Pat.series_simple url with
      | Some g => Some (Re.group 1 g, Re.group 2 g)
      | None => None
      end
  end.

(** [f"{base_url}/download/{series_slug}-season-{season_num}-epi-{epi_str}/"] *)
Definition episode_url (base_url series_slug season_num : string)
  (epi_num : nat) : string :=
  base_url ++ "/download/" ++ series_slug ++ "-season-" ++ season_num
           ++ "-epi-" ++ Str.zfill2 (Str.of_nat epi_num) ++ "/".

(** the title of an episode page *)
Definition episode_title (soup : Dom.node) (epi_num : nat) : string :=
  match Dom.find "title" soup with
  | Some title_tag => Str.before " - " (Dom.get_text title_tag)
  | None => "Episode " ++ Str.of_nat epi_num
  end.

(** the loop over [range(1, 21)], from the episode numbers still to try *)
Fixpoint scan_episodes (base_url series_slug season_num : string)
  (epi_nums : list nat) (episodes : list quality_option)
  : M (list quality_option) :=
  match epi_nums with
  | [] => ret episodes
  | epi_num :: rest =>
      let url := episode_url base_url series_slug season_num epi_num in
      soup <- _get_soup url ;;
      match soup with
      | Some soup =>
          if some_item (Dom.select_dlink_a soup)
          then scan_episodes base_url series_slug season_num rest
                 (episodes ++
                    [QualityOption (episode_title soup epi_num) url true None])
          else ret episodes
      | None => ret episodes
      end
  end.

Definition _scan_moviesda_episodes (movie_url base_url : string)
  : M (list quality_option) :=
  match parse_series_url movie_url with
  | None => ret []
  | Some (series_slug, season_num) =>
      scan_episodes base_url series_slug season_num (seq 1 20) []
  end.

(* ---------------------------------------------------------------- *)
(** *** get_quality_options *)

(** How the loop over [soup.select("div.f")] ends: by a [return] inside
    it, or at the end of the list with the qualities collected. *)
Inductive loop_end : Type :=
| Returned (qs : list quality_option)
| Finished (qualities : list quality_option).

(** the two [qualities.append] branches at the end of the loop body *)
Definition direct_quality (base_url href text : string)
  (qualities : list quality_option) : list quality_option :=
  if has_quality_token href
  then qualities ++ [QualityOption text (full_url base_url href) false None]
  else if is_numeric_movie href
          && Re.is_some (Re.search Pat.dimensions text)
  then qualities ++ [QualityOption text (full_url base_url href) true None]
  else qualities.

Definition is_original_href (href text : string) : bool :=
  Str.contains "-original-movie" href || Str.contains "-movie-original" href
  || (is_numeric_movie href && Str.contains "original" (Str.lower text)).

Definition is_season_href (href : string) : bool :=
  Str.contains "-season-" href && Str.contains "-dubbed-movie" href.

Fixpoint quality_loop (base_url : string) (divs : list Dom.node)
  (qualities : list quality_option) : M loop_end :=
  match divs with
  | [] => ret (Finished qualities)
  | div :: rest =>
      match Dom.find_a_href div with
      | None => quality_loop base_url rest qualities
      | Some link =>
          let href := Dom.get link "href" in
          let text := Dom.get_text link in
          if is_original_href href text then
            qs <- _get_quality_from_original_page
                    (full_url base_url href) (Some base_url) ;;
            ret (Returned qs)
          else if is_season_href href then
            season_qualities <- _get_episodes_from_season_page
                                  (full_url base_url href) (Some base_url) ;;
            if some_item season_qualities
            then ret (Returned season_qualities)
            else quality_loop base_url rest
                   (direct_quality base_url href text qualities)
          else quality_loop base_url rest
                 (direct_quality base_url href text qualities)
      end
  end.

(** The second component is [None] for the empty dictionary returned
    when the movie page cannot be fetched. *)
Definition get_quality_options (url : string)
  : M (list quality_option * option images) :=
  soup <- _get_soup url ;;
  match soup with
  | None => ret ([], None)
  | Some soup =>
      let imgs := get_movie_images soup url in
      let base_url := origin url in
      ended <- quality_loop base_url (Dom.select "div" "f" soup) [] ;;
      match ended with
      | Returned qs => ret (qs, Some imgs)
      | Finished qualities =>
          if negb (some_item qualities)
             && Str.contains "season" (Str.lower url)
             && Str.contains "moviesda" base_url
          then
            episodes <- _scan_moviesda_episodes url base_url ;;
            ret (if some_item episodes then episodes else qualities,
                 Some imgs)
          else ret (qualities, Some imgs)
      end
  end.

(* ---------------------------------------------------------------- *)
(** *** get_download_links *)

(** the loop over [soup.select("li a.coral")] *)
Definition coral_step (base_url : string) (ds : list download)
  (link : Dom.node) : list download :=
  let href := Dom.get link "href" in
  let text := Dom.get_text link in
  if Str.contains "/download/" href
  then ds ++ [Download text (full_url base_url href) [] None]
  else ds.

(** the loop over [soup.find_all("a", href=True)] that runs when the
    first one found nothing *)
Definition any_link_step (base_url : string) (ds : list download)
  (link : Dom.node) : list download :=
  let href := Dom.get link "href" in
  let text := Dom.get_text link in
  if Str.contains "/download/" href
     && (Str.contains ".mp4" (Str.lower text)
         || Str.contains "hd" (Str.lower text))
  then ds ++ [Download text (full_url base_url href) [] None]
  else ds.

(** the loop over [soup.find_all("li")] that attaches file sizes *)
Definition size_step (ds : list download) (li : Dom.node) : list download :=
  match size_match (Dom.get_text li) with
  | Some sz => update_last (with_file_size sz) ds
  | None => ds
  end.

(** the loop that resolves the servers of every download, in order *)
Fixpoint resolve_downloads (ds : list download) : M (list download) :=
  match ds with
  | [] => ret []
  | d :: rest =>
      server_links <- _get_server_links (intermediate_url d) ;;
      rest' <- resolve_downloads rest ;;
      ret (Download (filename d) (intermediate_url d) server_links
                    (file_size d) :: rest')
  end.

Definition get_download_links (quality_url : string) : M (list download) :=
  soup <- _get_soup quality_url ;;
  match soup with
  | None => ret []
  | Some soup =>
      let base_url := origin quality_url in
      let ds := fold_left (coral_step base_url)
                          (Dom.select_li_a_coral soup) [] in
      let ds := if negb (some_item ds)
                then fold_left (any_link_step base_url)
                               (Dom.find_all_a_href soup) ds
                else ds in
      let ds := fold_left size_step (Dom.find_all "li" soup) ds in
      resolve_downloads ds
  end.

(* ---------------------------------------------------------------- *)
(** *** scrape_movie *)

(** the href and the text of the first link of a list item, when that
    link is a download link *)
Definition li_download_href (li : Dom.node) : option (string * string) :=
  match Dom.find_a_href li with
  | None => None
  | Some link =>
      let href := Dom.get link "href" in
      if Str.contains "/download/" href
      then Some (href, Dom.get_text link)
      else None
  end.

(** the loop over [quality_soup.find_all("li")] of the direct-download
    branch; [ds] is [downloads], whose last element is
    [current_download] *)
Fixpoint direct_items (base_url : string) (lis : list Dom.node)
  (ds : list download) : M (list download) :=
  match lis with
  | [] => ret ds
  | li :: rest =>
      ds' <- match li_download_href li with
             | Some (href, text) =>
                 let download_url := full_url base_url href in
                 server_links <- _get_server_links download_url ;;
                 ret (ds ++ [Download text download_url server_links
                                      (Some EmptyString)])
             | None => ret ds
             end ;;
      direct_items base_url rest (size_step ds' li)
  end.

(** the body of the loop over [qualities] *)
Definition scrape_quality (q : quality_option) : M quality_info :=
  if q_is_direct_download q then
    quality_soup <- _get_soup (q_url q) ;;
    match quality_soup with
    | Some quality_soup =>
        let base_url := origin (q_url q) in
        if some_item (Dom.select_dlink_a quality_soup) then
          server_links <- _get_server_links (q_url q) ;;
          ret (QualityInfo (q_quality q)
                 [Download (q_quality q) (q_url q) server_links
                           (Some EmptyString)])
        else
          ds <- direct_items base_url (Dom.find_all "li" quality_soup) [] ;;
          ret (QualityInfo (q_quality q) ds)
    | None => ret (QualityInfo (q_quality q) [])
    end
  else
    ds <- get_download_links (q_url q) ;;
    ret (QualityInfo (q_quality q) ds).

Fixpoint scrape_qualities (qs : list quality_option)
  : M (list quality_info) :=
  match qs with
  | [] => ret []
  | q :: rest =>
      quality_info <- scrape_quality q ;;
      rest' <- scrape_qualities rest ;;
      ret (quality_info :: rest')
  end.

(** [result["title"]], set only when the URL has the pattern *)
Definition title_of_url (url : string) : option string :=
  match Re.search Pat.title_in_url url with
  | Some g => Some (Str.title (Str.replace_char "-" " " (Re.group 1 g)))
  | None => None
  end.

Definition scrape_movie (url : string) : M movie_result :=
  qi <- get_quality_options url ;;
  let (qs, imgs) := qi in
  infos <- scrape_qualities qs ;;
  ret (MovieResult url (title_of_url url)
         (match imgs with Some i => img_poster_url i | None => None end)
         (match imgs with Some i => img_screenshots i | None => [] end)
         infos).

End Scraper.

(* ================================================================== *)
(** ** Listing, search and reporting *)
(* ================================================================== *)

(** [{"title": ..., "url": ...}] *)
Record movie_ref : Type := MovieRef {
  m_title : string;
  m_url : string
}.

(** [any(m["url"] == full_url for m in movies)] *)
Definition has_url (u : string) (movies : list movie_ref) : bool :=
  existsb (fun m => String.eqb (m_url m) u) movies.

(** [re.sub(r"\s*\(\d{4}\)\s*$", "", query).strip()] *)
Definition clean_query (query : string) : string :=
  Str.strip (Re.sub_empty Pat.year_suffix query).

Section Listing.

Variable web : nat -> string -> option Dom.node.
Variable urljoin : string -> string -> string.
Variable urlparse : string -> string * string.
Variable self_base_url : string.

(** [_make_absolute_url] *)
Definition _make_absolute_url (href : string) : string :=
  if Str.startswith href "http" then href else urljoin self_base_url href.

(* ---------------------------------------------------------------- *)
(** *** get_movies_from_category *)

(** the URL patterns of a movie or series page in a category listing *)
Definition is_category_movie (href : string) : bool :=
  Str.contains "-tamil-movie" href || Str.contains "-tamil-web-series" href
  || Str.contains "-tamil-dubbed-movie" href
  || Str.contains "-tamil-dubbed-web-series" href.

(** the URL of page [page] of a category *)
Definition category_page_url (category_url : string) (page : nat) : string :=
  if Nat.eqb page 1 then category_url
  else if Str.contains "isaidub" category_url
  then category_url ++ "?get-page=" ++ Str.of_nat page
  else category_url ++ "?page=" ++ Str.of_nat page.

(** one turn of the loop over [soup.select("div.f")] *)
Definition category_step (category_url : string) (movies : list movie_ref)
  (div : Dom.node) : list movie_ref :=
  match Dom.find_a_href div with
  | None => movies
  | Some link =>
      let href := Dom.get link "href" in
      let text := Dom.get_text link in
      if is_category_movie href && Str.nonempty text then
        let full := full_url urljoin (origin urlparse category_url) href in
        if negb (has_url full movies)
        then movies ++ [MovieRef text full]
        else movies
      else movies
  end.

(** the loop over [range(1, max_pages + 1)], from the pages still to read *)
Fixpoint category_pages (category_url : string) (pages : list nat)
  (movies : list movie_ref) : M (list movie_ref) :=
  match pages with
  | [] => ret movies
  | page :: rest =>
      soup <- _get_soup web (category_page_url category_url page) ;;
      match soup with
      | None => ret movies
      | Some soup =>
          category_pages category_url rest
            (fold_left (category_step category_url)
                       (Dom.select "div" "f" soup) movies)
      end
  end.

Definition get_movies_from_category (category_url : string) (max_pages : nat)
  : M (list movie_ref) :=
  category_pages category_url (seq 1 max_pages) [].

(* ---------------------------------------------------------------- *)
(** *** search_movie *)

(** the URL patterns of a movie or series page in the A-Z index *)
Definition is_index_movie (href : string) : bool :=
  Str.contains "-tamil-movie" href || Str.contains "-movie" href
  || Str.contains "-tamil-web-series" href
  || Str.contains "-tamil-dubbed-movie" href
  || Str.contains "-tamil-dubbed-web-series" href.

(** [search_url], from the first letter of the lower-cased query *)
Definition index_url (base_url query_lower : string) : string :=
  let first_letter :=
    match query_lower with String c _ => c | EmptyString => "a"%char end in
  if Str.contains "isaidub" base_url then
    if Str.is_alpha first_letter
    then base_url ++ "/tamil-atoz-dubbed-movies/" ++ String first_letter ""
    else base_url ++ "/tamil-atoz-dubbed-movies/"
  else
    if Str.is_alpha first_letter
    then base_url ++ "/tamil-movies/" ++ String first_letter "" ++ "/"
    else base_url ++ "/tamil-atoz-movies/".

(** the URL of page [page] of the index *)
Definition index_page_url (base_url search_url : string) (page : nat)
  : string :=
  if Nat.eqb page 1 then search_url
  else if Str.contains "isaidub" base_url
  then search_url ++ "/" ++ Str.of_nat page
  else search_url ++ "?page=" ++ Str.of_nat page.

(** the loop over [soup.select("div.f")] of one index page; the result is
    [matches] and [found_any] when the loop ends or breaks *)
Fixpoint search_divs (base_url query_lower : string) (max_results : nat)
  (divs : list Dom.node) (matches : list movie_ref) (found_any : bool)
  : list movie_ref * bool :=
  match divs with
  | [] => (matches, found_any)
  | div :: rest =>
      match Dom.find_a_href div with
      | None => search_divs base_url query_lower max_results rest
                  matches found_any
      | Some link =>
          let href := Dom.get link "href" in
          let text := Dom.get_text link in
          if is_index_movie href && Str.nonempty text then
            if Str.contains query_lower (Str.lower text) then
              let full := full_url urljoin base_url href in
              if negb (has_url full matches) then
                let matches' := matches ++ [MovieRef text full] in
                if Nat.leb max_results (length matches')
                then (matches', true)
                else search_divs base_url query_lower max_results rest
                       matches' true
              else search_divs base_url query_lower max_results rest
                     matches true
            else search_divs base_url query_lower max_results rest
                   matches true
          else search_divs base_url query_lower max_results rest
                 matches found_any
      end
  end.

(** the [while] loop, from the pages still to read: it is left after
    page 5 *)
Fixpoint search_pages (base_url search_url query_lower : string)
  (max_results : nat) (pages : list nat) (matches : list movie_ref)
  : M (list movie_ref) :=
  match pages with
  | [] => ret matches
  | page :: rest =>
      if Nat.ltb (length matches) max_results then
        soup <- _get_soup web (index_page_url base_url search_url page) ;;
        match soup with
        | None => ret matches
        | Some soup =>
            let (matches', found_any) :=
              search_divs base_url query_lower max_results
                          (Dom.select "div" "f" soup) matches false in
            if negb found_any || Nat.leb max_results (length matches')
            then ret matches'
            else search_pages base_url search_url query_lower max_results
                   rest matches'
        end
      else ret matches
  end.

(** [base_url] is [None] for the default argument. *)
Definition search_movie (query : string) (base_url : option string)
  (max_results : nat) : M (list movie_ref) :=
  let base_url := match base_url with Some b => b | None => self_base_url end in
  let query_lower := Str.strip (Str.lower (clean_query query)) in
  search_pages base_url (index_url base_url query_lower) query_lower
               max_results (seq 1 5) [].

(* ---------------------------------------------------------------- *)
(** *** smart_search_movie *)

(** [year], when the query has one in parentheses *)
Definition query_year (query : string) : option string :=
  match Re.search Pat.year_in_query query with
  | Some g => Some (Re.group 1 g)
  | None => None
  end.

(** [query_clean.lower().replace(" ", "-").replace("'", "")] *)
Definition movie_slug (query_clean : string) : string :=
  Str.remove_char "'" (Str.replace_char " " "-" (Str.lower query_clean)).

(** [possible_urls] *)
Definition possible_urls (base_url slug : string) (year : option string)
  : list string :=
  if Str.contains "isaidub" base_url then
    match year with
    | Some y =>
        [(base_url ++ "/movie/" ++ slug ++ "-" ++ y ++ "-tamil-dubbed-movie/")%string]
    | None => []
    end ++ [(base_url ++ "/movie/" ++ slug ++ "-tamil-dubbed-movie/")%string]
  else
    match year with
    | Some y => [(base_url ++ "/" ++ slug ++ "-" ++ y ++ "-movie/")%string;
                 (base_url ++ "/" ++ slug ++ "-" ++ y ++ "-tamil-movie/")%string]
    | None => []
    end ++ [(base_url ++ "/" ++ slug ++ "-movie/")%string;
            (base_url ++ "/" ++ slug ++ "-tamil-movie/")%string].

(** the title of a guessed page, from its [title] element *)
Definition guessed_title (query_clean : string) (year : option string)
  (title_tag : Dom.node) : string :=
  let t := Str.strip (Re.sub_empty Pat.site_suffix (Dom.get_text title_tag)) in
  if Str.nonempty t then t
  else match year with
       | Some y => query_clean ++ " (" ++ y ++ ")"
       | None => query_clean
       end.

(** the loop over [possible_urls] *)
Fixpoint try_urls (query_clean : string) (year : option string)
  (max_results : nat) (urls : list string) (matches : list movie_ref)
  : M (list movie_ref) :=
  match urls with
  | [] => ret matches
  | test_url :: rest =>
      soup <- _get_soup web test_url ;;
      match soup with
      | None => try_urls query_clean year max_results rest matches
      | Some soup =>
          match Dom.find "title" soup with
          | None => try_urls query_clean year max_results rest matches
          | Some title_tag =>
              let matches' :=
                matches ++ [MovieRef (guessed_title query_clean year title_tag)
                                     test_url] in
              if Nat.leb max_results (length matches')
              then ret matches'
              else try_urls query_clean year max_results rest matches'
          end
      end
  end.

Definition smart_search_movie (query : string) (base_url : option string)
  (max_results : nat) : M (list movie_ref) :=
  let base_url := match base_url with Some b => b | None => self_base_url end in
  let year := query_year query in
  let query_clean := clean_query query in
  try_urls query_clean year max_results
           (possible_urls base_url (movie_slug query_clean) year) [].

(* ---------------------------------------------------------------- *)
(** *** scrape_category *)

(** the loop over [movies[:max_movies]], from the slice *)
Fixpoint scrape_listed (movies : list movie_ref) : M (list movie_result) :=
  match movies with
  | [] => ret []
  | movie :: rest =>
      movie_data <- scrape_movie web urljoin urlparse self_base_url
                      (m_url movie) ;;
      rest' <- scrape_listed rest ;;
      ret (MovieResult (movie_url movie_data) (Some (m_title movie))
                       (poster_url movie_data) (screenshots movie_data)
                       (qualities movie_data) :: rest')
  end.

(** [max_pages] and [max_movies] are the caller's integers: [range(1,
    max_pages + 1)] is empty for a [max_pages] below 1, and the slice
    [movies[:max_movies]] drops from the end for a negative [max_movies]. *)
Definition scrape_category (category_url : string) (max_pages max_movies : Z)
  : M (list movie_result) :=
  movies <- get_movies_from_category category_url (Z.to_nat max_pages) ;;
  scrape_listed (py_prefix max_movies movies).

End Listing.

(* ---------------------------------------------------------------- *)
(** *** save_to_m3u *)

(** The files are the pairs of a path and the text written to it, in the
    order in which they are opened; a later file with the path of an
    earlier one replaces it on disk. *)
Section Reporting.

(** [urlparse(url).path], [urllib.parse.unquote] and [os.path.join] *)
Variable url_path : string -> string.
Variable unquote : string -> string.
Variable path_join : string -> string -> string.

Definition newline : string := String "010"%char EmptyString.
Definition dquote : string := String "034"%char EmptyString.

(** [total_videos] *)
Definition total_videos (movie : movie_result) : nat :=
  fold_left
    (fun n quality =>
       fold_left (fun n dl => n + length (direct_links dl))
                 (downloads quality) n)
    (qualities movie) 0.

(** [content_type] *)
Definition content_type (movie : movie_result) : string :=
  if Nat.ltb 4 (total_videos movie) then "Series" else "Movies".

(** [safe_title] *)
Definition safe_title (title : string) : string :=
  Str.replace_char " " "_"
    (Str.strip
       (Str.keep (fun c => Str.is_alnum c
                           || Str.contains (String c EmptyString) " -_()")
                 title)).

(** what is written for a server whose [mp4_url] is [url] *)
Definition m3u_entry (title group : string) (poster : option string)
  (url : string) : string :=
  let mp4_filename := unquote (Str.after_last "/" (url_path url)) in
  let quality_str :=
    match Re.search Pat.resolution mp4_filename with
    | Some g => Re.group 1 g
    | None => EmptyString
    end in
  let hd_suffix := if Str.contains "HD" mp4_filename then " HD" else "" in
  let display_title := Str.strip (title ++ " " ++ quality_str ++ hd_suffix) in
  "#EXTINF:-1 group-title=" ++ dquote ++ group ++ dquote
  ++ (if truthy poster
      then " tvg-logo=" ++ dquote
           ++ match poster with Some p => p | None => EmptyString end
           ++ dquote
      else "")
  ++ "," ++ display_title ++ newline
  ++ url ++ newline.

(** the body of the innermost loop: what is written for one server *)
Definition write_server (title group : string) (poster : option string)
  (written : string) (server : server_link) : string :=
  if truthy (mp4_url server)
  then written
       ++ m3u_entry title group poster
            match mp4_url server with Some u => u | None => EmptyString end
  else written.

(** the text of the playlist of one movie *)
Definition playlist (movie : movie_result) : string :=
  let title :=
    match title movie with Some t => t | None => "Unknown Movie" end in
  fold_left
    (fun written quality =>
       fold_left
         (fun written dl =>
            fold_left (write_server title (content_type movie)
                                    (poster_url movie))
                      (direct_links dl) written)
         (downloads quality) written)
    (qualities movie) ("#EXTM3U" ++ newline)%string.

(** [m3u_path] *)
Definition m3u_path (output_dir : string) (movie : movie_result) : string :=
  path_join output_dir
    (safe_title match title movie with Some t => t | None => "Unknown Movie" end
     ++ ".m3u")%string.

(** the loop over [results] *)
Definition save_to_m3u (results : list movie_result) (output_dir : string)
  : list (string * string) :=
  fold_left
    (fun files movie =>
       if negb (some_item (qualities movie)) then files
       else files ++ [(m3u_path output_dir movie, playlist movie)])
    results [].

End Reporting.

(* ---------------------------------------------------------------- *)
(** *** main *)

(** The settings come from the environment and are arguments here:
    [max_pages] and [max_movies] are the values of [int(...)] on
    [MAX_PAGES] and [MAX_MOVIES], of either sign. The JSON report and the
    printed summary are left out. *)
Section Main.

Variable web : nat -> string -> option Dom.node.
Variable urljoin : string -> string -> string.
Variable urlparse : string -> string * string.
Variable self_base_url : string.
Variable url_path : string -> string.
Variable unquote : string -> string.
Variable path_join : string -> string -> string.

(** [base_urls]: the origins of the category URLs, each once *)
Definition site_bases (category_urls : list string) : list string :=
  fold_left (fun base_urls cat_url =>
               let base := origin urlparse cat_url in
               if existsb (String.eqb base) base_urls then base_urls
               else base_urls ++ [base])
            category_urls [].

(** the loop over [base_urls] for one movie name: the scraped movie of the
    first site with a match, if any *)
Fixpoint search_sites (movie_name : string) (base_urls : list string)
  : M (option movie_result) :=
  match base_urls with
  | [] => ret None
  | base_url :: rest =>
      matching_movies <- search_movie web urljoin self_base_url
                           movie_name (Some base_url) 1 ;;
      matching_movies <-
        (if negb (some_item matching_movies)
         then smart_search_movie web self_base_url movie_name (Some base_url) 1
         else ret matching_movies) ;;
      match matching_movies with
      | movie :: _ =>
          movie_data <- scrape_movie web urljoin urlparse self_base_url
                          (m_url movie) ;;
          ret (Some (MovieResult (movie_url movie_data) (Some (m_title movie))
                                 (poster_url movie_data)
                                 (screenshots movie_data)
                                 (qualities movie_data)))
      | [] => search_sites movie_name rest
      end
  end.

(** the loop over [search_list] *)
Fixpoint search_all (search_list base_urls : list string)
  : M (list movie_result) :=
  match search_list with
  | [] => ret []
  | movie_name :: rest =>
      found <- search_sites movie_name base_urls ;;
      results <- search_all rest base_urls ;;
      ret (match found with
           | Some movie_data => movie_data :: results
           | None => results
           end)
  end.

(** the loop over [category_urls] *)
Fixpoint category_all (category_urls : list string) (max_pages max_movies : Z)
  : M (list movie_result) :=
  match category_urls with
  | [] => ret []
  | category_url :: rest =>
      site_results <- scrape_category web urljoin urlparse self_base_url
                        category_url max_pages max_movies ;;
      results <- category_all rest max_pages max_movies ;;
      ret (site_results ++ results)
  end.

(** [results], from the values of [CATEGORY_URLS], [SEARCH_QUERY],
    [MAX_PAGES] and [MAX_MOVIES] *)
Definition main_results (category_urls_str search_query_str : string)
  (max_pages max_movies : Z) : M (list movie_result) :=
  let category_urls := Str.comma_list category_urls_str in
  let search_query := Str.strip search_query_str in
  if Str.nonempty search_query
  then search_all (Str.comma_list search_query) (site_bases category_urls)
  else category_all category_urls max_pages max_movies.

(** the results and the playlist files written *)
Definition main (category_urls_str search_query_str : string)
  (max_pages max_movies : Z)
  : M (list movie_result * list (string * string)) :=
  results <- main_results category_urls_str search_query_str
               max_pages max_movies ;;
  if negb (some_item results) then ret (results, [])
  else ret (results,
            save_to_m3u url_path unquote path_join results "playlists").

End Main.

(* ================================================================== *)
(** ** Example sites *)
(* ================================================================== *)

(** Stand-ins for [urllib.parse] on the URLs of the examples below: URLs
    without white space, control characters or bracketed hosts, joined to
    a base of the form [scheme://netloc]. *)
Module Lib.

Definition scheme_char (c : ascii) : bool :=
  Str.is_alpha c || Str.is_digit c || Str.contains (String c "") "+-.".

(** the part before the first [":"], when it is a scheme *)
Fixpoint scheme_of (s : string) : option (string * string) :=
  match s with
  | EmptyString => None
  | String c r =>
      if Ascii.eqb c ":" then Some (EmptyString, r)
      else if scheme_char c then
        match scheme_of r with
        | Some (sch, rest) => Some (String c sch, rest)
        | None => None
        end
      else None
  end.

Fixpoint netloc_of (s : string) : string :=
  match s with
  | EmptyString => EmptyString
  | String c r =>
      if Str.contains (String c "") "/?#" then EmptyString
      else String c (netloc_of r)
  end.

Definition after_slashes (s : string) : string :=
  match s with
  | String "/" (String "/" r) => netloc_of r
  | _ => EmptyString
  end.

(** the scheme and the netloc [urlsplit] finds *)
Definition urlparse (url : string) : string * string :=
  match url with
  | String c _ =>
      if Str.is_alpha c then
        match scheme_of url with
        | Some (sch, rest) => (Str.lower sch, after_slashes rest)
        | None => (EmptyString, after_slashes url)
        end
      else (EmptyString, after_slashes url)
  | EmptyString => (EmptyString, EmptyString)
  end.

(** [urljoin(base, href)] for [base = scheme://netloc] and an [href]
    that is a path *)
Definition urljoin (base href : string) : string :=
  if Str.startswith href "/" then base ++ href else base ++ "/" ++ href.

(** A URL is absolute when it has a scheme and a host. *)
Definition is_absolute (url : string) : bool :=
  let (scheme, netloc) := urlparse url in
  Str.nonempty scheme && Str.nonempty netloc.

End Lib.

Module Site.
Import Dom.

Definition a (href text : string) : node :=
  Elem "a" [] [("href", href)] [Text text].
Definition a_class (c href text : string) : node :=
  Elem "a" [c] [("href", href)] [Text text].
Definition div (c : string) (children : list node) : node :=
  Elem "div" [c] [] children.
Definition li (children : list node) : node := Elem "li" [] [] children.
Definition ul (children : list node) : node := Elem "ul" [] [] children.
Definition img (src alt : string) : node :=
  Elem "img" [] [("src", src); ("alt", alt)] [].
Definition source (srcset : string) : node :=
  Elem "source" [] [("srcset", srcset)] [].
Definition picture (children : list node) : node :=
  Elem "picture" [] [] children.
Definition page_title (t : string) : node := Elem "title" [] [] [Text t].
Definition doc (children : list node) : node :=
  Elem "[document]" [] [] children.

(** A site whose pages do not change: a table from URL to page. *)
Fixpoint serve (pages : list (string * node)) (n : nat) (url : string)
  : option node :=
  match pages with
  | [] => None
  | (u, p) :: rest => if String.eqb u url then Some p else serve rest n url
  end.

(** A server page with three links to further download pages, none of
    which exists. *)
Definition dead_ends : list (string * node) :=
  [("http://srv.example/s/1",
    doc [div "dlink" [a "http://srv.example/download/1" "Mirror 1"];
         div "dlink" [a "http://srv.example/download/2" "Mirror 2"];
         div "dlink" [a "http://srv.example/download/3" "Mirror 3"]])].



(** A movie with one quality, one file and one server, whose server page
    links to the media file by a path. *)
Definition leo : list (string * node) :=
  [("https://moviesda15.com/leo-2023-tamil-movie/",
    doc [div "f" [a "/leo-720p-hd-movie/" "Leo 720p HD"]]);
   ("https://moviesda15.com/leo-720p-hd-movie/",
    doc [ul [li [a_class "coral" "/download/leo-720p-hd/" "Leo.720p.mp4"];
             li [Text "File Size: 1.2 GB"]]]);
   ("https://moviesda15.com/download/leo-720p-hd/",
    doc [div "dlink" [a "http://srv.example/s/1" "Download Server 1"]]);
   ("http://srv.example/s/1",
    doc [div "dlink" [a "/files/leo_720p.mp4" "Download"]])].

(** A season page that lists its episodes latest first. *)
Definition wednesday : list (string * node) :=
  [("https://isaidub.love/movie/wednesday-tamil-dubbed-web-series/",
    doc [div "f" [a "/movie/wednesday-season-02-tamil-dubbed-movie/" "Season 02"];
         div "f" [a "/movie/wednesday-movie-original/" "Wednesday (Original)"]]);
   ("https://isaidub.love/movie/wednesday-season-02-tamil-dubbed-movie/",
    doc [ul [li [a "/download/page/103/" "Ep03"];
             li [Text "File Size: 310 MB"];
             li [a "/download/page/102/" "Ep02"];
             li [a "/download/page/101/" "Ep01"]]]);
   ("https://isaidub.love/movie/wednesday-movie-original/",
    doc [div "f" [a "/movie/wednesday-720p-hd/" "Wednesday (720p HD)"]])].

(** A series whose episode pages 1 to 7 exist, and no other page. *)
Definition seven_episodes : list (string * node) :=
  map (fun n =>
         (episode_url "https://moviesda15.com" "squid-game" "02" n,
          doc [page_title ("Squid Game Epi " ++ Str.of_nat n ++ " - Moviesda");
               div "dlink" [a "http://srv.example/s/1" "Download Server 1"]]))
      (seq 1 7).

(** A movie page with a quality link, a season link whose page lists no
    episode, an "Original" link, and a season link whose page lists one. *)
Definition ted : list (string * node) :=
  [("https://isaidub.love/movie/ted-2012-tamil-dubbed-movie/",
    doc [div "f" [a "/movie/ted-480p-hd-movie/" "Ted 480p HD"];
         div "f" [a "/movie/ted-season-02-tamil-dubbed-movie/" "Season 02"];
         div "f" [a "/movie/ted-movie-original/" "Ted (Original)"];
         div "f" [a "/movie/ted-season-01-tamil-dubbed-movie/" "Season 01"]]);
   ("https://isaidub.love/movie/ted-season-02-tamil-dubbed-movie/",
    doc [page_title "Ted Season 02"; Text "Coming soon"]);
   ("https://isaidub.love/movie/ted-movie-original/",
    doc [div "f" [a "/movie/4321/" "Ted (720p HD)"];
         div "f" [a "/movie/ted-360p-hd-movie/" "Ted 360p HD"]]);
   ("https://isaidub.love/movie/ted-season-01-tamil-dubbed-movie/",
    doc [ul [li [a "/download/page/11/" "Ep01"]]])].

(** A resolution page in list style: two files, the size of the first. *)
Definition ted_files : list (string * node) :=
  [("https://isaidub.love/movie/4321/",
    doc [ul [li [a "/download/page/9/" "Ted 720p.mp4"];
             li [Text "File Size: 700 MB"];
             li [a "/download/page/10/" "Ted 720p sample.mp4"]]])].

(** A resolution page whose only list item has a download link after
    another link; and one with a [div.dlink] container that has no link,
    next to a list item with a download link. *)
Definition ted_odd : list (string * node) :=
  [("https://isaidub.love/movie/4322/",
    doc [ul [li [a "/movie/ted-2012-tamil-dubbed-movie/" "Ted";
                 a "/download/page/9/" "Ted 720p.mp4"]]]);
   ("https://isaidub.love/movie/4323/",
    doc [div "dlink" [Text "Servers"];
         ul [li [a "/download/page/9/" "Ted 720p.mp4"];
             li [a "/download/page/10/" "Ted 480p.mp4"]]])].


(** A download page with three servers: the page of the first cannot be
    fetched, those of the second and the third link to the file. *)
Definition three_servers : list (string * node) :=
  [("https://moviesda15.com/download/leo-720p-hd/",
    doc [div "dlink" [a "http://srv1.example/s/1" "Download Server 1"];
         div "dlink" [a "http://srv2.example/s/1" "Download Server 2"];
         div "dlink" [a "http://srv3.example/s/1" "Download Server 3"]]);
   ("http://srv2.example/s/1",
    doc [div "dlink" [a "http://cdn.example/leo_720p.mp4" "Download"]]);
   ("http://srv3.example/s/1",
    doc [div "dlink" [a "http://cdn.example/leo_720p.mp4" "Download"]])].

(** A movie page with a poster image, and a picture whose source offers
    another file of the poster directory. *)
Definition poster_page : node :=
  doc [img "/uploads/posters/ted.jpg" "Ted";
       img "/uploads/screen_shots/ted-1.jpg" "";
       picture [source "/uploads/posters/ted-large.webp 2x"]].

(** A movie page with a picture whose source is no poster, followed by an
    image that is a poster by its text. *)
Definition picture_page : node :=
  doc [picture [source "/img/ted.webp"; img "/uploads/posters/ted.jpg" ""];
       img "/logo.png" "Ted poster"].

(** A movie page whose quality link is a path that begins with the
    letters "http". *)
Definition leo_httpdocs : list (string * node) :=
  [("https://moviesda15.com/leo-2023-tamil-movie/",
    doc [div "f" [a "httpdocs/leo-720p-hd-movie/" "Leo 720p HD"]])].

(** A category of two pages; the second page lists a movie of the first
    again, and there is no third page. *)
Definition category_2025 : list (string * node) :=
  [("https://moviesda15.com/tamil-2025-movies/",
    doc [div "f" [a "/leo-2023-tamil-movie/" "Leo (2023)"];
         div "f" [a "/about/" "About"];
         div "f" [a "/vikram-2022-tamil-movie/" "Vikram (2022)"]]);
   ("https://moviesda15.com/tamil-2025-movies/?page=2",
    doc [div "f" [a "/leo-2023-tamil-movie/" "Leo (2023)"];
         div "f" [a "https://moviesda15.com/jailer-2023-tamil-movie/" "Jailer (2023)"]])].

(** The first page of the A-Z index for the letter "l" of a site. *)
Definition index_l : list (string * node) :=
  [("https://moviesda15.com/tamil-movies/l/",
    doc [div "f" [a "/leo-2023-tamil-movie/" "Leo (2023)"];
         div "f" [a "/love-today-2022-tamil-movie/" "Love Today (2022)"];
         div "f" [a "/leo-2023-tamil-movie/" "LEO HD"]])].

End Site.

(* ================================================================== *)
(** ** Vocabulary of the statements *)
(* ================================================================== *)

(** The href of the first link of every container that has one: the hrefs
    the loops over [soup.select("div.dlink")] look at. *)
Definition container_hrefs (divs : list Dom.node) : list string :=
  flat_map (fun d => match Dom.find_a_href d with
                     | Some link => [Dom.get link "href"]
                     | None => []
                     end) divs.






(** The level-1 URLs [_get_server_links] may walk, in the order it meets
    them: the hrefs of the [div.dlink] links that start with ["http"]; or,
    when there is none, the external links whose text says "download" or
    "server". *)
Definition server_candidates (soup : Dom.node) : list string :=
  let from_containers :=
    filter (fun href => Str.startswith href "http")
           (container_hrefs (Dom.select "div" "dlink" soup)) in
  if some_item from_containers then from_containers
  else
    map (fun link => Dom.get link "href")
        (filter (fun link =>
                   (Str.contains "download" (Str.lower (Dom.get_text link))
                    || Str.contains "server" (Str.lower (Dom.get_text link)))
                   && (Str.startswith (Dom.get link "href") "http"
                       && negb (Str.contains "moviesda15.com" (Dom.get link "href"))
                       && negb (Str.contains "isaidub.love" (Dom.get link "href"))))
                (Dom.find_all_a_href soup)).

(** The servers are the first of the candidates, in order; none but the
    last is resolved; and the list ends before the last candidate only
    with a server that is resolved. *)
Definition stops_at_first_resolved (candidates : list string)
  (servers : list server_link) : Prop :=
  Forall (fun s => mp4_url s = None) (removelast servers)
  /\ exists later,
       candidates = map level1_url servers ++ later
       /\ (later = []
           \/ exists earlier s, servers = earlier ++ [s] /\ mp4_url s <> None).

(** What identifies a quality option: its label, its URL and its flag. *)
Definition option_key (q : quality_option) : string * string * bool :=
  (q_quality q, q_url q, q_is_direct_download q).

(** The episodes of the list items of a season page, in document order. *)
Definition episodes_in_document_order (urljoin : string -> string -> string)
  (base_url : string) (soup : Dom.node) : list quality_option :=
  flat_map (fun li => match episode_of_li urljoin base_url li with
                      | Some e => [e]
                      | None => []
                      end) (Dom.find_all "li" soup).

(** The page of episode [n] is there at time [t] and has server links. *)
Definition episode_present (web : nat -> string -> option Dom.node)
  (base_url series_slug season_num : string) (t n : nat) : Prop :=
  exists soup,
    web t (episode_url base_url series_slug season_num n) = Some soup
    /\ some_item (Dom.select_dlink_a soup) = true.

(** The request for episode [n] at time [t] fails, or the page has no
    server links. *)
Definition episode_absent (web : nat -> string -> option Dom.node)
  (base_url series_slug season_num : string) (t n : nat) : Prop :=
  match web t (episode_url base_url series_slug season_num n) with
  | Some soup => some_item (Dom.select_dlink_a soup) = false
  | None => True
  end.

(** What the page of an "Original" link gives when it is requested at
    time [t]: the quality options of its [div.f] links; none when the
    request fails. *)
Definition options_of_original_page (web : nat -> string -> option Dom.node)
  (urljoin : string -> string -> string) (urlparse : string -> string * string)
  (base_url : string) (t : nat) (original_url : string)
  : list quality_option :=
  match web t original_url with
  | Some page =>
      fold_left (original_step urljoin
                   (if Str.nonempty base_url then base_url
                    else origin urlparse original_url))
                (Dom.select "div" "f" page) []
  | None => []
  end.

(** What the page of a season link gives when it is requested at time [t]:
    its episodes, last list item first; none when the request fails. *)
Definition episodes_of_season_page (web : nat -> string -> option Dom.node)
  (urljoin : string -> string -> string) (urlparse : string -> string * string)
  (base_url : string) (t : nat) (season_url : string)
  : list quality_option :=
  match web t season_url with
  | Some page =>
      rev (fold_left (episode_step urljoin
                        (if Str.nonempty base_url then base_url
                         else origin urlparse season_url))
                     (Dom.find_all "li" page) [])
  | None => []
  end.

(** The URLs of the season links among the first links of the containers,
    in order; a link that is also an "Original" link is not among them. *)
Definition season_links (urljoin : string -> string -> string)
  (base_url : string) (divs : list Dom.node) : list string :=
  flat_map (fun d =>
              match Dom.find_a_href d with
              | Some link =>
                  if negb (is_original_href (Dom.get link "href")
                                            (Dom.get_text link))
                     && is_season_href (Dom.get link "href")
                  then [full_url urljoin base_url (Dom.get link "href")]
                  else []
              | None => []
              end) divs.

(** The containers [pre] decide nothing when the resolver reaches the
    first of them at time [t]: none has an "Original" link, and the page
    of the [j]-th season link among them, requested at time [t + j],
    yields no episode. *)
Definition undecided (web : nat -> string -> option Dom.node)
  (urljoin : string -> string -> string) (urlparse : string -> string * string)
  (base_url : string) (t : nat) (pre : list Dom.node) : Prop :=
  (forall d link,
      In d pre -> Dom.find_a_href d = Some link ->
      is_original_href (Dom.get link "href") (Dom.get_text link) = false)
  /\ forall j season_url,
       nth_error (season_links urljoin base_url pre) j = Some season_url ->
       episodes_of_season_page web urljoin urlparse base_url (t + j) season_url
       = [].

(** What identifies a download entry: its file name and its URL. *)
Definition download_key (d : download) : string * string :=
  (filename d, intermediate_url d).

(** The entries of the list items of a list-style page, in document order:
    one for every [li] whose first link with an href is a download link. *)
Definition entries_in_document_order (urljoin : string -> string -> string)
  (base_url : string) (soup : Dom.node) : list (string * string) :=
  flat_map (fun li => match li_download_href li with
                      | Some (href, text) => [(text, full_url urljoin base_url href)]
                      | None => []
                      end) (Dom.find_all "li" soup).

(** In the words of the specification: a list item that contains a
    download-marker anchor. *)
Definition li_contains_download_link (li : Dom.node) : bool :=
  existsb (fun link => Str.contains "/download/" (Dom.get link "href"))
          (Dom.find_all_a_href li).

(** In the words of the specification: a page that exposes server-link
    containers. *)
Definition has_dlink_container (soup : Dom.node) : bool :=
  some_item (Dom.select "div" "dlink" soup).




(** The [srcset] of the source of a picture, when the picture has a source
    and the [srcset] has the poster path segment. *)
Definition source_candidate (picture : Dom.node) : option string :=
  match Dom.find "source" picture with
  | Some source =>
      let srcset := Dom.get source "srcset" in
      if Str.nonempty srcset && Str.contains "/uploads/posters/" srcset
      then Some srcset else None
  | None => None
  end.

(** The [src] of the image of a picture, when the picture has an image and
    the [src] has the poster path segment. *)
Definition img_candidate (picture : Dom.node) : option string :=
  match Dom.find "img" picture with
  | Some img =>
      let src := Dom.get img "src" in
      if Str.nonempty src && Str.contains "/uploads/posters/" src
      then Some src else None
  | None => None
  end.

(** The images found when the loop over the plain [img] elements ends. *)
Definition plain_images (urljoin : string -> string -> string)
  (base_url : string) (soup : Dom.node) : images :=
  fold_left (image_step urljoin base_url) (Dom.find_all "img" soup)
            (Images None []).

(** The result of a computation satisfies [P], whatever was requested
    before. *)
Definition post {A} (c : M A) (P : A -> Prop) : Prop :=
  forall l, P (fst (c l)).

(** All media URLs of a result, in order. *)
Definition media_urls (r : movie_result) : list (option string) :=
  flat_map (fun info =>
              flat_map (fun d => map mp4_url (direct_links d)) (downloads info))
           (qualities r).

(** The URLs of a movie that the playlist writer takes up: the media URLs
    that are neither [None] nor empty, in order. *)
Definition resolved_urls (movie : movie_result) : list string :=
  flat_map (fun o => match o with
                     | Some u => if Str.nonempty u then [u] else []
                     | None => []
                     end) (media_urls movie).

(** The entries [get_download_links] reads off the [li a.coral] links. *)
Definition coral_entries (urljoin : string -> string -> string)
  (base_url : string) (soup : Dom.node) : list (string * string) :=
  flat_map (fun link =>
              if Str.contains "/download/" (Dom.get link "href")
              then [(Dom.get_text link,
                     full_url urljoin base_url (Dom.get link "href"))]
              else [])
           (Dom.select_li_a_coral soup).

(** The entries [get_download_links] reads off all links when there is no
    [li a.coral] entry. *)
Definition any_link_entries (urljoin : string -> string -> string)
  (base_url : string) (soup : Dom.node) : list (string * string) :=
  flat_map (fun link =>
              if Str.contains "/download/" (Dom.get link "href")
                 && (Str.contains ".mp4" (Str.lower (Dom.get_text link))
                     || Str.contains "hd" (Str.lower (Dom.get_text link)))
              then [(Dom.get_text link,
                     full_url urljoin base_url (Dom.get link "href"))]
              else [])
           (Dom.find_all_a_href soup).

(** The strings of a list, one after the other. *)
Definition join_all (l : list string) : string :=
  fold_right String.append EmptyString l.

(** The characters [safe_title] lets through: letters, digits and
    [- _ ( )]. *)
Definition file_name_char (c : ascii) : bool :=
  Str.is_alnum c || Str.contains (String c EmptyString) "-_()".

(** What a download entry is before its servers are resolved. *)
Definition download_facts (d : download) : string * string * option string :=
  (filename d, intermediate_url d, file_size d).

(** An image of the page that the first loop of [get_movie_images] takes
    for a poster, and one it takes for a screenshot. *)
Definition is_poster_img (urljoin : string -> string -> string)
  (base_url : string) (img : Dom.node) : bool :=
  Str.nonempty (Dom.get img "src")
  && (Str.contains "/uploads/posters/" (full_url urljoin base_url (Dom.get img "src"))
      || Str.contains "poster" (Str.lower (Dom.get img "alt"))).

Definition is_screenshot_img (urljoin : string -> string -> string)
  (base_url : string) (img : Dom.node) : bool :=
  Str.nonempty (Dom.get img "src")
  && negb (is_poster_img urljoin base_url img)
  && (Str.contains "/uploads/screen_shots/"
                   (full_url urljoin base_url (Dom.get img "src"))
      || Str.contains "screenshot" (Str.lower (Dom.get img "alt"))).

(** The number of requests a computation makes, started on log [l]. *)
Definition requests {A} (c : M A) (l : log) : nat :=
  length (snd (c l)) - length l.

(** The hit a search run takes up for a name on one site, started on log
    [l]: the first match of [search_movie] for one result; when that finds
    none, the first match of [smart_search_movie], run next. *)
Definition first_hit (web : nat -> string -> option Dom.node)
  (urljoin : string -> string -> string) (self_base_url : string)
  (movie_name base_url : string) (l : log) : option movie_ref :=
  let found := search_movie web urljoin self_base_url
                 movie_name (Some base_url) 1 l in
  match fst found with
  | movie :: _ => Some movie
  | [] => hd_error (fst (smart_search_movie web self_base_url
                           movie_name (Some base_url) 1 (snd found)))
  end.

(** A result that carries the URL and the title of the hit for one of the
    names on one of the sites. *)
Definition scraped_hit (web : nat -> string -> option Dom.node)
  (urljoin : string -> string -> string) (self_base_url : string)
  (search_list base_urls : list string) (d : movie_result) : Prop :=
  exists movie_name base_url l hit,
    In movie_name search_list /\ In base_url base_urls
    /\ first_hit web urljoin self_base_url movie_name base_url l = Some hit
    /\ movie_url d = m_url hit /\ title d = Some (m_title hit).

(** A result that carries the URL and the title of an entry of the listing
    of one of the category URLs. *)
Definition scraped_entry (web : nat -> string -> option Dom.node)
  (urljoin : string -> string -> string) (urlparse : string -> string * string)
  (category_urls : list string) (max_pages : Z) (d : movie_result) : Prop :=
  exists category_url l movie,
    In category_url category_urls
    /\ In movie (fst (get_movies_from_category web urljoin urlparse
                        category_url (Z.to_nat max_pages) l))
    /\ movie_url d = m_url movie /\ title d = Some (m_title movie).

(* ================================================================== *)
(** ** The redirect chain walker *)
(* ================================================================== *)

Ltac run_m := unfold bind, ret, _get_soup in *; simpl in *.

Section WalkerFacts.

Variable web : nat -> string -> option Dom.node.

Lemma is_final_level3_level2 h :
  is_final cdn_domains_level3 h = true -> is_final cdn_domains_level2 h = true.
Proof.
  unfold is_final, cdn_domains_level2, cdn_domains_level3. simpl.
  intros H. repeat rewrite orb_true_iff in *. intuition.
Qed.

Lemma is_final_nonempty cdns h :
  cdns = cdn_domains_level2 \/ cdns = cdn_domains_level3 ->
  is_final cdns h = true -> Str.nonempty h = true.
Proof.
  intros [-> | ->] H; destruct h; try reflexivity; discriminate H.
Qed.

Lemma first_final_sound cdns links h :
  first_final cdns links = Some h -> is_final cdns h = true.
Proof.
  induction links as [|link rest IH]; simpl; [discriminate|].
  destruct (is_final cdns (Dom.get link "href")) eqn:E; auto.
  intros [= <-]. exact E.
Qed.

Lemma follow_log u l : snd (_follow_final_redirect web u l) = l ++ [u].
Proof.
  unfold _follow_final_redirect. run_m. destruct (web _ _); reflexivity.
Qed.

Lemma follow_sound u l h :
  fst (_follow_final_redirect web u l) = Some h ->
  is_final cdn_domains_level3 h = true.
Proof.
  unfold _follow_final_redirect. run_m.
  destruct (web _ _); simpl; [apply first_final_sound | discriminate].
Qed.

Lemma final_mp4_dlinks_sound divs : forall l h,
  fst (final_mp4_dlinks web divs l) = Some h ->
  is_final cdn_domains_level2 h = true.
Proof.
  induction divs as [|d rest IH]; intros l h; simpl; [discriminate|].
  destruct (Dom.find_a_href d) as [link|]; [|apply IH].
  destruct (is_final cdn_domains_level2 _) eqn:E.
  - intros [= <-]. exact E.
  - destruct (_ && _); [|apply IH].
    unfold bind.
    destruct (_follow_final_redirect web _ l) as [r l'] eqn:F.
    destruct (truthy r) eqn:T; [|apply IH].
    simpl. intros ->. apply is_final_level3_level2.
    apply (follow_sound (Dom.get link "href") l). rewrite F. reflexivity.
Qed.

Lemma final_mp4_dlinks_log divs : forall l,
  exists hs, snd (final_mp4_dlinks web divs l) = l ++ hs
             /\ length hs <= length divs
             /\ incl hs (container_hrefs divs).
Proof.
  induction divs as [|d rest IH]; intros l; simpl.
  - exists []. rewrite app_nil_r. repeat split; auto. apply incl_refl.
  - unfold container_hrefs in *. simpl.
    destruct (Dom.find_a_href d) as [link|].
    + assert (skip : exists hs,
                 snd (final_mp4_dlinks web rest l) = l ++ hs
                 /\ length hs <= S (length rest)
                 /\ incl hs ([Dom.get link "href"] ++ flat_map
                      (fun d => match Dom.find_a_href d with
                                | Some link => [Dom.get link "href"]
                                | None => []
                                end) rest)).
      { destruct (IH l) as (hs & E & L & I). exists hs.
        repeat split; auto. apply incl_appr. exact I. }
      destruct (is_final cdn_domains_level2 _).
      * exists []. simpl. rewrite app_nil_r. repeat split; auto with arith.
        intros x [].
      * destruct (_ && _); [|exact skip].
        unfold bind.
        destruct (_follow_final_redirect web _ l) as [r l'] eqn:F.
        assert (L' : l' = l ++ [Dom.get link "href"]).
        { rewrite <- (follow_log (Dom.get link "href") l), F. reflexivity. }
        destruct (truthy r).
        -- exists [Dom.get link "href"]. simpl. repeat split; auto with arith.
           intros x [<-|[]]. left. reflexivity.
        -- destruct (IH l') as (hs & E & L & I).
           exists (Dom.get link "href" :: hs). subst l'.
           rewrite E, <- app_assoc. simpl. repeat split; auto with arith.
           intros x [<-|Hx]; [left; reflexivity|]. right. apply I, Hx.
    + destruct (IH l) as (hs & E & L & I). exists hs. repeat split; auto.
Qed.

Lemma final_mp4_url_sound u l h :
  fst (_get_final_mp4_url web u l) = Some h ->
  is_final cdn_domains_level2 h = true.
Proof.
  unfold _get_final_mp4_url. run_m.
  destruct (web _ _) as [soup|]; simpl; [|discriminate].
  destruct (final_mp4_dlinks web _ _) as [[f|] l'] eqn:F; simpl.
  - intros [= <-]. eapply final_mp4_dlinks_sound with (l := l ++ [u]).
    rewrite F. reflexivity.
  - apply first_final_sound.
Qed.

(** What the walker returns is never the empty string, so a server whose
    [mp4_url] is not [None] is one at which the loops break. *)
Lemma final_mp4_url_truthy u l :
  truthy (fst (_get_final_mp4_url web u l)) = true
  <-> fst (_get_final_mp4_url web u l) <> None.
Proof.
  destruct (fst (_get_final_mp4_url web u l)) as [h|] eqn:E; simpl.
  - split; [discriminate|]. intros _.
    apply (is_final_nonempty (cdns := cdn_domains_level2)); auto.
    apply (final_mp4_url_sound _ _ E).
  - split; [discriminate|]. intros H. now elim H.
Qed.

End WalkerFacts.

(** *** Requests of one walk *)

(** C2, as stated, fails: on a server page with three links to further
    download pages that cannot be fetched, one walk makes four requests. *)
Lemma walker_more_than_three_requests :
  ~ (forall web u l, requests (_get_final_mp4_url web u) l <= 3).
Proof.
  intros H.
  specialize (H (Site.serve Site.dead_ends) "http://srv.example/s/1" []).
  vm_compute in H. lia.
Qed.

(** C2, amended: one walk requests the level-1 page and then at most one
    page per [div.dlink] container of that page, each of them the href of
    the first link of such a container; a page reached from there is never
    followed further. *)
Theorem walker_request_bound web u l :
  let divs := match web (length l) u with
              | Some soup => Dom.select "div" "dlink" soup
              | None => []
              end in
  requests (_get_final_mp4_url web u) l <= 1 + length divs
  /\ exists hs, snd (_get_final_mp4_url web u l) = l ++ u :: hs
                /\ incl hs (container_hrefs divs).
Proof.
  unfold requests, _get_final_mp4_url. run_m.
  destruct (web (length l) u) as [soup|]; simpl.
  - destruct (final_mp4_dlinks_log web (Dom.select "div" "dlink" soup) (l ++ [u]))
      as (hs & E & L & I).
    destruct (final_mp4_dlinks web _ _) as [[f|] l'] eqn:F; simpl in *;
      subst l'; rewrite <- app_assoc; simpl;
      (split; [rewrite length_app; simpl; lia | exists hs; auto]).
  - split.
    + rewrite length_app. simpl. lia.
    + exists []. split; [reflexivity | apply incl_refl].
Qed.

(** *** Terminal hrefs *)


(** The third hop uses a shorter CDN list than the second: an href on
    [dubmv] is terminal on the level-1 page only. *)
Example dubmv_is_terminal_on_the_level_1_page_only :
  is_final cdn_domains_level2 "https://dubmv.top/file/1" = true
  /\ is_final cdn_domains_level3 "https://dubmv.top/file/1" = false.
Proof. vm_compute. split; reflexivity. Qed.

Section WalkerOrder.

Variable web : nat -> string -> option Dom.node.






End WalkerOrder.



(* ================================================================== *)
(** ** Server links of one download page *)
(* ================================================================== *)

Section ServerFacts.

Variable web : nat -> string -> option Dom.node.

Lemma stops_nil : stops_at_first_resolved [] [].
Proof. split; [constructor | exists []; split; auto]. Qed.

Lemma stops_one href text r candidates :
  r <> None ->
  stops_at_first_resolved (href :: candidates) [ServerLink text href r].
Proof.
  intros R. split; [constructor|]. exists candidates. split; [reflexivity|].
  right. exists [], (ServerLink text href r). split; [reflexivity | exact R].
Qed.

Lemma stops_cons href text candidates servers :
  stops_at_first_resolved candidates servers ->
  stops_at_first_resolved (href :: candidates)
                          (ServerLink text href None :: servers).
Proof.
  intros [U (later & E & L)]. split.
  - destruct servers as [|s servers]; [constructor|].
    change (removelast (ServerLink text href None :: s :: servers))
      with (ServerLink text href None :: removelast (s :: servers)).
    constructor; [reflexivity | exact U].
  - exists later. split; [simpl; rewrite E; reflexivity|].
    destruct L as [L | (pre & s & P & R)]; [left; exact L|].
    right. exists (ServerLink text href None :: pre), s.
    split; [rewrite P; reflexivity | exact R].
Qed.

Lemma falsy_is_none u l r l' :
  _get_final_mp4_url web u l = (r, l') -> truthy r = false -> r = None.
Proof.
  intros F Tr. assert (T := final_mp4_url_truthy web u l).
  rewrite F in T. simpl fst in T. destruct r; [|reflexivity].
  rewrite (proj2 T) in Tr; discriminate.
Qed.

Lemma truthy_not_none (r : option string) : truthy r = true -> r <> None.
Proof. destruct r; [discriminate | intros H; discriminate H]. Qed.

Lemma server_dlinks_acc divs : forall acc l,
  server_dlinks web divs acc l
  = (acc ++ fst (server_dlinks web divs [] l),
     snd (server_dlinks web divs [] l)).
Proof.
  induction divs as [|d rest IH]; intros acc l; simpl.
  - unfold ret. simpl. rewrite app_nil_r. reflexivity.
  - destruct (Dom.find_a_href d) as [link|]; [|apply IH].
    destruct (Str.startswith _ _); [|apply IH].
    unfold bind. destruct (_get_final_mp4_url web _ l) as [r l'].
    destruct (truthy r); unfold ret; simpl; [reflexivity|].
    rewrite (IH (acc ++ _)), (IH [_]). simpl.
    rewrite <- app_assoc. reflexivity.
Qed.

Lemma server_fallback_acc links : forall acc l,
  server_fallback web links acc l
  = (acc ++ fst (server_fallback web links [] l),
     snd (server_fallback web links [] l)).
Proof.
  induction links as [|link rest IH]; intros acc l; simpl.
  - unfold ret. simpl. rewrite app_nil_r. reflexivity.
  - destruct (_ && _); [|apply IH].
    unfold bind. destruct (_get_final_mp4_url web _ l) as [r l'].
    destruct (truthy r); unfold ret; simpl; [reflexivity|].
    rewrite (IH (acc ++ _)), (IH [_]). simpl.
    rewrite <- app_assoc. reflexivity.
Qed.

Lemma server_dlinks_stops divs : forall l,
  stops_at_first_resolved
    (filter (fun href => Str.startswith href "http") (container_hrefs divs))
    (fst (server_dlinks web divs [] l)).
Proof.
  induction divs as [|d rest IH]; intros l; simpl; [apply stops_nil|].
  unfold container_hrefs in *. simpl.
  destruct (Dom.find_a_href d) as [link|]; simpl; [|apply IH].
  destruct (Str.startswith _ _) eqn:Hs; [|apply IH].
  unfold bind. destruct (_get_final_mp4_url web _ l) as [r l'] eqn:F.
  destruct (truthy r) eqn:Tr; simpl.
  - apply stops_one, truthy_not_none, Tr.
  - rewrite server_dlinks_acc. simpl.
    rewrite (falsy_is_none _ _ F Tr). apply stops_cons, IH.
Qed.

Lemma server_fallback_stops links : forall l,
  stops_at_first_resolved
    (map (fun link => Dom.get link "href")
       (filter (fun link =>
                  (Str.contains "download" (Str.lower (Dom.get_text link))
                   || Str.contains "server" (Str.lower (Dom.get_text link)))
                  && (Str.startswith (Dom.get link "href") "http"
                      && negb (Str.contains "moviesda15.com" (Dom.get link "href"))
                      && negb (Str.contains "isaidub.love" (Dom.get link "href"))))
               links))
    (fst (server_fallback web links [] l)).
Proof.
  induction links as [|link rest IH]; intros l; simpl; [apply stops_nil|].
  destruct (_ && _); simpl; [|apply IH].
  unfold bind. destruct (_get_final_mp4_url web _ l) as [r l'] eqn:F.
  destruct (truthy r) eqn:Tr; simpl.
  - apply stops_one, truthy_not_none, Tr.
  - rewrite server_fallback_acc. simpl.
    rewrite (falsy_is_none _ _ F Tr). apply stops_cons, IH.
Qed.

End ServerFacts.

(** C10: in the list [_get_server_links] returns only the last server can
    have an [mp4_url] that is not [None]; the servers are the first of the
    candidate links of the page, in order, and candidates are left out only
    after a server that resolved. *)
Theorem server_links_stop_at_first_resolved web u l :
  let servers := fst (_get_server_links web u l) in
  (forall i s, nth_error servers i = Some s -> mp4_url s <> None ->
               S i = length servers)
  /\ match web (length l) u with
     | Some soup => stops_at_first_resolved (server_candidates soup) servers
     | None => servers = []
     end.
Proof.
  assert (last_only : forall servers : list server_link,
             Forall (fun s => mp4_url s = None) (removelast servers) ->
             forall i s, nth_error servers i = Some s -> mp4_url s <> None ->
                         S i = length servers).
  { induction servers as [|x [|y servers] IH]; intros U i s Hn Hs.
    - destruct i; discriminate Hn.
    - destruct i as [|[|i]]; [reflexivity | discriminate Hn | discriminate Hn].
    - change (removelast (x :: y :: servers))
        with (x :: removelast (y :: servers)) in U.
      inversion U as [|? ? Hx U']; subst.
      destruct i as [|i].
      + injection Hn as <-. contradiction.
      + simpl. f_equal. apply (IH U' i s); assumption. }
  unfold _get_server_links. run_m.
  destruct (web (length l) u) as [soup|]; simpl.
  2:{ split; [intros [|i] s H; discriminate H | reflexivity]. }
  pose proof (server_dlinks_stops web (Dom.select "div" "dlink" soup) (l ++ [u]))
    as S1.
  unfold server_candidates.
  set (from_containers := filter _ (container_hrefs _)) in *.
  destruct (server_dlinks web _ [] (l ++ [u])) as [servers l'] eqn:D.
  simpl fst in S1.
  destruct servers as [|s servers]; simpl.
  - destruct S1 as [_ (later & E & [-> | (pre & s & P & _)])].
    + simpl in E. rewrite E. simpl.
      pose proof (server_fallback_stops web (Dom.find_all_a_href soup) l') as S2.
      split; [apply last_only, S2 | exact S2].
    + destruct pre; discriminate P.
  - pose proof S1 as [U1 (later & E & _)].
    replace (some_item from_containers) with true by (rewrite E; reflexivity).
    split; [apply last_only, U1 | exact S1].
Qed.

Lemma server_links_stop_at_first_resolved_witness :
  map level1_url
      (fst (_get_server_links (Site.serve Site.three_servers)
              "https://moviesda15.com/download/leo-720p-hd/" []))
  = ["http://srv1.example/s/1"; "http://srv2.example/s/1"]
  /\ stops_at_first_resolved
       ["http://srv1.example/s/1"; "http://srv2.example/s/1";
        "http://srv3.example/s/1"]
       (fst (_get_server_links (Site.serve Site.three_servers)
               "https://moviesda15.com/download/leo-720p-hd/" [])).
Proof.
  split; [reflexivity|].
  exact (proj2 (@server_links_stop_at_first_resolved
                  (Site.serve Site.three_servers)
                  "https://moviesda15.com/download/leo-720p-hd/" [])).
Defined.

(* ================================================================== *)
(** ** Episodes of a season page *)
(* ================================================================== *)

Section SeasonFacts.

Variable urljoin : string -> string -> string.

Lemma update_last_map {A B} (key : A -> B) (f : A -> A) l :
  (forall x, key (f x) = key x) ->
  map key (update_last f l) = map key l.
Proof.
  intros K. induction l as [|x [|y l] IH]; simpl; try reflexivity.
  - rewrite K. reflexivity.
  - f_equal. exact IH.
Qed.

Lemma update_last_keys sz qs :
  map option_key (update_last (with_q_file_size sz) qs) = map option_key qs.
Proof. apply update_last_map. reflexivity. Qed.

Lemma episode_step_keys base_url qs li :
  map option_key (episode_step urljoin base_url qs li)
  = map option_key qs
    ++ map option_key (match episode_of_li urljoin base_url li with
                       | Some e => [e]
                       | None => []
                       end).
Proof.
  unfold episode_step.
  destruct (size_match _); [rewrite update_last_keys|];
    destruct (episode_of_li urljoin base_url li);
    rewrite ?map_app, ?app_nil_r; reflexivity.
Qed.

Lemma episode_fold_keys base_url lis : forall qs,
  map option_key (fold_left (episode_step urljoin base_url) lis qs)
  = map option_key qs
    ++ map option_key
         (flat_map (fun li => match episode_of_li urljoin base_url li with
                              | Some e => [e]
                              | None => []
                              end) lis).
Proof.
  induction lis as [|li lis IH]; intros qs; simpl.
  - rewrite app_nil_r. reflexivity.
  - rewrite IH, episode_step_keys, map_app, app_assoc. reflexivity.
Qed.

End SeasonFacts.

(** C5: the options [_get_episodes_from_season_page] returns are the
    episodes of the list items of the page in the reverse of document
    order. *)
Theorem season_page_reverses_document_order
  web urljoin urlparse season_url base_url l soup :
  web (length l) season_url = Some soup ->
  map option_key
      (fst (_get_episodes_from_season_page web urljoin urlparse
              season_url (Some base_url) l))
  = rev (map option_key
           (episodes_in_document_order urljoin
              (if Str.nonempty base_url then base_url
               else origin urlparse season_url) soup)).
Proof.
  intros W. unfold _get_episodes_from_season_page. run_m. rewrite W. simpl.
  rewrite map_rev. f_equal.
  unfold episodes_in_document_order. apply episode_fold_keys.
Qed.

Lemma season_page_reverses_document_order_witness :
  Site.serve Site.wednesday 0
    "https://isaidub.love/movie/wednesday-season-02-tamil-dubbed-movie/"
  = Some (Site.doc
            [Site.ul [Site.li [Site.a "/download/page/103/" "Ep03"];
                      Site.li [Dom.Text "File Size: 310 MB"];
                      Site.li [Site.a "/download/page/102/" "Ep02"];
                      Site.li [Site.a "/download/page/101/" "Ep01"]]])
  /\ map option_key
       (fst (_get_episodes_from_season_page (Site.serve Site.wednesday)
               Lib.urljoin Lib.urlparse
               "https://isaidub.love/movie/wednesday-season-02-tamil-dubbed-movie/"
               (Some "https://isaidub.love") []))
     = [("Ep01", "https://isaidub.love/download/page/101/", true);
        ("Ep02", "https://isaidub.love/download/page/102/", true);
        ("Ep03", "https://isaidub.love/download/page/103/", true)].
Proof.
  split; [reflexivity|].
  exact (@season_page_reverses_document_order (Site.serve Site.wednesday)
           Lib.urljoin Lib.urlparse
           "https://isaidub.love/movie/wednesday-season-02-tamil-dubbed-movie/"
           "https://isaidub.love" [] _ eq_refl).
Defined.

(* ================================================================== *)
(** ** Sequential episode probing *)
(* ================================================================== *)

Section ProbingFacts.

Variable web : nat -> string -> option Dom.node.
Variables base_url series_slug season_num : string.

Let url_of := episode_url base_url series_slug season_num.

Let present := episode_present web base_url series_slug season_num.
Let absent := episode_absent web base_url series_slug season_num.

Lemma scan_episodes_run k : forall n first acc l,
  k <= n ->
  (forall i, i < k -> present (length l + i) (first + i)) ->
  (k < n -> absent (length l + k) (first + k)) ->
  exists found,
    scan_episodes web base_url series_slug season_num (seq first n) acc l
    = (acc ++ found, l ++ map url_of (seq first (Nat.min (S k) n)))
    /\ map q_url found = map url_of (seq first k)
    /\ Forall (fun q => q_is_direct_download q = true) found.
Proof.
  induction k as [|k IH]; intros n first acc l Hk Hp Ha.
  - destruct n as [|n].
    + exists []. simpl. unfold ret. rewrite !app_nil_r. auto.
    + exists []. simpl. run_m.
      specialize (Ha (Nat.lt_0_succ n)).
      unfold absent, episode_absent in Ha.
      rewrite !Nat.add_0_r in Ha. unfold url_of. rewrite app_nil_r.
      revert Ha.
      destruct (web (length l) _) as [soup|]; [intros ->|]; auto.
  - destruct n as [|n]; [lia|].
    destruct (Hp 0 (Nat.lt_0_succ k)) as (soup & W & D).
    rewrite !Nat.add_0_r in W.
    destruct (IH n (S first)
                (acc ++ [QualityOption (episode_title soup first)
                           (url_of first) true None])
                (l ++ [url_of first])) as (found & E & U & F).
    + lia.
    + intros i Hi. rewrite length_app. simpl.
      replace (length l + 1 + i) with (length l + S i) by lia.
      replace (S (first + i)) with (first + S i) by lia.
      apply Hp. lia.
    + intros Hlt. rewrite length_app. simpl.
      replace (length l + 1 + k) with (length l + S k) by lia.
      replace (S (first + k)) with (first + S k) by lia.
      apply Ha. lia.
    + exists (QualityOption (episode_title soup first) (url_of first) true None
              :: found).
      split; [|split].
      * simpl. run_m. unfold url_of in *. rewrite W, D, E.
        rewrite <- !app_assoc. reflexivity.
      * simpl. rewrite U. reflexivity.
      * constructor; [reflexivity | exact F].
Qed.

End ProbingFacts.

(** C4: for a series URL that parses, probing requests the episode URLs
    [{base}/download/{slug}-season-{N}-epi-{NN}/] for NN = 01, 02, ... in
    that order; when episodes 1 to k are there with server links and
    episode k+1 is not (or k is 20), it returns exactly the k episodes, in
    ascending order and flagged as direct downloads, and the last URL it
    requests is that of episode k+1, or of episode 20. *)
Theorem probing_stops_at_first_gap
  web movie_url base_url series_slug season_num k l :
  parse_series_url movie_url = Some (series_slug, season_num) ->
  k <= 20 ->
  (forall i, i < k ->
     episode_present web base_url series_slug season_num (length l + i) (1 + i)) ->
  (k < 20 ->
     episode_absent web base_url series_slug season_num (length l + k) (1 + k)) ->
  let episodes := fst (_scan_moviesda_episodes web movie_url base_url l) in
  let l' := snd (_scan_moviesda_episodes web movie_url base_url l) in
  length episodes = k
  /\ map q_url episodes
     = map (episode_url base_url series_slug season_num) (seq 1 k)
  /\ Forall (fun q => q_is_direct_download q = true) episodes
  /\ l' = l ++ map (episode_url base_url series_slug season_num)
                   (seq 1 (Nat.min (S k) 20))
  /\ Forall (fun n =>
               episode_url base_url series_slug season_num n
               = (base_url ++ "/download/" ++ series_slug ++ "-season-"
                    ++ season_num ++ "-epi-" ++ Str.zfill2 (Str.of_nat n)
                    ++ "/")%string
               /\ String.length (Str.zfill2 (Str.of_nat n)) = 2)
            (seq 1 20).
Proof.
  intros P Hk Hp Ha. unfold _scan_moviesda_episodes. rewrite P.
  destruct (@scan_episodes_run web base_url series_slug season_num
              k 20 1 [] l Hk Hp Ha) as (found & E & U & F).
  rewrite E. simpl fst. simpl snd. repeat split; auto.
  - rewrite <- (length_map q_url), U, length_map, length_seq. reflexivity.
  - repeat constructor.
Qed.

Lemma probing_stops_at_first_gap_witness :
  let episodes :=
    fst (_scan_moviesda_episodes (Site.serve Site.seven_episodes)
           "https://moviesda15.com/squid-game-season-02-2025-tamil-movie/"
           "https://moviesda15.com" []) in
  let l' :=
    snd (_scan_moviesda_episodes (Site.serve Site.seven_episodes)
           "https://moviesda15.com/squid-game-season-02-2025-tamil-movie/"
           "https://moviesda15.com" []) in
  length episodes = 7
  /\ map q_url episodes
     = map (episode_url "https://moviesda15.com" "squid-game" "02") (seq 1 7)
  /\ Forall (fun q => q_is_direct_download q = true) episodes
  /\ l' = [] ++ map (episode_url "https://moviesda15.com" "squid-game" "02")
                    (seq 1 (Nat.min 8 20))
  /\ Forall (fun n =>
               episode_url "https://moviesda15.com" "squid-game" "02" n
               = ("https://moviesda15.com" ++ "/download/" ++ "squid-game"
                    ++ "-season-" ++ "02" ++ "-epi-"
                    ++ Str.zfill2 (Str.of_nat n) ++ "/")%string
               /\ String.length (Str.zfill2 (Str.of_nat n)) = 2)
            (seq 1 20).
Proof.
  apply (@probing_stops_at_first_gap (Site.serve Site.seven_episodes)
           "https://moviesda15.com/squid-game-season-02-2025-tamil-movie/"
           "https://moviesda15.com" "squid-game" "02" 7 []).
  - reflexivity.
  - lia.
  - intros i Hi.
    do 7 (destruct i as [|i]; [eexists; split; reflexivity|]). lia.
  - intros _. exact I.
Defined.

(* ================================================================== *)
(** ** The page resolver *)
(* ================================================================== *)

Section ResolverFacts.

Variable web : nat -> string -> option Dom.node.
Variable urljoin : string -> string -> string.
Variable urlparse : string -> string * string.

Lemma season_page_run season_url base_url l :
  _get_episodes_from_season_page web urljoin urlparse season_url
    (Some base_url) l
  = (episodes_of_season_page web urljoin urlparse base_url (length l) season_url,
     l ++ [season_url]).
Proof.
  unfold _get_episodes_from_season_page, episodes_of_season_page. run_m.
  destruct (web _ _); reflexivity.
Qed.

(** The loop over the containers passes over those that decide nothing: it
    requests the pages of their season links and goes on. *)
Lemma quality_loop_undecided base_url tail pre : forall qualities l,
  undecided web urljoin urlparse base_url (length l) pre ->
  exists qualities',
    quality_loop web urljoin urlparse base_url (pre ++ tail) qualities l
    = quality_loop web urljoin urlparse base_url tail qualities'
        (l ++ season_links urljoin base_url pre).
Proof.
  induction pre as [|d pre IH]; intros qualities l [NoOrig Empty].
  - exists qualities. simpl. rewrite app_nil_r. reflexivity.
  - simpl app. simpl quality_loop. unfold season_links in *. simpl in Empty.
    simpl flat_map.
    assert (NoOrig' : forall d' link',
               In d' pre -> Dom.find_a_href d' = Some link' ->
               is_original_href (Dom.get link' "href") (Dom.get_text link')
               = false).
    { intros d' link' H. apply NoOrig. right. exact H. }
    destruct (Dom.find_a_href d) as [link|] eqn:A.
    + rewrite (NoOrig d link (or_introl eq_refl) A) in *. simpl negb in *.
      simpl andb in *.
      destruct (is_season_href (Dom.get link "href")).
      * unfold bind. rewrite season_page_run.
        rewrite <- (Nat.add_0_r (length l)).
        rewrite (Empty 0 _ eq_refl).
        change (some_item (@nil quality_option)) with false. cbv iota.
        destruct (IH (direct_quality urljoin base_url (Dom.get link "href")
                        (Dom.get_text link) qualities)
                     (l ++ [full_url urljoin base_url (Dom.get link "href")]))
          as (qualities' & E).
        { split; [exact NoOrig'|]. intros j season_url Hj.
          rewrite length_app. simpl length.
          replace (length l + 1 + j) with (length l + S j) by lia.
          apply Empty. exact Hj. }
        exists qualities'. rewrite E, <- app_assoc. reflexivity.
      * apply IH. split; [exact NoOrig' | exact Empty].
    + apply IH. split; [exact NoOrig' | exact Empty].
Qed.

Lemma original_page_run original_url base_url l :
  _get_quality_from_original_page web urljoin urlparse original_url
    (Some base_url) l
  = (options_of_original_page web urljoin urlparse base_url (length l)
       original_url,
     l ++ [original_url]).
Proof.
  unfold _get_quality_from_original_page, options_of_original_page. run_m.
  destruct (web _ _); reflexivity.
Qed.

End ResolverFacts.

(** C3, as stated, fails: on a movie page whose season link comes before
    its "Original" link, and whose season page lists an episode, the
    resolver returns the episodes of the season page and never requests
    the "Original" page. *)
Lemma season_link_before_original_wins :
  Dom.select "div" "f"
    (Site.doc
       [Site.div "f" [Site.a "/movie/wednesday-season-02-tamil-dubbed-movie/" "Season 02"];
        Site.div "f" [Site.a "/movie/wednesday-movie-original/" "Wednesday (Original)"]])
  = [Site.div "f" [Site.a "/movie/wednesday-season-02-tamil-dubbed-movie/" "Season 02"];
     Site.div "f" [Site.a "/movie/wednesday-movie-original/" "Wednesday (Original)"]]
  /\ is_original_href "/movie/wednesday-movie-original/" "Wednesday (Original)" = true
  /\ (let r := get_quality_options (Site.serve Site.wednesday)
                 Lib.urljoin Lib.urlparse "https://moviesda15.com"
                 "https://isaidub.love/movie/wednesday-tamil-dubbed-web-series/" [] in
      map q_quality (fst (fst r)) = ["Ep01"; "Ep02"; "Ep03"]
      /\ snd r = ["https://isaidub.love/movie/wednesday-tamil-dubbed-web-series/";
                  "https://isaidub.love/movie/wednesday-season-02-tamil-dubbed-movie/"]).
Proof. vm_compute. repeat split. Qed.

(** C3, amended: the first links of the [div.f] containers of the movie
    page are tried in document order, and the first that is an "Original"
    link, or a season link whose page yields an episode, decides. A season
    link whose page yields no episode costs one request and decides
    nothing. An "Original" link that is reached has its page requested and
    the quality options of that page returned (none when the request
    fails); a season link that is reached and whose page yields episodes
    has these returned. In both cases nothing else is requested, the
    quality links met before are dropped and the links after are not
    looked at. *)
Theorem first_deciding_link_decides
  web urljoin urlparse self_base_url url l soup pre div rest link :
  web (length l) url = Some soup ->
  Dom.select "div" "f" soup = pre ++ div :: rest ->
  Dom.find_a_href div = Some link ->
  undecided web urljoin urlparse (origin urlparse url) (S (length l)) pre ->
  let base_url := origin urlparse url in
  let tried := season_links urljoin base_url pre in
  let t := S (length l) + length tried in
  let link_url := full_url urljoin base_url (Dom.get link "href") in
  let imgs := Some (get_movie_images urljoin urlparse self_base_url soup url) in
  (is_original_href (Dom.get link "href") (Dom.get_text link) = true ->
   get_quality_options web urljoin urlparse self_base_url url l
   = ((options_of_original_page web urljoin urlparse base_url t link_url, imgs),
      l ++ url :: tried ++ [link_url]))
  /\ (is_original_href (Dom.get link "href") (Dom.get_text link) = false ->
      is_season_href (Dom.get link "href") = true ->
      episodes_of_season_page web urljoin urlparse base_url t link_url <> [] ->
      get_quality_options web urljoin urlparse self_base_url url l
      = ((episodes_of_season_page web urljoin urlparse base_url t link_url, imgs),
         l ++ url :: tried ++ [link_url])).
Proof.
  intros W S A U base_url tried t link_url imgs.
  assert (L : length (l ++ [url]) = Datatypes.S (length l))
    by (rewrite length_app; simpl; lia).
  rewrite <- L in U.
  assert (T : length ((l ++ [url]) ++ tried) = t).
  { rewrite length_app, L. reflexivity. }
  unfold get_quality_options. run_m. rewrite W, S.
  destruct (quality_loop_undecided (div :: rest) [] (l ++ [url]) U)
    as (qualities' & ->).
  fold base_url tried. simpl quality_loop. rewrite A. split.
  - intros O. rewrite O. unfold bind. rewrite original_page_run, T.
    fold link_url. rewrite <- !app_assoc. reflexivity.
  - intros O Se NE. rewrite O, Se. unfold bind. rewrite season_page_run, T.
    fold link_url.
    destruct (episodes_of_season_page web urljoin urlparse base_url t link_url)
      as [|e es]; [now elim NE|].
    simpl. rewrite <- !app_assoc. reflexivity.
Qed.

Lemma first_deciding_link_decides_witness :
  get_quality_options (Site.serve Site.ted) Lib.urljoin Lib.urlparse
    "https://moviesda15.com"
    "https://isaidub.love/movie/ted-2012-tamil-dubbed-movie/" []
  = (([QualityOption "Ted (720p HD)" "https://isaidub.love/movie/4321/" false None;
       QualityOption "Ted 360p HD" "https://isaidub.love/movie/ted-360p-hd-movie/"
                     false None],
      Some (Images None [])),
     ["https://isaidub.love/movie/ted-2012-tamil-dubbed-movie/";
      "https://isaidub.love/movie/ted-season-02-tamil-dubbed-movie/";
      "https://isaidub.love/movie/ted-movie-original/"]).
Proof.
  refine (proj1 (@first_deciding_link_decides (Site.serve Site.ted)
                   Lib.urljoin Lib.urlparse "https://moviesda15.com"
                   "https://isaidub.love/movie/ted-2012-tamil-dubbed-movie/" []
                   _
                   [Site.div "f" [Site.a "/movie/ted-480p-hd-movie/" "Ted 480p HD"];
                    Site.div "f" [Site.a "/movie/ted-season-02-tamil-dubbed-movie/"
                                         "Season 02"]]
                   (Site.div "f" [Site.a "/movie/ted-movie-original/"
                                         "Ted (Original)"])
                   [Site.div "f" [Site.a "/movie/ted-season-01-tamil-dubbed-movie/"
                                         "Season 01"]]
                   (Site.a "/movie/ted-movie-original/" "Ted (Original)")
                   eq_refl eq_refl eq_refl _) eq_refl).
  split.
  - intros d link [<- | [<- | []]] [= <-]; reflexivity.
  - intros [|[|j]] season_url E; try discriminate E.
    injection E as <-. reflexivity.
Defined.

(* ================================================================== *)
(** ** The aggregator: direct downloads *)
(* ================================================================== *)

Section DirectFacts.

Variable web : nat -> string -> option Dom.node.
Variable urljoin : string -> string -> string.

Lemma size_step_keys ds li :
  map download_key (size_step ds li) = map download_key ds.
Proof.
  unfold size_step. destruct (size_match _); [|reflexivity].
  apply update_last_map. reflexivity.
Qed.

Lemma direct_items_keys base_url lis : forall ds l,
  map download_key (fst (direct_items web urljoin base_url lis ds l))
  = map download_key ds
    ++ flat_map (fun li => match li_download_href li with
                           | Some (href, text) =>
                               [(text, full_url urljoin base_url href)]
                           | None => []
                           end) lis.
Proof.
  induction lis as [|li lis IH]; intros ds l; simpl.
  - rewrite app_nil_r. reflexivity.
  - unfold bind. destruct (li_download_href li) as [[href text]|].
    + destruct (_get_server_links web _ l) as [servers l']. unfold ret.
      rewrite IH, size_step_keys, map_app, <- app_assoc. reflexivity.
    + unfold ret. rewrite IH, size_step_keys. reflexivity.
Qed.

End DirectFacts.

(** C7, as stated, fails on two pages of a direct-download option. A list
    item that contains a download link behind another link yields no
    entry; and a page with a [div.dlink] container that holds no link is
    read as a list, here with two entries. *)
Lemma direct_download_counterexample :
  (map li_contains_download_link
       (Dom.find_all "li"
          (Site.doc
             [Site.ul [Site.li [Site.a "/movie/ted-2012-tamil-dubbed-movie/" "Ted";
                                Site.a "/download/page/9/" "Ted 720p.mp4"]]]))
   = [true]
   /\ downloads
        (fst (scrape_quality (Site.serve Site.ted_odd) Lib.urljoin Lib.urlparse
                (QualityOption "Ted (480x320)" "https://isaidub.love/movie/4322/"
                               true None) []))
      = [])
  /\ (has_dlink_container
        (Site.doc
           [Site.div "dlink" [Dom.Text "Servers"];
            Site.ul [Site.li [Site.a "/download/page/9/" "Ted 720p.mp4"];
                     Site.li [Site.a "/download/page/10/" "Ted 480p.mp4"]]])
      = true
      /\ length
           (downloads
              (fst (scrape_quality (Site.serve Site.ted_odd) Lib.urljoin Lib.urlparse
                      (QualityOption "Ted (640x360)" "https://isaidub.love/movie/4323/"
                                     true None) [])))
         = 2).
Proof. vm_compute. repeat split. Qed.

(** C7, amended: for a direct-download option whose page is fetched, when
    the page has a link inside a [div.dlink] container the aggregator
    builds exactly one entry, for the option itself; otherwise it builds
    one entry per [li] element whose first link with an href is a download
    link, in document order. *)
Theorem direct_download_entries web urljoin urlparse q l soup :
  q_is_direct_download q = true ->
  web (length l) (q_url q) = Some soup ->
  let info := fst (scrape_quality web urljoin urlparse q l) in
  qi_quality info = q_quality q
  /\ if some_item (Dom.select_dlink_a soup)
     then exists servers,
            downloads info
            = [Download (q_quality q) (q_url q) servers (Some EmptyString)]
     else map download_key (downloads info)
          = entries_in_document_order urljoin (origin urlparse (q_url q)) soup.
Proof.
  intros D W. unfold scrape_quality. rewrite D. run_m. rewrite W.
  destruct (some_item (Dom.select_dlink_a soup)).
  - destruct (_get_server_links web (q_url q) _) as [servers l'].
    simpl. split; [reflexivity | exists servers; reflexivity].
  - pose proof (direct_items_keys web urljoin (origin urlparse (q_url q))
                  (Dom.find_all "li" soup) [] (l ++ [q_url q])) as K.
    destruct (direct_items web urljoin _ _ [] _) as [ds l'].
    simpl in *. split; [reflexivity | exact K].
Qed.

Lemma direct_download_entries_witness :
  (let info :=
     fst (scrape_quality (Site.serve Site.seven_episodes) Lib.urljoin Lib.urlparse
            (QualityOption "Squid Game Epi 1"
               "https://moviesda15.com/download/squid-game-season-02-epi-01/"
               true None) []) in
   qi_quality info = "Squid Game Epi 1"
   /\ exists servers,
        downloads info
        = [Download "Squid Game Epi 1"
             "https://moviesda15.com/download/squid-game-season-02-epi-01/"
             servers (Some EmptyString)])
  /\ (let info :=
        fst (scrape_quality (Site.serve Site.ted_files) Lib.urljoin Lib.urlparse
               (QualityOption "Ted (480x320)" "https://isaidub.love/movie/4321/"
                              true None) []) in
      qi_quality info = "Ted (480x320)"
      /\ map download_key (downloads info)
         = [("Ted 720p.mp4", "https://isaidub.love/download/page/9/");
            ("Ted 720p sample.mp4", "https://isaidub.love/download/page/10/")]).
Proof.
  split.
  - exact (@direct_download_entries (Site.serve Site.seven_episodes)
             Lib.urljoin Lib.urlparse
             (QualityOption "Squid Game Epi 1"
                "https://moviesda15.com/download/squid-game-season-02-epi-01/"
                true None) [] _ eq_refl eq_refl).
  - exact (@direct_download_entries (Site.serve Site.ted_files)
             Lib.urljoin Lib.urlparse
             (QualityOption "Ted (480x320)" "https://isaidub.love/movie/4321/"
                            true None) [] _ eq_refl eq_refl).
Defined.

(* ================================================================== *)
(** ** The aggregator: nothing aborts a movie *)
(* ================================================================== *)

Section ToleranceFacts.

Variable web : nat -> string -> option Dom.node.
Variable urljoin : string -> string -> string.
Variable urlparse : string -> string * string.
Variable self_base_url : string.







End ToleranceFacts.




(* ================================================================== *)
(** ** Posters *)
(* ================================================================== *)

Section PosterFacts.

Variable urljoin : string -> string -> string.
Variable base_url : string.

Lemma picture_step_screenshots acc picture :
  img_screenshots (picture_step urljoin base_url acc picture)
  = img_screenshots acc.
Proof.
  unfold picture_step, picture_img, picture_source.
  destruct (Dom.find "source" picture) as [source|];
    destruct (Dom.find "img" picture) as [img|];
    repeat match goal with
           | |- context [if ?b then _ else _] => destruct b; simpl
           end; reflexivity.
Qed.

Lemma picture_step_keeps acc picture :
  source_candidate picture = None ->
  truthy (img_poster_url acc) = true ->
  picture_step urljoin base_url acc picture = acc.
Proof.
  unfold source_candidate, picture_step, picture_source, picture_img.
  intros S T.
  destruct (Dom.find "source" picture) as [source|].
  - destruct (_ && _); [discriminate|].
    destruct (Dom.find "img" picture); [rewrite T|]; reflexivity.
  - destruct (Dom.find "img" picture); [rewrite T|]; reflexivity.
Qed.

Lemma picture_fold_keeps pictures : forall acc,
  Forall (fun p => source_candidate p = None) pictures ->
  truthy (img_poster_url acc) = true ->
  fold_left (picture_step urljoin base_url) pictures acc = acc.
Proof.
  induction pictures as [|p pictures IH]; intros acc F T; simpl; [reflexivity|].
  inversion F as [|? ? Hp F']; subst.
  rewrite (picture_step_keeps _ _ Hp T). apply IH; assumption.
Qed.

Lemma picture_fold_screenshots pictures : forall acc,
  img_screenshots (fold_left (picture_step urljoin base_url) pictures acc)
  = img_screenshots acc.
Proof.
  induction pictures as [|p pictures IH]; intros acc; simpl; [reflexivity|].
  rewrite IH. apply picture_step_screenshots.
Qed.

End PosterFacts.

(** C9, as stated, fails: the poster found among the plain images is
    replaced by the first URL of the [srcset] of a picture's source. *)
Lemma picture_source_overwrites_poster :
  img_poster_url (plain_images Lib.urljoin "https://isaidub.love" Site.poster_page)
  = Some "https://isaidub.love/uploads/posters/ted.jpg"
  /\ img_poster_url
       (get_movie_images Lib.urljoin Lib.urlparse "https://moviesda15.com"
          Site.poster_page "https://isaidub.love/movie/ted-2012-tamil-dubbed-movie/")
     = Some "https://isaidub.love/uploads/posters/ted-large.webp".
Proof. vm_compute. split; reflexivity. Qed.

(** C9, amended: the image nested in a picture is consulted only when no
    poster is set at that point -- by the plain images, by an earlier
    picture or by the source of the same picture -- and it is accepted only
    when its [src] has the poster path segment, so a poster found among the
    plain images survives every picture whose source offers none; the
    source nested in a picture is consulted for every picture, and when
    its [srcset] has the poster path segment the first URL of the [srcset]
    replaces the poster found earlier. Pictures never change the
    screenshots. *)
Theorem picture_poster_rule urljoin urlparse self_base_url soup url :
  let base_url :=
    if Str.nonempty url then origin urlparse url else self_base_url in
  let found := get_movie_images urljoin urlparse self_base_url soup url in
  img_screenshots found = img_screenshots (plain_images urljoin base_url soup)
  /\ (Forall (fun p => source_candidate p = None) (Dom.find_all "picture" soup) ->
      truthy (img_poster_url (plain_images urljoin base_url soup)) = true ->
      img_poster_url found = img_poster_url (plain_images urljoin base_url soup))
  /\ (forall acc picture,
        source_candidate picture = None ->
        img_poster_url (picture_step urljoin base_url acc picture)
        <> img_poster_url acc ->
        truthy (img_poster_url acc) = false
        /\ exists src, img_candidate picture = Some src
                       /\ img_poster_url (picture_step urljoin base_url acc picture)
                          = Some (full_url urljoin base_url src))
  /\ (forall acc picture srcset,
        source_candidate picture = Some srcset ->
        truthy (Some (full_url urljoin base_url (Str.first_word srcset))) = true ->
        img_poster_url (picture_step urljoin base_url acc picture)
        = Some (full_url urljoin base_url (Str.first_word srcset))).
Proof.
  intros base_url found. subst found. unfold get_movie_images.
  fold base_url. fold (plain_images urljoin base_url soup).
  split; [apply picture_fold_screenshots|].
  split; [intros F T; rewrite picture_fold_keeps; auto|].
  split.
  - intros acc picture S.
    unfold source_candidate, img_candidate, picture_step, picture_source,
      picture_img in *.
    destruct (Dom.find "source" picture) as [source|];
      [destruct (_ && _); [discriminate|]|];
      (destruct (Dom.find "img" picture) as [img|]; [|intros N; now elim N]);
      (destruct (truthy (img_poster_url acc)); simpl; [intros N; now elim N|]);
      (destruct (_ && _); simpl; [|intros N; now elim N]);
      intros _; (split; [reflexivity|]); eexists; split; reflexivity.
  - intros acc picture srcset S T.
    unfold source_candidate, picture_step, picture_source, picture_img in *.
    destruct (Dom.find "source" picture) as [source|]; [|discriminate].
    destruct (_ && _); [|discriminate]. injection S as <-.
    destruct (Dom.find "img" picture) as [img|]; [|reflexivity].
    cbn [img_poster_url]. rewrite T. reflexivity.
Qed.

Lemma picture_poster_rule_witness :
  img_poster_url
    (get_movie_images Lib.urljoin Lib.urlparse "https://moviesda15.com"
       Site.poster_page "https://isaidub.love/movie/ted-2012-tamil-dubbed-movie/")
  = Some "https://isaidub.love/uploads/posters/ted-large.webp"
  /\ img_poster_url
       (get_movie_images Lib.urljoin Lib.urlparse "https://moviesda15.com"
          Site.picture_page "https://isaidub.love/movie/ted-2012-tamil-dubbed-movie/")
     = Some "https://isaidub.love/logo.png".
Proof.
  split.
  - destruct (@picture_poster_rule Lib.urljoin Lib.urlparse
                "https://moviesda15.com" Site.poster_page
                "https://isaidub.love/movie/ted-2012-tamil-dubbed-movie/")
      as (_ & _ & _ & Hs).
    apply (Hs (plain_images Lib.urljoin "https://isaidub.love" Site.poster_page)
              (Site.picture [Site.source "/uploads/posters/ted-large.webp 2x"])
              "/uploads/posters/ted-large.webp 2x"); reflexivity.
  - destruct (@picture_poster_rule Lib.urljoin Lib.urlparse
                "https://moviesda15.com" Site.picture_page
                "https://isaidub.love/movie/ted-2012-tamil-dubbed-movie/")
      as (_ & Hk & _).
    rewrite Hk; [reflexivity | repeat constructor | reflexivity].
Defined.

(* ================================================================== *)
(** ** Invariants of loops and of computations *)
(* ================================================================== *)

Lemma post_ret {A} (a : A) (P : A -> Prop) : P a -> post (ret a) P.
Proof. intros H l. exact H. Qed.

Lemma post_bind {A B} (c : M A) (f : A -> M B) (P : A -> Prop) (Q : B -> Prop) :
  post c P -> (forall a, P a -> post (f a) Q) -> post (bind c f) Q.
Proof.
  intros Hc Hf l. unfold bind. specialize (Hc l).
  destruct (c l) as [a l']. apply Hf, Hc.
Qed.

Lemma post_any {A} (c : M A) : post c (fun _ => True).
Proof. intros l. exact I. Qed.

Lemma update_last_Forall {A} (P : A -> Prop) (f : A -> A) l :
  (forall x, P x -> P (f x)) -> Forall P l -> Forall P (update_last f l).
Proof.
  intros Pf. induction l as [|x [|y l] IH]; intros F; simpl.
  - constructor.
  - inversion F; subst. constructor; auto.
  - inversion F; subst. constructor; auto.
Qed.

Lemma Forall_snoc {A} (P : A -> Prop) l x :
  Forall P l -> P x -> Forall P (l ++ [x]).
Proof. intros F H. apply Forall_app. split; [exact F | constructor; auto]. Qed.

Lemma fold_left_inv {A B} (P : A -> Prop) (f : A -> B -> A) l :
  (forall a b, P a -> P (f a b)) -> forall a, P a -> P (fold_left f l a).
Proof.
  intros Pf. induction l as [|b l IH]; intros a Pa; simpl; auto.
Qed.

(* ================================================================== *)
(** ** The URLs of the result *)
(* ================================================================== *)

(** C1: the scraper stores a relative URL on two inputs, against the
    claim and against its own "Make URL absolute" comments. A relative
    href that begins with the letters "http" passes [startswith("http")],
    the test the scraper uses for an absolute URL, and becomes the URL of a
    quality option as it stands. And the walker returns a terminal href as
    found, so the media URL of the only server of the movie [Site.leo] is
    the path its server page links to. Neither has a scheme or a host,
    while the href ["/leo-720p-hd-movie/"] of the same movie page is joined
    to the origin of the page, as on every other path of the scraper. *)
Lemma relative_url_is_stored :
  (map q_url
       (fst (fst (get_quality_options (Site.serve Site.leo_httpdocs)
                    Lib.urljoin Lib.urlparse "https://moviesda15.com"
                    "https://moviesda15.com/leo-2023-tamil-movie/" [])))
   = ["httpdocs/leo-720p-hd-movie/"]
   /\ Lib.is_absolute "httpdocs/leo-720p-hd-movie/" = false)
  /\ (media_urls
        (fst (scrape_movie (Site.serve Site.leo) Lib.urljoin Lib.urlparse
                "https://moviesda15.com"
                "https://moviesda15.com/leo-2023-tamil-movie/" []))
      = [Some "/files/leo_720p.mp4"]
      /\ Lib.is_absolute "/files/leo_720p.mp4" = false)
  /\ (map q_url
         (fst (fst (get_quality_options (Site.serve Site.leo)
                      Lib.urljoin Lib.urlparse "https://moviesda15.com"
                      "https://moviesda15.com/leo-2023-tamil-movie/" [])))
      = ["https://moviesda15.com/leo-720p-hd-movie/"]
      /\ Lib.is_absolute "https://moviesda15.com/leo-720p-hd-movie/" = true).
Proof. vm_compute. repeat split. Qed.

(* ================================================================== *)
(** ** Category listings *)
(* ================================================================== *)

Lemma has_url_false u movies :
  has_url u movies = false <-> ~ In u (map m_url movies).
Proof.
  unfold has_url. induction movies as [|m movies IH]; simpl.
  - split; [intros _ [] | reflexivity].
  - rewrite orb_false_iff, IH. destruct (String.eqb_spec (m_url m) u).
    + split; [intros [H _]; discriminate H | intros H; elim H; auto].
    + split; [intros [_ H] [E|I]; [contradiction | exact (H I)] | auto].
Qed.

Lemma NoDup_snoc {A} (l : list A) x : NoDup l -> ~ In x l -> NoDup (l ++ [x]).
Proof.
  intros N I. apply NoDup_app; [exact N | repeat constructor; intros [] |].
  intros a Ha [<- | []]. exact (I Ha).
Qed.

Lemma scrape_movie_url web urljoin urlparse self_base_url url l :
  movie_url (fst (scrape_movie web urljoin urlparse self_base_url url l)) = url.
Proof.
  unfold scrape_movie, bind.
  destruct (get_quality_options _ _ _ _ _ _) as [[qs imgs] l1].
  destruct (scrape_qualities _ _ _ _ _) as [infos l2]. reflexivity.
Qed.

Section CategoryFacts.

Variable web : nat -> string -> option Dom.node.
Variable urljoin : string -> string -> string.
Variable urlparse : string -> string * string.
Variable self_base_url : string.
Variable category_url : string.

(** A listed movie: its title is not empty and its URL is an href that
    starts with "http" or one joined to the origin of the category. *)
Let listed (m : movie_ref) : Prop :=
  Str.nonempty (m_title m) = true
  /\ (Str.startswith (m_url m) "http" = true
      \/ exists href, m_url m = urljoin (origin urlparse category_url) href).

Let well_listed (movies : list movie_ref) : Prop :=
  NoDup (map m_url movies) /\ Forall listed movies.

Lemma category_step_well_listed movies div :
  well_listed movies ->
  well_listed (category_step urljoin urlparse category_url movies div).
Proof.
  intros [N F]. unfold category_step.
  destruct (Dom.find_a_href div) as [link|]; [|split; assumption].
  destruct (is_category_movie _); simpl; [|split; assumption].
  destruct (Str.nonempty (Dom.get_text link)) eqn:T; [|split; assumption].
  destruct (has_url _ movies) eqn:H; simpl; [split; assumption|].
  apply has_url_false in H. split.
  - rewrite map_app. simpl. apply NoDup_snoc; assumption.
  - apply Forall_snoc; [exact F|]. split; [exact T|]. cbn [m_url].
    unfold full_url.
    destruct (Str.startswith (Dom.get link "href") "http") eqn:Hh.
    + left. exact Hh.
    + right. eexists. reflexivity.
Qed.

Lemma category_pages_well_listed pages : forall movies,
  well_listed movies ->
  post (category_pages web urljoin urlparse category_url pages movies)
       well_listed.
Proof.
  induction pages as [|page pages IH]; intros movies W; simpl.
  - apply post_ret, W.
  - apply post_bind with (P := fun _ => True); [apply post_any|].
    intros [soup|] _; [|apply post_ret, W].
    apply IH. apply fold_left_inv; [|exact W].
    intros ms div. apply category_step_well_listed.
Qed.

Lemma category_pages_log n : forall first movies l,
  exists k,
    k <= n
    /\ snd (category_pages web urljoin urlparse category_url (seq first n) movies l)
       = l ++ map (category_page_url category_url) (seq first k)
    /\ (k < n ->
        0 < k
        /\ web (length l + (k - 1))
               (category_page_url category_url (first + (k - 1))) = None).
Proof.
  induction n as [|n IH]; intros first movies l.
  - exists 0. simpl. rewrite app_nil_r. repeat split; auto. lia.
  - simpl. unfold bind, _get_soup.
    destruct (web (length l) (category_page_url category_url first))
      as [soup|] eqn:W.
    + destruct (IH (S first)
                  (fold_left (category_step urljoin urlparse category_url)
                             (Dom.select "div" "f" soup) movies)
                  (l ++ [category_page_url category_url first]))
        as (k & Hk & E & Stop).
      exists (S k). split; [lia|]. split.
      * rewrite E, <- app_assoc. reflexivity.
      * intros Hlt. split; [lia|].
        destruct Stop as [Pos Wk]; [lia|].
        rewrite length_app in Wk. simpl in Wk.
        replace (length l + (S k - 1)) with (length l + 1 + (k - 1)) by lia.
        replace (first + (S k - 1)) with (S first + (k - 1)) by lia.
        exact Wk.
    + exists 1. split; [lia|]. split; [reflexivity|].
      intros _. split; [lia|]. simpl. rewrite !Nat.add_0_r. exact W.
Qed.

Lemma scrape_listed_follows movies : forall l,
  map movie_url (fst (scrape_listed web urljoin urlparse self_base_url movies l))
  = map m_url movies
  /\ map title (fst (scrape_listed web urljoin urlparse self_base_url movies l))
     = map (fun m => Some (m_title m)) movies.
Proof.
  induction movies as [|m movies IH]; intros l; simpl; [split; reflexivity|].
  unfold bind.
  pose proof (scrape_movie_url web urljoin urlparse self_base_url (m_url m) l) as U.
  destruct (scrape_movie web urljoin urlparse self_base_url (m_url m) l)
    as [movie_data l1].
  destruct (IH l1) as [IH1 IH2].
  destruct (scrape_listed web urljoin urlparse self_base_url movies l1)
    as [rest l2].
  simpl in *. rewrite U, IH1, IH2. split; reflexivity.
Qed.

End CategoryFacts.

Lemma py_prefix_kept {A} (n : Z) (xs : list A) :
  py_prefix n xs
  = firstn (if (0 <=? n)%Z then Nat.min (Z.to_nat n) (length xs)
            else length xs - Z.to_nat (- n)) xs.
Proof.
  unfold py_prefix. destruct (0 <=? n)%Z; [|reflexivity].
  destruct (Nat.le_gt_cases (Z.to_nat n) (length xs)) as [H|H].
  - rewrite Nat.min_l by exact H. reflexivity.
  - rewrite Nat.min_r by lia. rewrite firstn_all, firstn_all2 by lia.
    reflexivity.
Qed.

Lemma category_listing_has_no_duplicate_aux
  web urljoin urlparse category_url max_pages l :
  NoDup (map m_url
           (fst (get_movies_from_category web urljoin urlparse
                   category_url max_pages l))).
Proof.
  apply (category_pages_well_listed web urljoin urlparse category_url
           (seq 1 max_pages) (movies := [])).
  split; constructor.
Qed.

(** X1: a category listing never holds the same URL twice, whatever the
    pages repeat. *)
Theorem category_listing_has_no_duplicate
  web urljoin urlparse category_url max_pages l :
  NoDup (map m_url
           (fst (get_movies_from_category web urljoin urlparse
                   category_url max_pages l))).
Proof.
  apply (category_pages_well_listed web urljoin urlparse category_url
           (seq 1 max_pages) (movies := [])).
  split; constructor.
Qed.

(** X2: every movie of a category listing has a title that is not empty,
    and its URL is an href that starts with "http", kept as found, or an
    href joined to the origin of the category URL. *)
Theorem category_listing_entries
  web urljoin urlparse category_url max_pages l :
  Forall (fun m =>
            Str.nonempty (m_title m) = true
            /\ (Str.startswith (m_url m) "http" = true
                \/ exists href,
                     m_url m = urljoin (origin urlparse category_url) href))
         (fst (get_movies_from_category web urljoin urlparse
                 category_url max_pages l)).
Proof.
  apply (category_pages_well_listed web urljoin urlparse category_url
           (seq 1 max_pages) (movies := [])).
  split; constructor.
Qed.

(** X3: reading a category requests its pages 1, 2, ... in order, page 1
    under the category URL itself, and never more than [max_pages] of
    them; it stops before [max_pages] only after a page that could not be
    fetched. *)
Theorem category_listing_requests
  web urljoin urlparse category_url max_pages l :
  exists k,
    k <= max_pages
    /\ snd (get_movies_from_category web urljoin urlparse
              category_url max_pages l)
       = l ++ map (category_page_url category_url) (seq 1 k)
    /\ category_page_url category_url 1 = category_url
    /\ (k < max_pages ->
        0 < k
        /\ web (length l + (k - 1)) (category_page_url category_url k) = None).
Proof.
  destruct (category_pages_log web urljoin urlparse category_url
              max_pages 1 [] l) as (k & Hk & E & Stop).
  exists k. repeat split; auto; destruct (Stop H) as [Pos W]; auto.
  replace (1 + (k - 1)) with k in W by lia. exact W.
Qed.

(** X4: [scrape_category] scrapes the slice [movies[:max_movies]] of the
    listing, in the order of the listing, each movie once: its first
    [max_movies] movies (all of them when there are fewer) for a
    [max_movies] that is not negative, and all but its last [-max_movies]
    movies for a negative one. Every result carries the URL and the title
    of its listing entry (the title replaces the one [scrape_movie] derives
    from the URL). *)
Theorem scrape_category_follows_listing
  web urljoin urlparse self_base_url category_url max_pages max_movies l :
  let movies := fst (get_movies_from_category web urljoin urlparse
                       category_url (Z.to_nat max_pages) l) in
  let results := fst (scrape_category web urljoin urlparse self_base_url
                        category_url max_pages max_movies l) in
  let kept := if (0 <=? max_movies)%Z
              then Nat.min (Z.to_nat max_movies) (length movies)
              else length movies - Z.to_nat (- max_movies) in
  map movie_url results = map m_url (firstn kept movies)
  /\ map title results
     = map (fun m => Some (m_title m)) (firstn kept movies)
  /\ length results = kept
  /\ NoDup (map movie_url results).
Proof.
  pose proof (category_listing_has_no_duplicate_aux web urljoin urlparse
                category_url (Z.to_nat max_pages) l) as N.
  unfold scrape_category, bind.
  destruct (get_movies_from_category web urljoin urlparse category_url
              (Z.to_nat max_pages) l) as [movies l1].
  simpl fst in *.
  rewrite py_prefix_kept.
  set (kept := if (0 <=? max_movies)%Z
               then Nat.min (Z.to_nat max_movies) (length movies)
               else length movies - Z.to_nat (- max_movies)).
  assert (Hk : kept <= length movies)
    by (unfold kept; destruct (0 <=? max_movies)%Z; lia).
  destruct (scrape_listed_follows web urljoin urlparse self_base_url
              (firstn kept movies) l1) as [U T].
  split; [exact U|]. split; [exact T|]. split.
  - rewrite <- (length_map movie_url), U, length_map, length_firstn. lia.
  - rewrite U, <- firstn_map.
    rewrite <- (firstn_skipn kept (map m_url movies)) in N.
    apply NoDup_app_remove_r in N. exact N.
Qed.

(* ================================================================== *)
(** ** Searching *)
(* ================================================================== *)

Lemma prefix_append b x : String.prefix b (b ++ x) = true.
Proof.
  induction b as [|c b IH]; simpl; [destruct x; reflexivity|].
  destruct (ascii_dec c c) as [_|N]; [exact IH | now elim N].
Qed.

Section SearchFacts.

Variable web : nat -> string -> option Dom.node.
Variable urljoin : string -> string -> string.
Variables base_url search_url query_lower : string.
Variable max_results : nat.

(** A hit of the index search: the title is not empty and has the query in
    it, case apart. *)
Let hit (m : movie_ref) : Prop :=
  Str.nonempty (m_title m) = true
  /\ Str.contains query_lower (Str.lower (m_title m)) = true.

Let hits (matches : list movie_ref) : Prop :=
  length matches <= max_results
  /\ NoDup (map m_url matches)
  /\ Forall hit matches.

Lemma search_divs_hits divs : forall matches found_any,
  length matches < max_results -> hits matches ->
  hits (fst (search_divs urljoin base_url query_lower max_results
               divs matches found_any)).
Proof.
  induction divs as [|d divs IH]; intros matches found_any L H; simpl;
    [exact H|].
  destruct (Dom.find_a_href d) as [link|]; [|apply IH; assumption].
  destruct (is_index_movie _); simpl; [|apply IH; assumption].
  destruct (Str.nonempty (Dom.get_text link)) eqn:T; [|apply IH; assumption].
  destruct (Str.contains query_lower _) eqn:Q; [|apply IH; assumption].
  destruct (has_url _ matches) eqn:U; simpl; [apply IH; assumption|].
  apply has_url_false in U. destruct H as (_ & N & F).
  assert (H' : hits (matches ++
                       [MovieRef (Dom.get_text link)
                          (full_url urljoin base_url (Dom.get link "href"))])).
  { split; [rewrite length_app; simpl; lia|]. split.
    - rewrite map_app. apply NoDup_snoc; assumption.
    - apply Forall_snoc; [exact F | split; assumption]. }
  destruct (Nat.leb_spec max_results
              (length (matches ++
                         [MovieRef (Dom.get_text link)
                            (full_url urljoin base_url (Dom.get link "href"))])));
    [exact H' | apply IH; assumption].
Qed.

Lemma search_pages_hits pages : forall matches,
  hits matches ->
  post (search_pages web urljoin base_url search_url query_lower max_results
          pages matches) hits.
Proof.
  induction pages as [|page pages IH]; intros matches H; simpl.
  - apply post_ret, H.
  - destruct (Nat.ltb_spec (length matches) max_results) as [L|_];
      [|apply post_ret, H].
    apply post_bind with (P := fun _ => True); [apply post_any|].
    intros [soup|] _; [|apply post_ret, H].
    pose proof (search_divs_hits (Dom.select "div" "f" soup) false L H) as H'.
    destruct (search_divs urljoin base_url query_lower max_results _ matches false)
      as [matches' found_any].
    destruct (_ || _); [apply post_ret, H' | apply IH, H'].
Qed.

Lemma search_pages_log n : forall first matches l,
  exists k,
    k <= n
    /\ snd (search_pages web urljoin base_url search_url query_lower
              max_results (seq first n) matches l)
       = l ++ map (index_page_url base_url search_url) (seq first k).
Proof.
  induction n as [|n IH]; intros first matches l; simpl.
  - exists 0. rewrite app_nil_r. auto.
  - destruct (Nat.ltb (length matches) max_results).
    2:{ exists 0. simpl. rewrite app_nil_r. split; [lia | reflexivity]. }
    unfold bind, _get_soup.
    destruct (web (length l) _) as [soup|].
    2:{ exists 1. split; [lia | reflexivity]. }
    destruct (search_divs urljoin base_url query_lower max_results _ matches false)
      as [matches' found_any].
    destruct (_ || _).
    + exists 1. split; [lia | reflexivity].
    + destruct (IH (S first) matches'
                  (l ++ [index_page_url base_url search_url first]))
        as (k & Hk & E).
      exists (S k). split; [lia|]. rewrite E, <- app_assoc. reflexivity.
Qed.

End SearchFacts.

(** X5: an index search returns at most [max_results] movies, never the
    same URL twice, after at most five requests: the pages 1, 2, ... of
    the index of the first letter of the query; with [max_results = 0] it
    returns nothing and requests nothing. *)
Theorem search_movie_is_bounded
  web urljoin self_base_url query base_url max_results l :
  let b := match base_url with Some b => b | None => self_base_url end in
  let q := Str.strip (Str.lower (clean_query query)) in
  let r := search_movie web urljoin self_base_url query base_url max_results l in
  length (fst r) <= max_results
  /\ NoDup (map m_url (fst r))
  /\ (exists k, k <= 5
                /\ snd r = l ++ map (index_page_url b (index_url b q)) (seq 1 k))
  /\ (max_results = 0 -> r = ([], l)).
Proof.
  intros b q r. subst r. unfold search_movie. fold b. fold q.
  pose proof (@search_pages_hits web urljoin b (index_url b q) q max_results
                (seq 1 5) []) as H.
  destruct (H (conj (Nat.le_0_l _) (conj (NoDup_nil _) (Forall_nil _))) l)
    as (L & N & _).
  split; [exact L|]. split; [exact N|]. split.
  - apply search_pages_log.
  - intros ->. reflexivity.
Qed.

(** X6: every movie an index search returns has a title that is not empty
    and contains the cleaned, lower-cased query, case apart. *)
Theorem search_movie_hits_contain_query
  web urljoin self_base_url query base_url max_results l :
  let q := Str.strip (Str.lower (clean_query query)) in
  Forall (fun m => Str.nonempty (m_title m) = true
                   /\ Str.contains q (Str.lower (m_title m)) = true)
         (fst (search_movie web urljoin self_base_url query base_url
                 max_results l)).
Proof.
  intros q. unfold search_movie. fold q.
  set (b := match base_url with Some b => b | None => self_base_url end).
  pose proof (@search_pages_hits web urljoin b (index_url b q) q max_results
                (seq 1 5) []) as H.
  destruct (H (conj (Nat.le_0_l _) (conj (NoDup_nil _) (Forall_nil _))) l)
    as (_ & _ & F).
  exact F.
Qed.

Section GuessFacts.

Variable web : nat -> string -> option Dom.node.
Variable query_clean : string.
Variable year : option string.
Variable max_results : nat.

Lemma try_urls_run urls : forall matches l,
  let r := try_urls web query_clean year max_results urls matches l in
  (exists k, k <= length urls /\ snd r = l ++ firstn k urls)
  /\ (exists found, fst r = matches ++ found
                    /\ Forall (fun m => In (m_url m) urls) found
                    /\ (matches = [] ->
                        length found <= Nat.max 1 max_results)
                    /\ (length matches < max_results ->
                        length (matches ++ found) <= max_results)).
Proof.
  induction urls as [|u urls IH]; intros matches l; simpl.
  - split; [exists 0; rewrite app_nil_r; auto|].
    exists []. rewrite app_nil_r. repeat split; auto; simpl; lia.
  - unfold bind, _get_soup.
    assert (skip :
      let r := try_urls web query_clean year max_results urls matches (l ++ [u]) in
      (exists k, k <= S (length urls) /\ snd r = l ++ firstn k (u :: urls))
      /\ (exists found, fst r = matches ++ found
                        /\ Forall (fun m => u = m_url m \/ In (m_url m) urls) found
                        /\ (matches = [] ->
                            length found <= Nat.max 1 max_results)
                        /\ (length matches < max_results ->
                            length (matches ++ found) <= max_results))).
    { destruct (IH matches (l ++ [u])) as [(k & Hk & E) (found & F & I & B)].
      split.
      - exists (S k). split; [lia|]. rewrite E, <- app_assoc. reflexivity.
      - exists found. split; [exact F|]. split; [|exact B].
        eapply Forall_impl; [|exact I]. intros m Hm. right. exact Hm. }
    destruct (web (length l) u) as [soup|]; [|exact skip].
    destruct (Dom.find "title" soup) as [title_tag|]; [|exact skip].
    clear skip.
    set (m := MovieRef (guessed_title query_clean year title_tag) u).
    destruct (Nat.leb_spec max_results (length (matches ++ [m]))) as [Full|More].
    + split; [exists 1; split; [lia | reflexivity]|].
      exists [m]. split; [reflexivity|].
      split; [repeat constructor|]. split.
      * intros _. destruct max_results; simpl; lia.
      * intros Lt. rewrite length_app in *. cbn [length] in *. lia.
    + destruct (IH (matches ++ [m]) (l ++ [u]))
        as [(k & Hk & E) (found & F & I & B1 & B2)].
      split.
      * exists (S k). split; [lia|]. rewrite E, <- app_assoc. reflexivity.
      * exists (m :: found). split; [rewrite F, <- app_assoc; reflexivity|].
        split.
        -- constructor; [left; reflexivity|].
           eapply Forall_impl; [|exact I]. intros m' Hm. right. exact Hm.
        -- specialize (B2 More). rewrite <- app_assoc in B2. simpl in B2.
           split; [|intros _; exact B2].
           intros ->. destruct max_results; simpl in *; lia.
Qed.

End GuessFacts.

(** X7: a smart search guesses at most four URLs, all under the base URL,
    and requests them in order, each at most once; every movie it returns
    has one of the guessed URLs; it returns at most [max_results] movies,
    or one when [max_results] is 0. *)
Theorem smart_search_movie_guesses
  web self_base_url query base_url max_results l :
  let b := match base_url with Some b => b | None => self_base_url end in
  let urls := possible_urls b (movie_slug (clean_query query)) (query_year query) in
  let r := smart_search_movie web self_base_url query base_url max_results l in
  length urls <= 4
  /\ Forall (fun u => Str.startswith u b = true) urls
  /\ (exists k, k <= length urls /\ snd r = l ++ firstn k urls)
  /\ Forall (fun m => In (m_url m) urls) (fst r)
  /\ length (fst r) <= Nat.max 1 max_results.
Proof.
  intros b urls r. subst r. unfold smart_search_movie. fold b. fold urls.
  destruct (@try_urls_run web (clean_query query) (query_year query)
              max_results urls [] l) as [Log (found & F & I & B & _)].
  rewrite F. simpl. repeat split; auto.
  - subst urls. unfold possible_urls.
    destruct (Str.contains "isaidub" b), (query_year query); simpl; lia.
  - subst urls. unfold possible_urls, Str.startswith.
    destruct (Str.contains "isaidub" b), (query_year query); simpl;
      repeat constructor; apply prefix_append.
Qed.

(* ================================================================== *)
(** ** Playlists *)
(* ================================================================== *)

Lemma string_app_assoc (a b c : string) : ((a ++ b) ++ c = a ++ (b ++ c))%string.
Proof. induction a as [|x a IH]; simpl; [reflexivity | rewrite IH; reflexivity]. Qed.

Lemma string_app_empty (a : string) : (a ++ "" = a)%string.
Proof. induction a as [|x a IH]; simpl; [reflexivity | rewrite IH; reflexivity]. Qed.

Lemma join_all_app l1 l2 :
  join_all (l1 ++ l2) = (join_all l1 ++ join_all l2)%string.
Proof.
  induction l1 as [|x l1 IH]; simpl; [reflexivity|].
  rewrite IH, string_app_assoc. reflexivity.
Qed.

Lemma fold_left_writes {A} (f : string -> A -> string) (g : A -> list string) l :
  (forall w x, f w x = (w ++ join_all (g x))%string) ->
  forall w, fold_left f l w = (w ++ join_all (flat_map g l))%string.
Proof.
  intros H. induction l as [|x l IH]; intros w; simpl.
  - rewrite string_app_empty. reflexivity.
  - rewrite IH, H, join_all_app, string_app_assoc. reflexivity.
Qed.

Lemma flat_map_flat_map {A B C} (f : B -> list C) (g : A -> list B) l :
  flat_map f (flat_map g l) = flat_map (fun x => flat_map f (g x)) l.
Proof.
  induction l as [|x l IH]; simpl; [reflexivity|].
  rewrite flat_map_app, IH. reflexivity.
Qed.

Lemma flat_map_map {A B C} (f : B -> list C) (g : A -> B) l :
  flat_map f (map g l) = flat_map (fun x => f (g x)) l.
Proof.
  induction l as [|x l IH]; simpl; [reflexivity | rewrite IH; reflexivity].
Qed.

Lemma map_flat_map {A B C} (f : B -> C) (g : A -> list B) l :
  map f (flat_map g l) = flat_map (fun x => map f (g x)) l.
Proof.
  induction l as [|x l IH]; simpl; [reflexivity|].
  rewrite map_app, IH. reflexivity.
Qed.

Lemma all_chars_excludes p s c :
  Str.all_chars p s = true -> p c = false ->
  Str.contains (String c EmptyString) s = false.
Proof.
  intros A P. induction s as [|x s IH]; simpl; [reflexivity|].
  simpl in A. apply andb_true_iff in A. destruct A as [Px A].
  rewrite (IH A). destruct (ascii_dec c x) as [->|_].
  - rewrite Px in P. discriminate P.
  - reflexivity.
Qed.

(** The label the playlist writer reads off a file name is one of the four
    resolutions, in any letter case. *)
Lemma run_liti w : forall s g0 k g,
  Re.run (Re.liti w) (s, g0) k = Some g ->
  exists x rest,
    s = (x ++ rest)%string /\ Str.lower x = Str.lower w
    /\ k (rest, g0) = Some g.
Proof.
  induction w as [|c w IH]; intros s g0 k g; simpl.
  - intros H. exists EmptyString, s. repeat split. exact H.
  - destruct s as [|a s]; [discriminate|].
    destruct (Ascii.eqb (Str.lower_char a) (Str.lower_char c)) eqn:E;
      [|discriminate].
    intros H. apply IH in H. destruct H as (x & rest & -> & L & K).
    exists (String a x), rest. simpl. apply Ascii.eqb_eq in E.
    rewrite E, L. repeat split. exact K.
Qed.

Lemma take_prefix x rest :
  Str.take (String.length (x ++ rest) - String.length rest) (x ++ rest) = x.
Proof.
  assert (L : String.length (x ++ rest) = String.length x + String.length rest)
    by (induction x as [|c x IH]; simpl; [reflexivity | rewrite IH; reflexivity]).
  rewrite L. replace (String.length x + String.length rest - String.length rest)
    with (String.length x) by lia.
  clear L. induction x as [|c x IH]; simpl.
  - destruct rest; reflexivity.
  - rewrite IH. reflexivity.
Qed.

Lemma run_alt r1 r2 s k g :
  Re.run (Re.Alt r1 r2) s k = Some g ->
  Re.run r1 s k = Some g \/ Re.run r2 s k = Some g.
Proof.
  simpl. destruct (Re.run r1 s k); [intros [= <-]; left; reflexivity|].
  intros H. right. exact H.
Qed.

Lemma run_group_of_literal w s g :
  Re.run (Re.liti w) (s, [])
    (fun s1 => Some ((1, Str.take (String.length s - String.length (fst s1)) s)
                       :: snd s1)) = Some g ->
  Str.lower (Re.group 1 g) = Str.lower w.
Proof.
  intros H. apply run_liti in H. destruct H as (x & rest & -> & L & K).
  simpl in K. rewrite take_prefix in K. injection K as <-. exact L.
Qed.

Lemma rmatch_resolution s g :
  Re.rmatch Pat.resolution s = Some g ->
  In (Str.lower (Re.group 1 g)) ["1080p"; "720p"; "480p"; "360p"]%string.
Proof.
  unfold Re.rmatch, Pat.resolution.
  change (Re.run (Re.Grp 1 ?r) (s, []) ?k)
    with (Re.run r (s, [])
            (fun s1 => Some ((1, Str.take (String.length s
                                           - String.length (fst s1)) s)
                               :: snd s1))).
  intros H.
  apply run_alt in H. destruct H as [H|H];
    [apply run_group_of_literal in H; rewrite H; simpl; auto|].
  apply run_alt in H. destruct H as [H|H];
    [apply run_group_of_literal in H; rewrite H; simpl; auto|].
  apply run_alt in H. destruct H as [H|H];
    apply run_group_of_literal in H; rewrite H; simpl; auto.
Qed.

Lemma search_resolution s : forall g,
  Re.search Pat.resolution s = Some g ->
  In (Str.lower (Re.group 1 g)) ["1080p"; "720p"; "480p"; "360p"]%string.
Proof.
  induction s as [|c s IH]; intros g; cbn [Re.search].
  - destruct (Re.rmatch Pat.resolution "") eqn:E; [|discriminate].
    intros [= <-]. eapply rmatch_resolution; exact E.
  - destruct (Re.rmatch Pat.resolution (String c s)) eqn:E.
    + intros [= <-]. eapply rmatch_resolution; exact E.
    + apply IH.
Qed.

Section PlaylistFacts.

Variable url_path : string -> string.
Variable unquote : string -> string.
Variable path_join : string -> string -> string.

Lemma all_chars_keep p s : Str.all_chars p (Str.keep p s) = true.
Proof.
  induction s as [|c s IH]; simpl; [reflexivity|].
  destruct (p c) eqn:P; simpl; [rewrite P|]; exact IH.
Qed.

Lemma all_chars_lstrip p s :
  Str.all_chars p s = true -> Str.all_chars p (Str.lstrip s) = true.
Proof.
  induction s as [|c s IH]; simpl; [reflexivity|].
  intros A. destruct (Str.is_space c); [|exact A].
  apply andb_true_iff in A. apply IH, A.
Qed.

Lemma all_chars_rstrip p s :
  Str.all_chars p s = true -> Str.all_chars p (Str.rstrip s) = true.
Proof.
  induction s as [|c s IH]; simpl; [reflexivity|].
  intros A. apply andb_true_iff in A. destruct A as [Pc A].
  specialize (IH A). destruct (Str.rstrip s) as [|c' s'].
  - destruct (Str.is_space c); simpl; [reflexivity | rewrite Pc; reflexivity].
  - change (Str.all_chars p (String c (String c' s')))
      with (p c && Str.all_chars p (String c' s')).
    rewrite Pc, IH. reflexivity.
Qed.

Lemma all_chars_underscores s :
  Str.all_chars (fun c => Str.is_alnum c
                          || Str.contains (String c EmptyString) " -_()") s
  = true ->
  Str.all_chars file_name_char (Str.replace_char " " "_" s) = true.
Proof.
  induction s as [|c s IH]; simpl; [reflexivity|].
  intros A. apply andb_true_iff in A. destruct A as [Pc A].
  rewrite (IH A), andb_true_r.
  destruct (Ascii.eqb_spec c " ") as [->|N]; [reflexivity|].
  unfold file_name_char. simpl in Pc |- *.
  destruct (ascii_dec c " ") as [E|_]; [contradiction|].
  exact Pc.
Qed.

Lemma write_server_appends title group poster w server :
  write_server url_path unquote title group poster w server
  = (w ++ join_all
            (map (m3u_entry url_path unquote title group poster)
                 match mp4_url server with
                 | Some u => if Str.nonempty u then [u] else []
                 | None => []
                 end))%string.
Proof.
  unfold write_server, truthy. destruct (mp4_url server) as [u|]; simpl.
  - destruct (Str.nonempty u); simpl; rewrite ?string_app_empty; reflexivity.
  - rewrite string_app_empty. reflexivity.
Qed.

Lemma total_videos_counts movie :
  total_videos movie = length (media_urls movie).
Proof.
  unfold total_videos, media_urls.
  assert (inner : forall ds n,
             fold_left (fun n dl => n + length (direct_links dl)) ds n
             = n + length (flat_map (fun d => map mp4_url (direct_links d)) ds)).
  { induction ds as [|d ds IH]; intros n; simpl; [lia|].
    rewrite IH, length_app, length_map. lia. }
  assert (outer : forall qs n,
             fold_left
               (fun n quality =>
                  fold_left (fun n dl => n + length (direct_links dl))
                            (downloads quality) n) qs n
             = n + length
                     (flat_map
                        (fun info =>
                           flat_map (fun d => map mp4_url (direct_links d))
                                    (downloads info)) qs)).
  { induction qs as [|q qs IH]; intros n; simpl; [lia|].
    rewrite IH, inner, length_app. lia. }
  apply (outer (qualities movie) 0).
Qed.

End PlaylistFacts.

Lemma save_to_m3u_closed url_path unquote path_join results output_dir :
  save_to_m3u url_path unquote path_join results output_dir
  = map (fun movie => (m3u_path path_join output_dir movie,
                       playlist url_path unquote movie))
        (filter (fun movie => some_item (qualities movie)) results).
Proof.
  unfold save_to_m3u.
  assert (G : forall files,
             fold_left
               (fun files movie =>
                  if negb (some_item (qualities movie)) then files
                  else files ++ [(m3u_path path_join output_dir movie,
                                  playlist url_path unquote movie)])
               results files
             = files ++ map (fun movie => (m3u_path path_join output_dir movie,
                                           playlist url_path unquote movie))
                            (filter (fun movie => some_item (qualities movie))
                                    results)).
  { induction results as [|m results IH]; intros files; simpl.
    - rewrite app_nil_r. reflexivity.
    - rewrite IH. destruct (some_item (qualities m)); simpl;
        [rewrite <- app_assoc|]; reflexivity. }
  apply (G []).
Qed.

(** X8: the playlist writer opens one file per movie that has at least one
    quality, in the order of the results, and none for a movie without
    qualities. *)
Theorem save_to_m3u_files url_path unquote path_join results output_dir :
  save_to_m3u url_path unquote path_join results output_dir
  = map (fun movie => (m3u_path path_join output_dir movie,
                       playlist url_path unquote movie))
        (filter (fun movie => some_item (qualities movie)) results)
  /\ length (save_to_m3u url_path unquote path_join results output_dir)
     <= length results.
Proof.
  split; [apply save_to_m3u_closed|].
  rewrite save_to_m3u_closed, length_map. apply filter_length_le.
Qed.

(** X9: the playlist of a movie is the header line followed by one entry
    for every server whose media URL is neither [None] nor empty, in the
    order of the qualities, downloads and servers. An entry is the text
    [#EXTINF:-1 group-title="G"], where G is the group of the movie; then
    [ tvg-logo="P"] when the movie has a poster P that is not empty; then
    a comma, the display title and a newline; then the media URL and a
    newline. The display title is the title of the movie, a space, a
    quality label -- nothing, or one of 1080p, 720p, 480p and 360p in any
    letter case -- and nothing or " HD", stripped of surrounding white
    space. A movie none of whose servers resolved still gets a playlist,
    with the header alone. *)
Theorem playlist_has_one_entry_per_resolved_server url_path unquote movie :
  let t := match title movie with Some t => t | None => "Unknown Movie" end in
  let logo :=
    match poster_url movie with
    | Some p => if Str.nonempty p
                then (" tvg-logo=" ++ dquote ++ p ++ dquote)%string
                else EmptyString
    | None => EmptyString
    end in
  playlist url_path unquote movie
  = ("#EXTM3U" ++ newline
     ++ join_all (map (m3u_entry url_path unquote t (content_type movie)
                                 (poster_url movie))
                      (resolved_urls movie)))%string
  /\ (forall u,
        exists quality_str hd_suffix,
          (quality_str = EmptyString
           \/ In (Str.lower quality_str)
                 ["1080p"; "720p"; "480p"; "360p"]%string)
          /\ (hd_suffix = EmptyString \/ hd_suffix = " HD"%string)
          /\ m3u_entry url_path unquote t (content_type movie)
                       (poster_url movie) u
             = ("#EXTINF:-1 group-title=" ++ dquote ++ content_type movie
                ++ dquote ++ logo ++ ","
                ++ Str.strip (t ++ " " ++ quality_str ++ hd_suffix)
                ++ newline ++ u ++ newline)%string)
  /\ (resolved_urls movie = [] ->
      playlist url_path unquote movie = ("#EXTM3U" ++ newline)%string).
Proof.
  intros t logo.
  assert (E : playlist url_path unquote movie
              = ("#EXTM3U" ++ newline
                 ++ join_all (map (m3u_entry url_path unquote t
                                     (content_type movie) (poster_url movie))
                                  (resolved_urls movie)))%string).
  { unfold playlist. fold t.
    rewrite (fold_left_writes _
               (fun quality =>
                  flat_map (fun dl =>
                    flat_map (fun server =>
                      map (m3u_entry url_path unquote t (content_type movie)
                                     (poster_url movie))
                          match mp4_url server with
                          | Some u => if Str.nonempty u then [u] else []
                          | None => []
                          end) (direct_links dl)) (downloads quality))).
    - rewrite string_app_assoc.
      replace (map (m3u_entry url_path unquote t (content_type movie)
                              (poster_url movie)) (resolved_urls movie))
        with (flat_map
                (fun quality =>
                   flat_map (fun dl =>
                     flat_map (fun server =>
                       map (m3u_entry url_path unquote t (content_type movie)
                                      (poster_url movie))
                           match mp4_url server with
                           | Some u => if Str.nonempty u then [u] else []
                           | None => []
                           end) (direct_links dl)) (downloads quality))
                (qualities movie)); [reflexivity|].
      unfold resolved_urls, media_urls.
      rewrite flat_map_flat_map, map_flat_map. apply flat_map_ext. intros q.
      rewrite flat_map_flat_map, map_flat_map. apply flat_map_ext. intros d.
      rewrite flat_map_map, map_flat_map. reflexivity.
    - intros w quality. apply fold_left_writes. intros w' dl.
      apply fold_left_writes. intros w'' server.
      apply write_server_appends. }
  split; [exact E|]. split.
  - intros u. unfold m3u_entry.
    exists (match Re.search Pat.resolution
                    (unquote (Str.after_last "/" (url_path u))) with
            | Some g => Re.group 1 g
            | None => EmptyString
            end),
           (if Str.contains "HD" (unquote (Str.after_last "/" (url_path u)))
            then " HD"%string else EmptyString).
    split; [|split].
    + destruct (Re.search Pat.resolution
                  (unquote (Str.after_last "/" (url_path u)))) as [g|] eqn:S;
        [right | left; reflexivity].
      eapply search_resolution. exact S.
    + destruct (Str.contains "HD" (unquote (Str.after_last "/" (url_path u))));
        [right | left]; reflexivity.
    + unfold logo, truthy. destruct (poster_url movie) as [p|]; [|reflexivity].
      destruct (Str.nonempty p); reflexivity.
  - intros R. rewrite E, R. simpl. reflexivity.
Qed.

(** X10: the file name of a playlist has only letters, digits and the
    characters [- _ ( )], whatever the title of the movie: no space, no
    dot and no path separator. *)
Theorem safe_title_is_a_file_name title :
  Str.all_chars file_name_char (safe_title title) = true
  /\ Str.contains "/" (safe_title title) = false
  /\ Str.contains " " (safe_title title) = false
  /\ Str.contains "." (safe_title title) = false.
Proof.
  assert (A : Str.all_chars file_name_char (safe_title title) = true).
  { unfold safe_title. apply all_chars_underscores.
    unfold Str.strip. apply all_chars_rstrip, all_chars_lstrip, all_chars_keep. }
  repeat split; [exact A | | |];
    (eapply all_chars_excludes; [exact A | reflexivity]).
Qed.

(** X11: the group of a playlist is "Series" exactly when the movie has
    more than four server links over all its qualities and downloads,
    resolved or not, and "Movies" otherwise. *)
Theorem content_type_counts_all_servers movie :
  total_videos movie = length (media_urls movie)
  /\ content_type movie
     = if Nat.ltb 4 (length (media_urls movie)) then "Series" else "Movies".
Proof.
  split; [apply total_videos_counts|].
  unfold content_type. rewrite total_videos_counts. reflexivity.
Qed.

(* ================================================================== *)
(** ** Download links of a quality page *)
(* ================================================================== *)

Lemma fold_left_appends {A B} (f : list B -> A -> list B) (g : A -> list B) l :
  (forall acc x, f acc x = acc ++ g x) ->
  forall acc, fold_left f l acc = acc ++ flat_map g l.
Proof.
  intros H. induction l as [|x l IH]; intros acc; simpl.
  - rewrite app_nil_r. reflexivity.
  - rewrite IH, H, app_assoc. reflexivity.
Qed.

Lemma removelast_update_last {A} (f : A -> A) l :
  removelast (update_last f l) = removelast l.
Proof.
  induction l as [|x l IH]; [reflexivity|].
  destruct l as [|y l]; [reflexivity|].
  assert (N : exists z zs, update_last f (y :: l) = z :: zs)
    by (destruct l; simpl; eauto).
  destruct N as (z & zs & E).
  change (update_last f (x :: y :: l)) with (x :: update_last f (y :: l)).
  rewrite E.
  change (removelast (x :: z :: zs)) with (x :: removelast (z :: zs)).
  rewrite <- E, IH. reflexivity.
Qed.

Lemma removelast_map {A B} (f : A -> B) l :
  removelast (map f l) = map f (removelast l).
Proof.
  induction l as [|x l IH]; [reflexivity|].
  destruct l as [|y l]; [reflexivity|].
  simpl in *. f_equal. exact IH.
Qed.

Section DownloadFacts.

Variable web : nat -> string -> option Dom.node.
Variable urljoin : string -> string -> string.
Variable base_url : string.

Lemma resolve_downloads_facts ds : forall l,
  map download_facts (fst (resolve_downloads web ds l)) = map download_facts ds.
Proof.
  induction ds as [|d ds IH]; intros l; simpl; [reflexivity|].
  unfold bind. destruct (_get_server_links web (intermediate_url d) l)
    as [servers l1].
  specialize (IH l1). destruct (resolve_downloads web ds l1) as [rest l2].
  simpl in *. rewrite IH. reflexivity.
Qed.

Lemma coral_fold soup :
  fold_left (coral_step urljoin base_url) (Dom.select_li_a_coral soup) []
  = flat_map (fun link =>
                if Str.contains "/download/" (Dom.get link "href")
                then [Download (Dom.get_text link)
                               (full_url urljoin base_url (Dom.get link "href"))
                               [] None]
                else [])
             (Dom.select_li_a_coral soup).
Proof.
  rewrite (fold_left_appends (coral_step urljoin base_url)
             (fun link =>
                if Str.contains "/download/" (Dom.get link "href")
                then [Download (Dom.get_text link)
                               (full_url urljoin base_url (Dom.get link "href"))
                               [] None]
                else [])); [reflexivity|].
  intros acc link. unfold coral_step.
  destruct (Str.contains _ _); [reflexivity | rewrite app_nil_r; reflexivity].
Qed.

Lemma any_link_fold soup :
  fold_left (any_link_step urljoin base_url) (Dom.find_all_a_href soup) []
  = flat_map (fun link =>
                if Str.contains "/download/" (Dom.get link "href")
                   && (Str.contains ".mp4" (Str.lower (Dom.get_text link))
                       || Str.contains "hd" (Str.lower (Dom.get_text link)))
                then [Download (Dom.get_text link)
                               (full_url urljoin base_url (Dom.get link "href"))
                               [] None]
                else [])
             (Dom.find_all_a_href soup).
Proof.
  rewrite (fold_left_appends (any_link_step urljoin base_url)
             (fun link =>
                if Str.contains "/download/" (Dom.get link "href")
                   && (Str.contains ".mp4" (Str.lower (Dom.get_text link))
                       || Str.contains "hd" (Str.lower (Dom.get_text link)))
                then [Download (Dom.get_text link)
                               (full_url urljoin base_url (Dom.get link "href"))
                               [] None]
                else [])); [reflexivity|].
  intros acc link. unfold any_link_step.
  destruct (_ && _); [reflexivity | rewrite app_nil_r; reflexivity].
Qed.

Lemma size_fold_facts lis : forall ds,
  map download_key (fold_left size_step lis ds) = map download_key ds
  /\ removelast (fold_left size_step lis ds) = removelast ds.
Proof.
  induction lis as [|li lis IH]; intros ds; simpl; [split; reflexivity|].
  destruct (IH (size_step ds li)) as [K R]. rewrite K, R, size_step_keys.
  split; [reflexivity|]. unfold size_step.
  destruct (size_match _); [apply removelast_update_last | reflexivity].
Qed.

End DownloadFacts.

(** X12: for a quality page that is fetched, [get_download_links] returns
    one entry per [li a.coral] link with "/download/" in its href, in
    document order; only when there is none, one entry per link of the
    page with "/download/" in its href and ".mp4" or "hd" in its text.
    Whatever sizes the page shows, only the last entry can have a file
    size. *)
Theorem download_links_entries web urljoin urlparse quality_url l soup :
  web (length l) quality_url = Some soup ->
  let base_url := origin urlparse quality_url in
  let ds := fst (get_download_links web urljoin urlparse quality_url l) in
  map download_key ds
  = (if some_item (coral_entries urljoin base_url soup)
     then coral_entries urljoin base_url soup
     else any_link_entries urljoin base_url soup)
  /\ Forall (fun d => file_size d = None) (removelast ds).
Proof.
  intros W base_url ds. subst ds. unfold get_download_links. run_m. rewrite W.
  fold base_url.
  set (extracted :=
         if negb (some_item (fold_left (coral_step urljoin base_url)
                               (Dom.select_li_a_coral soup) []))
         then fold_left (any_link_step urljoin base_url)
                        (Dom.find_all_a_href soup)
                        (fold_left (coral_step urljoin base_url)
                           (Dom.select_li_a_coral soup) [])
         else fold_left (coral_step urljoin base_url)
                        (Dom.select_li_a_coral soup) []).
  assert (K : map download_key extracted
              = (if some_item (coral_entries urljoin base_url soup)
                 then coral_entries urljoin base_url soup
                 else any_link_entries urljoin base_url soup)
              /\ Forall (fun d => file_size d = None) extracted).
  { subst extracted. rewrite coral_fold.
    assert (C : map download_key
                  (flat_map (fun link =>
                     if Str.contains "/download/" (Dom.get link "href")
                     then [Download (Dom.get_text link)
                             (full_url urljoin base_url (Dom.get link "href"))
                             [] None]
                     else []) (Dom.select_li_a_coral soup))
                = coral_entries urljoin base_url soup).
    { unfold coral_entries. rewrite map_flat_map. apply flat_map_ext.
      intros link. destruct (Str.contains _ _); reflexivity. }
    assert (S : forall (A B : Type) (f : A -> B) (x : list A),
               some_item (map f x) = some_item x)
      by (intros A B f [|? ?]; reflexivity).
    rewrite <- C, S.
    destruct (flat_map _ (Dom.select_li_a_coral soup)) as [|d0 ds0] eqn:E.
    - simpl. rewrite any_link_fold. split.
      + unfold any_link_entries. rewrite map_flat_map. apply flat_map_ext.
        intros link. destruct (_ && _); reflexivity.
      + apply Forall_flat_map. apply Forall_forall. intros link _.
        destruct (_ && _); repeat constructor.
    - simpl. split; [reflexivity|]. rewrite <- E.
      apply Forall_flat_map. apply Forall_forall. intros link _.
      destruct (Str.contains _ _); repeat constructor. }
  destruct K as [K N].
  destruct (size_fold_facts (Dom.find_all "li" soup) extracted) as [SK SR].
  pose proof (resolve_downloads_facts web
                (fold_left size_step (Dom.find_all "li" soup) extracted)
                (l ++ [quality_url])) as R.
  split.
  - rewrite <- K, <- SK.
    change download_key with (fun d => fst (download_facts d)).
    rewrite <- !(map_map download_facts fst), R. reflexivity.
  - apply (f_equal (map snd)) in R. rewrite !map_map in R.
    change (fun x => snd (download_facts x)) with file_size in R.
    apply (f_equal (@removelast _)) in R.
    rewrite !removelast_map, SR in R.
    assert (G : Forall (fun o : option string => o = None)
                       (map file_size (removelast extracted))).
    { apply Forall_map. clear -N.
      induction extracted as [|x e IH]; [constructor|].
      inversion N as [|? ? Hx N']; subst.
      destruct e as [|y e]; [constructor|].
      change (removelast (x :: y :: e)) with (x :: removelast (y :: e)).
      constructor; [exact Hx | apply IH, N']. }
    rewrite <- R in G. apply Forall_map in G. exact G.
Qed.

Lemma download_links_entries_witness :
  map download_key
      (fst (get_download_links (Site.serve Site.leo) Lib.urljoin Lib.urlparse
              "https://moviesda15.com/leo-720p-hd-movie/" []))
  = [("Leo.720p.mp4", "https://moviesda15.com/download/leo-720p-hd/")]
  /\ Forall (fun d => file_size d = None)
            (removelast
               (fst (get_download_links (Site.serve Site.leo)
                       Lib.urljoin Lib.urlparse
                       "https://moviesda15.com/leo-720p-hd-movie/" []))).
Proof.
  exact (@download_links_entries (Site.serve Site.leo) Lib.urljoin Lib.urlparse
           "https://moviesda15.com/leo-720p-hd-movie/" [] _ eq_refl).
Defined.

(* ================================================================== *)
(** ** The work of the page resolver *)
(* ================================================================== *)

Section ResolverWork.

Variable web : nat -> string -> option Dom.node.
Variable urljoin : string -> string -> string.
Variable urlparse : string -> string * string.
Variable self_base_url : string.

Lemma season_page_log season_url base_url l :
  snd (_get_episodes_from_season_page web urljoin urlparse season_url base_url l)
  = l ++ [season_url].
Proof.
  unfold _get_episodes_from_season_page. run_m. destruct (web _ _); reflexivity.
Qed.

Lemma season_step_flags base_url qs li :
  Forall (fun q => q_is_direct_download q = true
                   /\ Str.nonempty (q_quality q) = true) qs ->
  Forall (fun q => q_is_direct_download q = true
                   /\ Str.nonempty (q_quality q) = true)
         (episode_step urljoin base_url qs li).
Proof.
  intros F. unfold episode_step.
  assert (F' : Forall (fun q => q_is_direct_download q = true
                                /\ Str.nonempty (q_quality q) = true)
                 (match episode_of_li urljoin base_url li with
                  | Some e => qs ++ [e]
                  | None => qs
                  end)).
  { unfold episode_of_li. destruct (Dom.find_a_href li) as [link|]; [|exact F].
    destruct (Str.contains _ _); [|exact F].
    apply Forall_snoc; [exact F|]. split; [reflexivity|]. simpl.
    destruct (Str.nonempty (Dom.get_text link)) eqn:T; [exact T | reflexivity]. }
  destruct (size_match _); [|exact F'].
  apply update_last_Forall; [|exact F']. intros q Hq. exact Hq.
Qed.

Lemma original_step_flags base_url qs div :
  Forall (fun q => q_is_direct_download q = false /\ q_file_size q = None) qs ->
  Forall (fun q => q_is_direct_download q = false /\ q_file_size q = None)
         (original_step urljoin base_url qs div).
Proof.
  intros F. unfold original_step.
  destruct (Dom.find_a_href div) as [link|]; [|exact F].
  destruct (has_quality_token _);
    [apply Forall_snoc; [exact F | split; reflexivity]|].
  destruct (_ && _); [|exact F].
  apply Forall_snoc; [exact F | split; reflexivity].
Qed.

Lemma scan_episodes_log base_url series_slug season_num n :
  forall first episodes l,
  exists k found,
    k <= n
    /\ scan_episodes web base_url series_slug season_num (seq first n) episodes l
       = (episodes ++ found,
          l ++ map (episode_url base_url series_slug season_num) (seq first k))
    /\ length found <= k <= length found + 1
    /\ (k < n -> k = length found + 1)
    /\ map q_url found
       = map (episode_url base_url series_slug season_num)
             (seq first (length found)).
Proof.
  induction n as [|n IH]; intros first episodes l; simpl.
  - exists 0, []. unfold ret. rewrite !app_nil_r. repeat split; simpl; lia.
  - unfold bind, _get_soup.
    assert (stop : exists k found,
               k <= S n
               /\ (episodes, l ++ [episode_url base_url series_slug season_num first])
                  = (episodes ++ found,
                     l ++ map (episode_url base_url series_slug season_num)
                              (seq first k))
               /\ length found <= k <= length found + 1
               /\ (k < S n -> k = length found + 1)
               /\ map q_url found
                  = map (episode_url base_url series_slug season_num)
                        (seq first (length found))).
    { exists 1, []. rewrite app_nil_r. repeat split; simpl; lia. }
    destruct (web (length l) _) as [soup|]; [|exact stop].
    destruct (some_item (Dom.select_dlink_a soup)); [|exact stop]. clear stop.
    destruct (IH (S first)
                (episodes ++ [QualityOption (episode_title soup first)
                                (episode_url base_url series_slug season_num first)
                                true None])
                (l ++ [episode_url base_url series_slug season_num first]))
      as (k & found & Hk & E & B & Stop & U).
    exists (S k), (QualityOption (episode_title soup first)
                     (episode_url base_url series_slug season_num first)
                     true None :: found).
    split; [lia|]. split; [rewrite E, <- !app_assoc; reflexivity|].
    split; [simpl; lia|]. split; [simpl; intros; lia|].
    simpl. rewrite U. reflexivity.
Qed.

Lemma quality_loop_requests base_url divs : forall qualities l,
  length (snd (quality_loop web urljoin urlparse base_url divs qualities l))
  <= length l + length divs.
Proof.
  induction divs as [|d divs IH]; intros qualities l; simpl; [lia|].
  destruct (Dom.find_a_href d) as [link|];
    [|specialize (IH qualities l); lia].
  destruct (is_original_href _ _).
  - unfold bind. rewrite original_page_run. simpl.
    rewrite length_app. simpl. lia.
  - destruct (is_season_href _);
      [|specialize (IH (direct_quality urljoin base_url (Dom.get link "href")
                          (Dom.get_text link) qualities) l); lia].
    unfold bind.
    pose proof (season_page_log (full_url urljoin base_url (Dom.get link "href"))
                  (Some base_url) l) as S.
    destruct (_get_episodes_from_season_page web urljoin urlparse _ _ l)
      as [season_qualities l1].
    simpl in S. subst l1.
    destruct (some_item season_qualities).
    + simpl. rewrite length_app. simpl. lia.
    + specialize (IH (direct_quality urljoin base_url (Dom.get link "href")
                        (Dom.get_text link) qualities)
                     (l ++ [full_url urljoin base_url (Dom.get link "href")])).
      rewrite length_app in IH. simpl in IH. lia.
Qed.

End ResolverWork.

Lemma probing_is_bounded_aux web movie_url base_url l :
  length (snd (_scan_moviesda_episodes web movie_url base_url l))
  <= length l + 20.
Proof.
  unfold _scan_moviesda_episodes.
  destruct (parse_series_url movie_url) as [[series_slug season_num]|];
    [|simpl; lia].
  destruct (scan_episodes_log web base_url series_slug season_num 20 1 [] l)
    as (k & found & Hk & E & _).
  rewrite E. simpl. rewrite length_app, length_map, length_seq. lia.
Qed.

(** X13: whatever the site answers, sequential probing requests at most
    20 pages, the episode URLs 01, 02, ... in order, and returns one
    episode, with that URL, for every request but possibly the last; it
    stops before episode 20 only on a request that gave no episode. A URL
    that names no season is not probed at all. *)
Theorem probing_is_bounded web movie_url base_url l :
  let r := _scan_moviesda_episodes web movie_url base_url l in
  match parse_series_url movie_url with
  | None => r = ([], l)
  | Some (series_slug, season_num) =>
      exists k,
        k <= 20
        /\ snd r = l ++ map (episode_url base_url series_slug season_num)
                           (seq 1 k)
        /\ length (fst r) <= k <= length (fst r) + 1
        /\ (k < 20 -> k = length (fst r) + 1)
        /\ map q_url (fst r)
           = map (episode_url base_url series_slug season_num)
                 (seq 1 (length (fst r)))
  end.
Proof.
  unfold _scan_moviesda_episodes.
  destruct (parse_series_url movie_url) as [[series_slug season_num]|];
    [|reflexivity].
  destruct (scan_episodes_log web base_url series_slug season_num 20 1 [] l)
    as (k & found & Hk & E & B & Stop & U).
  exists k. rewrite E. simpl. auto.
Qed.

(** X14: resolving the qualities of a movie requests the movie page and
    then at most one page per [div.f] container of it, plus at most 20
    probed episode pages; when the movie page cannot be fetched it returns
    no quality and no images after that single request. *)
Theorem quality_options_requests_are_bounded
  web urljoin urlparse self_base_url url l :
  match web (length l) url with
  | Some soup =>
      requests (get_quality_options web urljoin urlparse self_base_url url) l
      <= 1 + length (Dom.select "div" "f" soup) + 20
  | None =>
      get_quality_options web urljoin urlparse self_base_url url l
      = (([], None), l ++ [url])
  end.
Proof.
  unfold requests, get_quality_options. run_m.
  destruct (web (length l) url) as [soup|]; [|reflexivity].
  pose proof (quality_loop_requests web urljoin urlparse (origin urlparse url)
                (Dom.select "div" "f" soup) [] (l ++ [url])) as Q.
  destruct (quality_loop web urljoin urlparse _ _ [] _) as [[qs|qs] l1];
    simpl in *; rewrite length_app in Q; simpl in Q.
  - lia.
  - destruct (_ && _); simpl; [|lia].
    pose proof (probing_is_bounded_aux web url (origin urlparse url) l1) as P.
    destruct (_scan_moviesda_episodes web url _ l1) as [episodes l2].
    simpl in *. lia.
Qed.

(** X15: reading an "Original" page is a single request; the options it
    yields are never flagged as direct downloads and carry no file size,
    and there is none when the page cannot be fetched. *)
Theorem original_page_options web urljoin urlparse original_url base_url l :
  let r := _get_quality_from_original_page web urljoin urlparse
             original_url base_url l in
  snd r = l ++ [original_url]
  /\ Forall (fun q => q_is_direct_download q = false /\ q_file_size q = None)
            (fst r)
  /\ (web (length l) original_url = None -> fst r = []).
Proof.
  unfold _get_quality_from_original_page. run_m.
  destruct (web (length l) original_url) as [soup|]; simpl.
  - repeat split; [|discriminate].
    apply fold_left_inv; [|constructor].
    intros qs div. apply original_step_flags.
  - repeat split. constructor.
Qed.

(** X16: reading a season page is a single request; every episode it
    yields is flagged as a direct download and has a label that is not
    empty (the text of its link, or "Episode"), and there is none when the
    page cannot be fetched. *)
Theorem season_page_options web urljoin urlparse season_url base_url l :
  let r := _get_episodes_from_season_page web urljoin urlparse
             season_url base_url l in
  snd r = l ++ [season_url]
  /\ Forall (fun q => q_is_direct_download q = true
                      /\ Str.nonempty (q_quality q) = true) (fst r)
  /\ (web (length l) season_url = None -> fst r = []).
Proof.
  unfold _get_episodes_from_season_page. run_m.
  destruct (web (length l) season_url) as [soup|]; simpl.
  - repeat split; [|discriminate].
    apply Forall_rev. apply fold_left_inv; [|constructor].
    intros qs li. apply season_step_flags.
  - repeat split. constructor.
Qed.

(* ================================================================== *)
(** ** The images of a movie page *)
(* ================================================================== *)

Section ImageFacts.

Variable urljoin : string -> string -> string.
Variable base_url : string.

Let resolved (img : Dom.node) : string :=
  full_url urljoin base_url (Dom.get img "src").

Lemma image_step_cases acc img :
  image_step urljoin base_url acc img
  = if is_poster_img urljoin base_url img
    then Images (Some (resolved img)) (img_screenshots acc)
    else if is_screenshot_img urljoin base_url img
    then Images (img_poster_url acc) (img_screenshots acc ++ [resolved img])
    else acc.
Proof.
  unfold image_step, is_screenshot_img, is_poster_img, resolved.
  destruct (Str.nonempty (Dom.get img "src")); simpl; [|reflexivity].
  destruct (Str.contains "/uploads/posters/" _ || _); simpl; reflexivity.
Qed.

Lemma hd_error_snoc {A} (l : list A) x :
  hd_error (l ++ [x])
  = match hd_error l with Some y => Some y | None => Some x end.
Proof. destruct l; reflexivity. Qed.

Lemma image_fold imgs : forall acc,
  img_screenshots (fold_left (image_step urljoin base_url) imgs acc)
  = img_screenshots acc
    ++ map resolved (filter (is_screenshot_img urljoin base_url) imgs)
  /\ img_poster_url (fold_left (image_step urljoin base_url) imgs acc)
     = match hd_error (rev (map resolved
                              (filter (is_poster_img urljoin base_url) imgs)))
       with
       | Some p => Some p
       | None => img_poster_url acc
       end.
Proof.
  induction imgs as [|img imgs IH]; intros acc; simpl.
  - rewrite app_nil_r. split; reflexivity.
  - destruct (IH (image_step urljoin base_url acc img)) as [S P].
    rewrite S, P, image_step_cases.
    assert (X : is_poster_img urljoin base_url img = true ->
                is_screenshot_img urljoin base_url img = false).
    { unfold is_screenshot_img. intros ->. simpl.
      rewrite andb_false_r. reflexivity. }
    destruct (is_poster_img urljoin base_url img) eqn:Po.
    + rewrite (X eq_refl). simpl. split; [reflexivity|].
      rewrite hd_error_snoc. destruct (hd_error _); reflexivity.
    + destruct (is_screenshot_img urljoin base_url img); simpl;
        [rewrite <- app_assoc|]; split; reflexivity.
Qed.

End ImageFacts.

(** X17: the screenshots of a movie page are the resolved [src] of its
    [img] elements that have a [src], are no poster, and have the
    screenshot path segment or "screenshot" in their [alt], in document
    order; an image is never both. Among the plain images the last poster
    image of the page wins. *)
Theorem images_of_a_page urljoin urlparse self_base_url soup url :
  let base_url :=
    if Str.nonempty url then origin urlparse url else self_base_url in
  let resolved := fun img => full_url urljoin base_url (Dom.get img "src") in
  img_screenshots (get_movie_images urljoin urlparse self_base_url soup url)
  = map resolved
        (filter (is_screenshot_img urljoin base_url) (Dom.find_all "img" soup))
  /\ img_poster_url (plain_images urljoin base_url soup)
     = hd_error (rev (map resolved
                        (filter (is_poster_img urljoin base_url)
                                (Dom.find_all "img" soup))))
  /\ (forall img, is_poster_img urljoin base_url img
                  && is_screenshot_img urljoin base_url img = false).
Proof.
  intros base_url resolved. unfold get_movie_images. fold base_url.
  rewrite picture_fold_screenshots.
  destruct (image_fold urljoin base_url (Dom.find_all "img" soup)
              (Images None [])) as [S P].
  split; [exact S|]. split.
  - unfold plain_images. rewrite P. destruct (hd_error _); reflexivity.
  - intros img. unfold is_screenshot_img.
    destruct (is_poster_img urljoin base_url img); simpl;
      [rewrite andb_false_r|]; reflexivity.
Qed.

(* ================================================================== *)
(** ** The run *)
(* ================================================================== *)

Section MainFacts.

Variable web : nat -> string -> option Dom.node.
Variable urljoin : string -> string -> string.
Variable urlparse : string -> string * string.
Variable self_base_url : string.

Lemma site_bases_fold category_urls : forall base_urls,
  NoDup base_urls ->
  let r := fold_left (fun base_urls cat_url =>
                        let base := origin urlparse cat_url in
                        if existsb (String.eqb base) base_urls then base_urls
                        else base_urls ++ [base])
                     category_urls base_urls in
  NoDup r
  /\ forall b, In b r <->
               In b base_urls
               \/ exists u, In u category_urls /\ b = origin urlparse u.
Proof.
  induction category_urls as [|u urls IH]; intros base_urls N; simpl.
  - split; [exact N|]. intros b. split; [auto | intros [H | (u & [] & _)]; exact H].
  - destruct (existsb (String.eqb (origin urlparse u)) base_urls) eqn:E.
    + destruct (IH base_urls N) as [N' I]. split; [exact N'|].
      intros b. rewrite I. split.
      * intros [H | (u' & Hu & ->)]; [left; exact H|].
        right. exists u'. split; [right; exact Hu | reflexivity].
      * intros [H | (u' & [<- | Hu] & ->)]; [left; exact H | | ].
        -- left. apply existsb_exists in E. destruct E as (x & Hx & Ex).
           apply String.eqb_eq in Ex. subst x. exact Hx.
        -- right. exists u'. split; [exact Hu | reflexivity].
    + assert (NI : ~ In (origin urlparse u) base_urls).
      { intros H. assert (T : existsb (String.eqb (origin urlparse u)) base_urls
                              = true).
        { apply existsb_exists. exists (origin urlparse u).
          split; [exact H | apply String.eqb_refl]. }
        rewrite T in E. discriminate E. }
      destruct (IH (base_urls ++ [origin urlparse u])
                  (@NoDup_snoc _ base_urls (origin urlparse u) N NI))
        as [N' I].
      split; [exact N'|]. intros b. rewrite I, in_app_iff. simpl. split.
      * intros [[H | [<- | []]] | (u' & Hu & ->)].
        -- left. exact H.
        -- right. exists u. split; [left; reflexivity | reflexivity].
        -- right. exists u'. split; [right; exact Hu | reflexivity].
      * intros [H | (u' & [<- | Hu] & ->)].
        -- left. left. exact H.
        -- left. right. left. reflexivity.
        -- right. exists u'. split; [exact Hu | reflexivity].
Qed.

Lemma search_sites_hit movie_name base_urls : forall l,
  match fst (search_sites web urljoin urlparse self_base_url
               movie_name base_urls l) with
  | Some d =>
      exists base_url l' hit,
        In base_url base_urls
        /\ first_hit web urljoin self_base_url movie_name base_url l' = Some hit
        /\ movie_url d = m_url hit /\ title d = Some (m_title hit)
  | None => True
  end.
Proof.
  induction base_urls as [|b base_urls IH]; intros l; simpl; [exact I|].
  unfold bind.
  pose proof (eq_refl (first_hit web urljoin self_base_url movie_name b l)) as H.
  unfold first_hit at 1 in H. cbv zeta in H.
  destruct (search_movie web urljoin self_base_url movie_name (Some b) 1 l)
    as [m1 l1].
  simpl fst in H. simpl snd in H.
  assert (E : forall movie m2 l2,
             (if negb (some_item m1)
              then smart_search_movie web self_base_url movie_name (Some b) 1
              else ret m1) l1 = (movie :: m2, l2) ->
             first_hit web urljoin self_base_url movie_name b l = Some movie).
  { intros movie m2 l2 R. rewrite <- H. destruct m1 as [|m m1]; simpl in R.
    - rewrite R. reflexivity.
    - unfold ret in R. injection R as -> _ _. reflexivity. }
  destruct ((if negb (some_item m1)
             then smart_search_movie web self_base_url movie_name (Some b) 1
             else ret m1) l1) as [[|movie m2] l2].
  - specialize (IH l2).
    destruct (fst (search_sites web urljoin urlparse self_base_url
                     movie_name base_urls l2)) as [d|]; [|exact I].
    destruct IH as (b' & l' & hit & Hb & Hh & Hu & Ht).
    exists b', l', hit. split; [right; exact Hb|]. repeat split; assumption.
  - pose proof (scrape_movie_url web urljoin urlparse self_base_url
                  (m_url movie) l2) as U.
    destruct (scrape_movie web urljoin urlparse self_base_url (m_url movie) l2)
      as [movie_data l3].
    simpl in *. exists b, l, movie.
    split; [left; reflexivity|]. split; [apply (E movie m2 l2 eq_refl)|].
    split; [exact U | reflexivity].
Qed.

Lemma search_all_hits search_list base_urls : forall l,
  let r := fst (search_all web urljoin urlparse self_base_url
                  search_list base_urls l) in
  length r <= length search_list
  /\ Forall (scraped_hit web urljoin self_base_url search_list base_urls) r.
Proof.
  induction search_list as [|name names IH]; intros l; simpl.
  - split; [lia | constructor].
  - unfold bind.
    pose proof (search_sites_hit name base_urls l) as T.
    destruct (search_sites web urljoin urlparse self_base_url name base_urls l)
      as [found l1].
    destruct (IH l1) as [L F].
    destruct (search_all web urljoin urlparse self_base_url names base_urls l1)
      as [results l2].
    simpl in *.
    assert (F' : Forall (scraped_hit web urljoin self_base_url (name :: names)
                           base_urls) results).
    { eapply Forall_impl; [|exact F].
      intros d (n & b & l' & hit & Hn & Hb & Hh & Hu & Ht).
      exists n, b, l', hit. split; [right; exact Hn|].
      repeat split; assumption. }
    destruct found as [movie_data|]; simpl.
    + split; [lia|]. constructor; [|exact F'].
      destruct T as (b & l' & hit & Hb & Hh & Hu & Ht).
      exists name, b, l', hit. split; [left; reflexivity|].
      repeat split; assumption.
    + split; [lia | exact F'].
Qed.

Lemma scrape_listed_entries movies : forall l,
  Forall (fun d => exists movie,
                     In movie movies
                     /\ movie_url d = m_url movie
                     /\ title d = Some (m_title movie))
         (fst (scrape_listed web urljoin urlparse self_base_url movies l)).
Proof.
  induction movies as [|m movies IH]; intros l; simpl; [constructor|].
  unfold bind.
  pose proof (scrape_movie_url web urljoin urlparse self_base_url (m_url m) l) as U.
  destruct (scrape_movie web urljoin urlparse self_base_url (m_url m) l)
    as [movie_data l1].
  specialize (IH l1).
  destruct (scrape_listed web urljoin urlparse self_base_url movies l1)
    as [rest l2].
  simpl in *. constructor.
  - exists m. split; [left; reflexivity|]. split; [exact U | reflexivity].
  - eapply Forall_impl; [|exact IH].
    intros d (x & Hx & Hu & Ht). exists x.
    split; [right; exact Hx|]. split; assumption.
Qed.

Lemma scrape_category_entries category_url max_pages max_movies l :
  let r := fst (scrape_category web urljoin urlparse self_base_url
                  category_url max_pages max_movies l) in
  Forall (scraped_entry web urljoin urlparse [category_url] max_pages) r
  /\ ((0 <= max_movies)%Z -> length r <= Z.to_nat max_movies).
Proof.
  unfold scrape_category, bind.
  destruct (get_movies_from_category web urljoin urlparse category_url
              (Z.to_nat max_pages) l) as [movies l1] eqn:G.
  pose proof (scrape_listed_entries (py_prefix max_movies movies) l1) as F.
  destruct (scrape_listed_follows web urljoin urlparse self_base_url
              (py_prefix max_movies movies) l1) as [U _].
  set (r := fst (scrape_listed web urljoin urlparse self_base_url
                   (py_prefix max_movies movies) l1)) in *.
  split.
  - eapply Forall_impl; [|exact F].
    intros d (x & Hx & Hu & Ht). exists category_url, l, x.
    split; [left; reflexivity|]. split; [|split; assumption].
    rewrite G. simpl fst. rewrite py_prefix_kept in Hx.
    rewrite <- (firstn_skipn
                  (if (0 <=? max_movies)%Z
                   then Nat.min (Z.to_nat max_movies) (length movies)
                   else length movies - Z.to_nat (- max_movies)) movies).
    apply in_or_app. left. exact Hx.
  - intros Pos. rewrite <- (length_map movie_url), U, length_map.
    unfold py_prefix. apply Z.leb_le in Pos. rewrite Pos.
    apply firstn_le_length.
Qed.

Lemma category_all_entries category_urls max_pages max_movies : forall l,
  let r := fst (category_all web urljoin urlparse self_base_url
                  category_urls max_pages max_movies l) in
  Forall (scraped_entry web urljoin urlparse category_urls max_pages) r
  /\ ((0 <= max_movies)%Z ->
      length r <= length category_urls * Z.to_nat max_movies).
Proof.
  induction category_urls as [|u urls IH]; intros l; simpl.
  - split; [constructor | simpl; lia].
  - unfold bind.
    destruct (scrape_category_entries u max_pages max_movies l) as [F1 L1].
    destruct (scrape_category web urljoin urlparse self_base_url u
                max_pages max_movies l) as [site_results l1].
    destruct (IH l1) as [F2 L2].
    destruct (category_all web urljoin urlparse self_base_url urls
                max_pages max_movies l1) as [results l2].
    simpl in *. split.
    + apply Forall_app. split.
      * eapply Forall_impl; [|exact F1].
        intros d (c & l' & x & [<- | []] & Hx & Hu & Ht).
        exists u, l', x. split; [left; reflexivity|].
        repeat split; assumption.
      * eapply Forall_impl; [|exact F2].
        intros d (c & l' & x & Hc & Hx & Hu & Ht).
        exists c, l', x. split; [right; exact Hc|].
        repeat split; assumption.
    + intros Pos. rewrite length_app. specialize (L1 Pos). specialize (L2 Pos).
      lia.
Qed.

End MainFacts.

(** X18: the sites a search run goes through are the origins of the
    category URLs, each once, whatever the category URLs repeat. *)
Theorem site_bases_are_distinct_origins urlparse category_urls :
  NoDup (site_bases urlparse category_urls)
  /\ forall b, In b (site_bases urlparse category_urls)
               <-> exists u, In u category_urls /\ b = origin urlparse u.
Proof.
  destruct (site_bases_fold urlparse category_urls (NoDup_nil _)) as [N I].
  split; [exact N|]. intros b. unfold site_bases. rewrite I.
  split; [intros [[] | H]; exact H | intros H; right; exact H].
Qed.

(** X19: a run in search mode yields at most one movie per name of the
    query, and every movie of its results carries the URL and the title of
    the hit for one of the names on one of the sites: the first match of
    [search_movie], or, when that finds none, of [smart_search_movie]. A
    run in category mode yields only movies that carry the URL and the
    title of an entry of the listing of one of the category URLs, and at
    most [max_movies] of them per category URL when [max_movies] is not
    negative. *)
Theorem main_results_are_bounded_and_titled
  web urljoin urlparse self_base_url category_urls_str search_query_str
  max_pages max_movies l :
  let results :=
    fst (main_results web urljoin urlparse self_base_url
           category_urls_str search_query_str max_pages max_movies l) in
  let category_urls := Str.comma_list category_urls_str in
  let search_list := Str.comma_list (Str.strip search_query_str) in
  if Str.nonempty (Str.strip search_query_str)
  then length results <= length search_list
       /\ Forall (scraped_hit web urljoin self_base_url search_list
                              (site_bases urlparse category_urls)) results
  else Forall (scraped_entry web urljoin urlparse category_urls max_pages)
              results
       /\ ((0 <= max_movies)%Z ->
           length results <= length category_urls * Z.to_nat max_movies).
Proof.
  unfold main_results.
  destruct (Str.nonempty (Str.strip search_query_str)).
  - apply search_all_hits.
  - apply category_all_entries.
Qed.

(** X20: a run writes its playlists into the directory "playlists", one
    per result that has at least one quality and in the order of the
    results; a run without results writes none. *)
Theorem main_writes_one_playlist_per_result
  web urljoin urlparse self_base_url url_path unquote path_join
  category_urls_str search_query_str max_pages max_movies l :
  let r := fst (main web urljoin urlparse self_base_url url_path unquote
                  path_join category_urls_str search_query_str
                  max_pages max_movies l) in
  fst r = fst (main_results web urljoin urlparse self_base_url
                 category_urls_str search_query_str max_pages max_movies l)
  /\ snd r
     = map (fun movie => (m3u_path path_join "playlists" movie,
                          playlist url_path unquote movie))
           (filter (fun movie => some_item (qualities movie)) (fst r))
  /\ (fst r = [] -> snd r = []).
Proof.
  unfold main, bind.
  destruct (main_results web urljoin urlparse self_base_url category_urls_str
              search_query_str max_pages max_movies l) as [results l1].
  destruct results as [|m results]; simpl.
  - repeat split.
  - rewrite save_to_m3u_closed. repeat split. discriminate.
Qed.

(* ================================================================== *)
(** ** The listing and the search on the example sites *)
(* ================================================================== *)

Example category_2025_listing :
  get_movies_from_category (Site.serve Site.category_2025)
    Lib.urljoin Lib.urlparse "https://moviesda15.com/tamil-2025-movies/" 3 []
  = ([MovieRef "Leo (2023)" "https://moviesda15.com/leo-2023-tamil-movie/";
      MovieRef "Vikram (2022)" "https://moviesda15.com/vikram-2022-tamil-movie/";
      MovieRef "Jailer (2023)" "https://moviesda15.com/jailer-2023-tamil-movie/"],
     ["https://moviesda15.com/tamil-2025-movies/";
      "https://moviesda15.com/tamil-2025-movies/?page=2";
      "https://moviesda15.com/tamil-2025-movies/?page=3"]).
Proof. vm_compute. reflexivity. Qed.

Example index_search_for_leo :
  search_movie (Site.serve Site.index_l) Lib.urljoin "https://moviesda15.com"
    "Leo (2023)" None 10 []
  = ([MovieRef "Leo (2023)" "https://moviesda15.com/leo-2023-tamil-movie/"],
     ["https://moviesda15.com/tamil-movies/l/";
      "https://moviesda15.com/tamil-movies/l/?page=2"]).
Proof. vm_compute. reflexivity. Qed.

Example guesses_for_leo :
  possible_urls "https://moviesda15.com" (movie_slug (clean_query "Leo (2023)"))
                (query_year "Leo (2023)")
  = ["https://moviesda15.com/leo-2023-movie/";
     "https://moviesda15.com/leo-2023-tamil-movie/";
     "https://moviesda15.com/leo-movie/";
     "https://moviesda15.com/leo-tamil-movie/"].
Proof. vm_compute. reflexivity. Qed.
